(** * KeepLiveService: the native force-stop guard (fw_force_stop.cpp)

    A shallow embedding of [framework/src/main/cpp/fw_force_stop.cpp].
    The guard is a process that talks to the kernel (open, flock, remove,
    fork, killpg) and to the Binder driver, and that may wait for ever in a
    polling loop.  Each C function is therefore an interaction tree over the
    calls it makes; what the kernel answers is left to the environment.

    - [sysE] lists the calls, with the arguments the source passes.
    - [run t tr o] says that [tr] is the sequence of calls and answers of an
      execution of [t], complete ([o = Some r]) or cut short ([o = None]).
    - [os_call] is a small model of the kernel side (names, open file
      descriptions, flock owners, process groups) used where a statement
      depends on what the kernel answers.

    Logging ([LOGD], [LOGI], [LOGW], [LOGE]) is left out throughout; the
    calls made to compute what is logged ([getpid]) are kept. *)

From Stdlib Require Import ZArith List String Bool Lia Ascii.
From ITree Require Import ITree ITreeFacts.
From ITree Require Import Eq.Shallow Axioms.
Import ListNotations.
Import ITreeNotations.
Local Open Scope string_scope.
Local Open Scope list_scope.
Local Open Scope Z_scope.
Local Open Scope itree_scope.

Set Implicit Arguments.
Set Contextual Implicit.

(* ===================================================================== *)
(** * Constants of the system headers *)
(* ===================================================================== *)

(** <fcntl.h>, <sys/file.h>, <sys/stat.h>, <signal.h> (Linux, asm-generic).
    [O_LARGEFILE] differs between ABIs; only its being distinct from
    [O_CREAT] matters below. *)
Definition O_RDONLY : Z := 0.
Definition O_CREAT : Z := 64.
Definition O_LARGEFILE : Z := 32768.
Definition S_IRUSR : Z := 256.
Definition S_IWUSR : Z := 128.
Definition LOCK_EX : Z := 2.
Definition LOCK_NB : Z := 4.
Definition LOCK_UN : Z := 8.
Definition SIGTERM : Z := 15.

(** [#define CHECK_SERVICE_TRANSACTION 1] *)
Definition CHECK_SERVICE_TRANSACTION : Z := 1.

(** Conversion to [int32_t], as at the call [write_transact(amsHandle, ...)]
    whose first parameter is an [int32_t] while [amsHandle] is a
    [uint32_t]. *)
Definition to_int32 (z : Z) : Z := (z + 2 ^ 31) mod 2 ^ 32 - 2 ^ 31.

(* ===================================================================== *)
(** * Parcels *)
(* ===================================================================== *)

(** [struct flat_binder_object] of <linux/android/binder.h>. *)
Record flat_binder_object : Type := mkFlat {
  hdr_type : Z;
  flat_flags : Z;
  handle : Z;
  cookie : Z
}.

(** What the source writes into a [Parcel], call by call.  A [String16]
    built from a C string is kept as that string; [writeString16(NULL, 0)]
    is [WString16 None]. *)
Inductive pitem : Type :=
| WInterfaceToken (name : string)
| WNullBinder
| WInt32 (v : Z)
| WString16 (s : option string).

(** Modelled from the spec: class [Parcel] (binder/cParcel.h is not among
    the sources).  A parcel carries the items written to it and the object
    references embedded in it; [readObject] hands out the first embedded
    reference, or NULL when the parcel carries none. *)
Record Parcel : Type := mkParcel {
  items : list pitem;
  objects : list flat_binder_object
}.

Definition emptyParcel : Parcel := mkParcel [] [].

Definition pwrite (p : Parcel) (i : pitem) : Parcel :=
  mkParcel (items p ++ [i]) (objects p).

Definition readObject (p : Parcel) : option flat_binder_object :=
  match objects p with
  | [] => None
  | flat :: _ => Some flat
  end.

(** A [jstring] argument: NULL or a Java string. *)
Definition jstring : Type := option string.

(* ===================================================================== *)
(** * The calls the guard makes *)
(* ===================================================================== *)

Variant sysE : Type -> Type :=
| Open (path : string) (flags : Z) (mode : option Z) : sysE Z
| Flock (fd : Z) (operation : Z) : sysE Z
| Usleep (usec : Z) : sysE unit
| Remove (path : string) : sysE Z
| Fopen (path : string) (mode : string) : sysE Z
| Fclose (fp : Z) : sysE Z
| Getpid : sysE Z
| Killpg (pgrp : Z) (sig : Z) : sysE Z
| Fork : sysE Z
| Exit (status : Z) : sysE Empty_set
| Waitpid (pid : Z) (options : Z) : sysE Z
| Setsid : sysE Z
| OpenDriver : sysE Z
| InitProcessState (driverFD : Z) : sysE unit
| UnInitProcessState (driverFD : Z) : sysE unit
| WriteTransact (target : Z) (code : Z) (data : Parcel) (wantReply : bool)
                (flags : Z) (driverFD : Z) : sysE (Z * Parcel)
| JniAbort : sysE Empty_set
| ReleaseStringUTFChars (s : jstring) (chars : string) : sysE unit
| SetProcessName (name : string) : sysE unit.

(** One call together with the answer it got. *)
Inductive event : Type :=
| Ev {T : Type} (e : sysE T) (x : T).

Definition trace : Type := list event.

(* ===================================================================== *)
(** * Executions of an interaction tree *)
(* ===================================================================== *)

(** [runN n t tr o]: in [n] steps, [t] makes the calls of [tr], getting the
    answers recorded there, and then either has returned [r] ([o = Some r])
    or is observed no further ([o = None]). *)
Inductive runN {R : Type} : nat -> itree sysE R -> trace -> option R -> Prop :=
| runN_stop t : runN 0 t [] None
| runN_ret t r : observe t = RetF r -> runN 0 t [] (Some r)
| runN_tau n t t' tr o :
    observe t = TauF t' -> runN n t' tr o -> runN (S n) t tr o
| runN_vis n t T (e : sysE T) k x tr o :
    observe t = VisF e k -> runN n (k x) tr o -> runN (S n) t (Ev e x :: tr) o.

Definition run {R : Type} (t : itree sysE R) (tr : trace) (o : option R) : Prop :=
  exists n, runN n t tr o.

(** A C [while] loop over the loop variables [s]: [cond] evaluates the
    condition (it may make calls and assign), [body] runs one iteration. *)
Definition while {St : Type} (cond : St -> itree sysE (bool * St))
           (body : St -> itree sysE St) : St -> itree sysE St :=
  ITree.iter (fun s =>
    cs <- cond s ;;
    if fst cs then (s' <- body (snd cs) ;; Ret (inl s'))
    else Ret (inr (snd cs))).

(** The single calls, as trees. *)
Definition open2 (path : string) (flags : Z) : itree sysE Z :=
  ITree.trigger (Open path flags None).
Definition open3 (path : string) (flags mode : Z) : itree sysE Z :=
  ITree.trigger (Open path flags (Some mode)).
Definition flock (fd operation : Z) : itree sysE Z :=
  ITree.trigger (Flock fd operation).
Definition usleep (usec : Z) : itree sysE unit :=
  ITree.trigger (Usleep usec).
Definition remove (path : string) : itree sysE Z :=
  ITree.trigger (Remove path).
Definition exit {R : Type} (status : Z) : itree sysE R :=
  x <- ITree.trigger (Exit status) ;; match x : Empty_set with end.
(** [env->GetStringUTFChars(s, 0)]: the characters of [s]; on NULL the
    runtime aborts the process. *)
Definition GetStringUTFChars (s : jstring) : itree sysE string :=
  match s with
  | Some chars => Ret chars
  | None => x <- ITree.trigger JniAbort ;; match x : Empty_set with end
  end.
Definition write_transact (target code : Z) (data : Parcel) (wantReply : bool)
           (flags driverFD : Z) : itree sysE (Z * Parcel) :=
  ITree.trigger (WriteTransact (to_int32 target) code data wantReply flags driverFD).

(* ===================================================================== *)
(** * fw_force_stop.cpp *)
(* ===================================================================== *)

Definition pwrites (out : Parcel) (l : list pitem) : Parcel :=
  fold_left pwrite l out.

(** [writeIntent] *)
Definition writeIntent (out : Parcel) (packageName className : string) : Parcel :=
  pwrites out
    [ WString16 None;               (* mAction *)
      WInt32 0;                     (* mData *)
      WString16 None;               (* mType *)
      WString16 None;               (* mIdentifier *)
      WInt32 0;                     (* mFlags *)
      WString16 None;               (* mPackage *)
      WString16 (Some packageName); (* mComponent.packageName *)
      WString16 (Some className);   (* mComponent.className *)
      WInt32 0;                     (* mSourceBounds *)
      WInt32 0;                     (* mCategories *)
      WInt32 0;                     (* mSelector *)
      WInt32 0;                     (* mClipData *)
      WInt32 (-2);                  (* mContentUserHint *)
      WInt32 (-1) ].                (* mExtras *)

(** [writeStartServiceParcel] *)
Definition writeStartServiceParcel (out : Parcel) (packageName className : string)
           (sdk_version : Z) : Parcel :=
  let out := pwrite out (WInterfaceToken "android.app.IActivityManager") in
  let out := pwrite out WNullBinder in
  if 26 <=? sdk_version then
    let out := pwrite out (WInt32 1) in
    let out := writeIntent out packageName className in
    pwrites out [WString16 None; WInt32 0; WString16 (Some packageName); WInt32 0]
  else if 23 <=? sdk_version then
    let out := pwrite out (WInt32 1) in
    let out := writeIntent out packageName className in
    pwrites out [WString16 None; WString16 (Some packageName); WInt32 0]
  else
    let out := pwrite out (WInt32 1) in
    let out := writeIntent out packageName className in
    pwrites out [WString16 None; WInt32 0].

(** [getServiceHandle]: the status of the transaction is not looked at. *)
Definition getServiceHandle (serviceName : string) (driverFD : Z) : itree sysE Z :=
  let data := pwrites emptyParcel
                [WInterfaceToken "android.os.IServiceManager";
                 WString16 (Some serviceName)] in
  sr <- write_transact 0 CHECK_SERVICE_TRANSACTION data true 0 driverFD ;;
  let reply := snd sr in
  match readObject reply with
  | Some flat => Ret (handle flat)
  | None => Ret 0
  end.

(** [createFileIfNotExist] *)
Definition createFileIfNotExist (path : string) : itree sysE unit :=
  fp <- ITree.trigger (Fopen path "ab+") ;;
  if fp =? 0 then Ret tt else (ITree.trigger (Fclose fp) ;; Ret tt).

(** The opening sequence shared by [lockFile], [waitForFileLock] and
    [notifyAndWaitFor]: open read-only, and create the file when that
    fails. *)
Definition openOrCreate (path : string) : itree sysE Z :=
  fd <- open2 path (Z.lor O_RDONLY O_LARGEFILE) ;;
  if fd =? -1 then open3 path O_CREAT (Z.lor S_IRUSR S_IWUSR) else Ret fd.

(** [lockFile]: 1 when the lock was taken, 0 otherwise.  The descriptor is
    kept open on purpose. *)
Definition lockFile (lockFilePath : string) : itree sysE Z :=
  fd <- openOrCreate lockFilePath ;;
  if fd =? -1 then Ret 0 else
  result <- flock fd (Z.lor LOCK_EX LOCK_NB) ;;
  if result =? -1 then Ret 0 else Ret 1.

(** [waitForFileLock] *)
Definition waitForFileLock (lockFilePath : string) : itree sysE bool :=
  fd <- openOrCreate lockFilePath ;;
  while (fun _ : unit =>
           r <- flock fd (Z.lor LOCK_EX LOCK_NB) ;; Ret (negb (r =? -1), tt))
        (fun _ => usleep 1000) tt ;;
  result <- flock fd LOCK_EX ;;
  Ret (negb (result =? -1)).

(** [notifyAndWaitFor] *)
Definition notifyAndWaitFor (observerSelfPath observerDaemonPath : string)
  : itree sysE unit :=
  openOrCreate observerSelfPath ;;
  while (fun _ : unit =>
           r <- open2 observerDaemonPath (Z.lor O_RDONLY O_LARGEFILE) ;;
           Ret (r =? -1, tt))
        (fun _ => usleep 1000) tt ;;
  remove observerDaemonPath ;;
  Ret tt.

(** [getStartServiceTransactionCode] *)
Definition getStartServiceTransactionCode (sdkVersion : Z) : Z :=
  match sdkVersion with
  | 26 | 27 => 26
  | 28 => 30
  | 29 => 24
  | _ => 34
  end.

(** [doDaemon].  The loop variables of step 1 are [(tryCount, lockStatus)]. *)
Definition doDaemon (indicatorSelfPath indicatorDaemonPath
                     observerSelfPath observerDaemonPath
                     packageName serviceName : string)
           (sdkVersion transactCode : Z) : itree sysE unit :=
  (* 1 *)
  st <- while (fun st : Z * Z =>
                 let (tryCount, lockStatus) := st in
                 if tryCount <? 5 then
                   lockStatus <- lockFile indicatorSelfPath ;;
                   Ret (lockStatus =? 0, (tryCount, lockStatus))
                 else Ret (false, (tryCount, lockStatus)))
              (fun st : Z * Z =>
                 let (tryCount, lockStatus) := st in
                 usleep 10000 ;;
                 Ret (tryCount + 1, lockStatus))
              (0, 0) ;;
  let lockStatus := snd st in
  if lockStatus =? 0 then Ret tt else
  (* 2 *)
  notifyAndWaitFor observerSelfPath observerDaemonPath ;;
  (* 3 *)
  driverFD <- ITree.trigger OpenDriver ;;
  ITree.trigger (InitProcessState driverFD) ;;
  (* 4 *)
  amsHandle <- getServiceHandle "activity" driverFD ;;
  (* 5 *)
  let data := writeStartServiceParcel emptyParcel packageName serviceName sdkVersion in
  (* 6 *)
  lockStatus <- lockFile indicatorDaemonPath ;;
  if lockStatus =? 0 then Ret tt else
  (* 7 *)
  write_transact amsHandle transactCode data false 1 driverFD ;;
  remove observerSelfPath ;;
  pid <- ITree.trigger Getpid ;;
  if 0 <? pid then (ITree.trigger (Killpg pid SIGTERM) ;; Ret tt) else Ret tt.

(** [setProcessName]: the four calls into the runtime that end in
    [Process.setArgV0(name)], as one. *)
Definition setProcessName (name : string) : itree sysE unit :=
  ITree.trigger (SetProcessName name).

(** [Java_com_service_framework_native_FwNative_lockFile] *)
Definition FwNative_lockFile (lockFilePath : jstring) : itree sysE unit :=
  path <- (GetStringUTFChars lockFilePath) ;;
  lockFile path ;;
  ITree.trigger (ReleaseStringUTFChars lockFilePath path).

(** [Java_com_service_framework_native_FwNative_nativeSetSid] *)
Definition FwNative_nativeSetSid : itree sysE unit :=
  ITree.trigger Setsid ;; Ret tt.

(** [Java_com_service_framework_native_FwNative_waitFileLock] *)
Definition FwNative_waitFileLock (lockFilePath : jstring) : itree sysE unit :=
  path <- (GetStringUTFChars lockFilePath) ;;
  waitForFileLock path ;;
  ITree.trigger (ReleaseStringUTFChars lockFilePath path).

(** [snprintf(buf, MAX_PATH, "%s-c", s)]: at most [MAX_PATH - 1] characters
    are stored. *)
Definition MAX_PATH : nat := 256.
Definition snprintf_c (size : nat) (s : string) : string :=
  substring 0 (size - 1) (s ++ "-c")%string.

Definition isNULL (s : jstring) : bool :=
  match s with None => true | Some _ => false end.

(** The grandchild branch of [startForceStopDaemon], up to the end of its
    [doDaemon]; control then falls out of the [if] into the code written
    for the parent. *)
Definition daemonBranch (indicatorSelf indicatorDaemon observerSelf observerDaemon
                         pkgName svcName : string)
           (sdkVersion transactCode : Z) : itree sysE unit :=
  pid2 <- ITree.trigger Fork ;;
  if pid2 <? 0 then exit (-1)
  else if 0 <? pid2 then exit 0
  else
    ITree.trigger Getpid ;;     (* logged *)
    let indicatorSelfChild := snprintf_c MAX_PATH indicatorSelf in
    let indicatorDaemonChild := snprintf_c MAX_PATH indicatorDaemon in
    let observerSelfChild := snprintf_c MAX_PATH observerSelf in
    let observerDaemonChild := snprintf_c MAX_PATH observerDaemon in
    createFileIfNotExist indicatorSelfChild ;;
    createFileIfNotExist indicatorDaemonChild ;;
    setProcessName "fw_daemon" ;;
    doDaemon indicatorSelfChild indicatorDaemonChild
             observerSelfChild observerDaemonChild
             pkgName svcName sdkVersion transactCode.

(** [Java_com_service_framework_native_FwNative_startForceStopDaemon] *)
Definition startForceStopDaemon
           (indicatorSelfPath indicatorDaemonPath
            observerSelfPath observerDaemonPath
            packageName serviceName : jstring)
           (sdkVersion : Z) : itree sysE unit :=
  if isNULL indicatorSelfPath || isNULL indicatorDaemonPath ||
     isNULL observerSelfPath || isNULL observerDaemonPath
  then Ret tt
  else
    let transactCode := getStartServiceTransactionCode sdkVersion in
    indicatorSelf <- (GetStringUTFChars indicatorSelfPath) ;;
    indicatorDaemon <- (GetStringUTFChars indicatorDaemonPath) ;;
    observerSelf <- (GetStringUTFChars observerSelfPath) ;;
    observerDaemon <- (GetStringUTFChars observerDaemonPath) ;;
    pkgName <- (GetStringUTFChars packageName) ;;
    svcName <- (GetStringUTFChars serviceName) ;;
    pid <- ITree.trigger Fork ;;
    if pid <? 0 then Ret tt
    else
      (if pid =? 0
       then daemonBranch indicatorSelf indicatorDaemon observerSelf observerDaemon
                         pkgName svcName sdkVersion transactCode
       else Ret tt) ;;
      (* parent *)
      ITree.trigger (Waitpid pid 0) ;;
      ITree.trigger Getpid ;;   (* logged *)
      doDaemon indicatorSelf indicatorDaemon observerSelf observerDaemon
               pkgName svcName sdkVersion transactCode ;;
      ITree.trigger (ReleaseStringUTFChars indicatorSelfPath indicatorSelf) ;;
      ITree.trigger (ReleaseStringUTFChars indicatorDaemonPath indicatorDaemon) ;;
      ITree.trigger (ReleaseStringUTFChars observerSelfPath observerSelf) ;;
      ITree.trigger (ReleaseStringUTFChars observerDaemonPath observerDaemon) ;;
      ITree.trigger (ReleaseStringUTFChars packageName pkgName) ;;
      ITree.trigger (ReleaseStringUTFChars serviceName svcName).

(** [Java_com_service_framework_native_FwNative_testBinderCall] *)
Definition FwNative_testBinderCall (packageName serviceName : jstring)
           (sdkVersion : Z) : itree sysE unit :=
  driverFD <- ITree.trigger OpenDriver ;;
  ITree.trigger (InitProcessState driverFD) ;;
  amsHandle <- getServiceHandle "activity" driverFD ;;
  pkgName <- GetStringUTFChars packageName ;;
  svcName <- GetStringUTFChars serviceName ;;
  let data := writeStartServiceParcel emptyParcel pkgName svcName sdkVersion in
  let transactCode := getStartServiceTransactionCode sdkVersion in
  write_transact amsHandle transactCode data false 1 driverFD ;;
  ITree.trigger (UnInitProcessState driverFD) ;;
  ITree.trigger (ReleaseStringUTFChars packageName pkgName) ;;
  ITree.trigger (ReleaseStringUTFChars serviceName svcName).

(* ===================================================================== *)
(** * The kernel side *)
(* ===================================================================== *)

(** A model of what the kernel keeps for the calls above: the directory
    (path to inode), the descriptors of each process (descriptor to inode of
    its open file description), and for each inode the description holding
    the exclusive [flock] lock.  The guard never duplicates a descriptor, so
    an open file description is named by its process and descriptor.  A
    lock belongs to the description: a second [open] of the same file by the
    same process competes with the first, and all locks of a process go when
    it dies.  Files live in a writable directory: creation succeeds.  The
    members of each process group are kept as well, for [setsid] and
    [killpg]. *)
Record world : Type := mkWorld {
  names : string -> option nat;
  inodes : nat;
  fdtab : Z -> Z -> option nat;
  nextfd : Z;
  holder : nat -> option (Z * Z);
  alive : Z -> bool;
  binder : Z -> Z -> Parcel -> bool -> Z * Parcel;
  group : Z -> list Z
}.

Definition has_flag (flags bit : Z) : bool := negb (Z.land flags bit =? 0).

Definition set_fd (w : world) (p fd : Z) (ino : option nat) : Z -> Z -> option nat :=
  fun q d => if (q =? p) && (d =? fd) then ino else fdtab w q d.

(** Hand out a fresh descriptor of process [p] on inode [ino]. *)
Definition os_alloc (p : Z) (ino : nat) (w : world) : Z * world :=
  (nextfd w,
   mkWorld (names w) (inodes w) (set_fd w p (nextfd w) (Some ino))
           (nextfd w + 1) (holder w) (alive w) (binder w) (group w)).

(** Make a new, empty file called [path]. *)
Definition os_creat (path : string) (w : world) : nat * world :=
  (inodes w,
   mkWorld (fun q => if String.eqb q path then Some (inodes w) else names w q)
           (S (inodes w)) (fdtab w) (nextfd w) (holder w) (alive w) (binder w) (group w)).

(** [open(path, flags[, mode])]: -1 when the file is absent and [O_CREAT]
    is not given. *)
Definition os_open (p : Z) (path : string) (flags : Z) (w : world) : Z * world :=
  match names w path with
  | Some ino => os_alloc p ino w
  | None =>
      if has_flag flags O_CREAT
      then let (ino, w1) := os_creat path w in os_alloc p ino w1
      else (-1, w)
  end.

(** [remove(path)]: the name goes; descriptions open on the inode stay. *)
Definition os_remove (path : string) (w : world) : Z * world :=
  match names w path with
  | Some _ =>
      (0, mkWorld (fun q => if String.eqb q path then None else names w q)
                  (inodes w) (fdtab w) (nextfd w) (holder w) (alive w) (binder w) (group w))
  | None => (-1, w)
  end.

Definition set_holder (w : world) (ino : nat) (h : option (Z * Z)) : world :=
  mkWorld (names w) (inodes w) (fdtab w) (nextfd w)
          (fun i => if Nat.eqb i ino then h else holder w i) (alive w) (binder w)
          (group w).

Definition same_ofd (h : Z * Z) (p fd : Z) : bool :=
  (fst h =? p) && (snd h =? fd).

(** [flock(fd, operation)] for [LOCK_EX] and [LOCK_UN], with or without
    [LOCK_NB].  No answer ([None]) means that the caller is suspended.
    Asking again for a lock the description already holds succeeds. *)
Definition os_flock (p fd operation : Z) (w : world) : option (Z * world) :=
  match fdtab w p fd with
  | None => Some (-1, w)
  | Some ino =>
      let cmd := Z.land operation (Z.lor LOCK_EX LOCK_UN) in
      if cmd =? LOCK_UN then
        match holder w ino with
        | Some h => if same_ofd h p fd then Some (0, set_holder w ino None)
                    else Some (0, w)
        | None => Some (0, w)
        end
      else if cmd =? LOCK_EX then
        match holder w ino with
        | None => Some (0, set_holder w ino (Some (p, fd)))
        | Some h =>
            if same_ofd h p fd then Some (0, w)
            else if has_flag operation LOCK_NB then Some (-1, w)
            else None
        end
      else Some (-1, w)
  end.

(** Closing a descriptor drops the lock its description holds. *)
Definition os_close (p fd : Z) (w : world) : Z * world :=
  match fdtab w p fd with
  | None => (-1, w)
  | Some ino =>
      let w1 := match holder w ino with
                | Some h => if same_ofd h p fd then set_holder w ino None else w
                | None => w
                end in
      (0, mkWorld (names w1) (inodes w1) (set_fd w1 p fd None) (nextfd w1)
                  (holder w1) (alive w1) (binder w1) (group w1))
  end.

(** [open_driver()]: a descriptor on the Binder device, which is no file
    of the directory above. *)
Definition os_driver (w : world) : Z * world :=
  (nextfd w,
   mkWorld (names w) (inodes w) (fdtab w) (nextfd w + 1) (holder w) (alive w)
           (binder w) (group w)).

(** The members of a group, [p] apart. *)
Definition without (p : Z) (members : list Z) : list Z :=
  filter (fun q => negb (q =? p)) members.

Definition member (p : Z) (members : list Z) : bool :=
  existsb (fun q => q =? p) members.

(** [setsid()]: refused (-1, [EPERM]) when a process group already has the
    id of the caller, which is so in particular when the caller leads its
    group; otherwise the caller leaves its group and is alone in the new
    group that has its id. *)
Definition os_setsid (p : Z) (w : world) : Z * world :=
  match group w p with
  | [] =>
      (p, mkWorld (names w) (inodes w) (fdtab w) (nextfd w) (holder w) (alive w)
                  (binder w)
                  (fun g => if g =? p then [p] else without p (group w g)))
  | _ :: _ => (-1, w)
  end.

(** [killpg(pgrp, SIGTERM)].  The guard installs no handler, so [SIGTERM]
    ends its receivers.  A negative [pgrp] is refused ([EINVAL]); 0 names
    the group of the caller.  When the group has no member the call
    answers -1 ([ESRCH]).  When the caller is a member it is ended by its
    own signal and does not come back from the call.  Otherwise the call
    answers 0; the signal is delivered to the members later on, and their
    deaths are deaths of the log like any other. *)
Definition os_killpg (p pgrp : Z) (w : world) : option (Z * world) :=
  if pgrp <? 0 then Some (-1, w)
  else if pgrp =? 0 then None
  else
    match group w pgrp with
    | [] => Some (-1, w)
    | members => if member p members then None else Some (0, w)
    end.

(** The death of process [p]: its descriptors are closed, its locks go, and
    it is no longer a member of a group. *)
Definition die (p : Z) (w : world) : world :=
  mkWorld (names w) (inodes w)
          (fun q d => if q =? p then None else fdtab w q d)
          (nextfd w)
          (fun i => match holder w i with
                    | Some h => if fst h =? p then None else Some h
                    | None => None
                    end)
          (fun q => if q =? p then false else alive w q)
          (binder w)
          (fun g => without p (group w g)).

(** What the kernel answers to call [e] of process [p].  [fopen] with mode
    "ab+" creates the file; a [FILE*] is modelled by its descriptor.
    [fork], [exit] and the abort of the runtime are not followed here.
    The guard sends no signal but [SIGTERM]; any other is refused. *)
Definition os_call (p : Z) {T : Type} (e : sysE T) (w : world) : option (T * world) :=
  match e in sysE T return option (T * world) with
  | Open path flags _ => Some (os_open p path flags w)
  | Flock fd operation => os_flock p fd operation w
  | Usleep _ => Some (tt, w)
  | Remove path => Some (os_remove path w)
  | Fopen path _ => Some (os_open p path O_CREAT w)
  | Fclose fp => Some (os_close p fp w)
  | Getpid => Some (p, w)
  | Killpg pgrp sig =>
      if sig =? SIGTERM then os_killpg p pgrp w else Some (-1, w)
  | Fork => None
  | Exit _ => None
  | Waitpid _ _ => Some (-1, w)
  | Setsid => Some (os_setsid p w)
  | OpenDriver => Some (os_driver w)
  | InitProcessState _ => Some (tt, w)
  | UnInitProcessState _ => Some (tt, w)
  | WriteTransact target code data wantReply _ _ =>
      Some (binder w target code data wantReply, w)
  | JniAbort => None
  | ReleaseStringUTFChars _ _ => Some (tt, w)
  | SetProcessName _ => Some (tt, w)
  end.

(** How an observed execution ends. *)
Inductive outcome (R : Type) : Type :=
| Returned (r : R)
| Suspended {T : Type} (e : sysE T)
| Running.
Arguments Returned {R} r.
Arguments Suspended {R T} e.
Arguments Running {R}.

(** Process [p] alone executes [t] on the kernel [w], for [fuel] steps. *)
Fixpoint exec {R : Type} (fuel : nat) (p : Z) (t : itree sysE R) (w : world)
  : trace * outcome R * world :=
  match fuel with
  | O => ([], Running, w)
  | S fuel' =>
      match observe t with
      | RetF r => ([], Returned r, w)
      | TauF t' => exec fuel' p t' w
      | VisF e k =>
          match os_call p e w with
          | Some (x, w1) =>
              let '(tr, o, w2) := exec fuel' p (k x) w1 in
              (Ev e x :: tr, o, w2)
          | None => ([], Suspended e, w)
          end
      end
  end.

(** Several processes on one kernel: the calls in the order the kernel
    serves them, and the deaths of processes in between. *)
Inductive sys_ev : Type :=
| Call (p : Z) (ev : event)
| Death (p : Z).

Inductive replay : world -> list sys_ev -> world -> Prop :=
| replay_nil w : replay w [] w
| replay_call w p T (e : sysE T) x w1 l w2 :
    alive w p = true -> os_call p e w = Some (x, w1) -> replay w1 l w2 ->
    replay w (Call p (Ev e x) :: l) w2
| replay_death w p l w2 :
    replay (die p w) l w2 -> replay w (Death p :: l) w2.

(** The calls of process [p] in a log. *)
Fixpoint calls_of (p : Z) (l : list sys_ev) : trace :=
  match l with
  | [] => []
  | Call q ev :: l' => if q =? p then ev :: calls_of p l' else calls_of p l'
  | Death _ :: l' => calls_of p l'
  end.

(** An empty kernel: no file, no descriptor, every process alive and
    leading a group of its own, a registry that answers every query with
    the parcel [registry]. *)
Definition boot (registry : Parcel) : world :=
  mkWorld (fun _ => None) 0 (fun _ _ => None) 3 (fun _ => None)
          (fun _ => true) (fun _ _ _ wantReply =>
                             if wantReply then (0, registry) else (0, emptyParcel))
          (fun g => [g]).

(** All calls of a log, whoever made them. *)
Fixpoint events (l : list sys_ev) : trace :=
  match l with
  | [] => []
  | Call _ ev :: l' => ev :: events l'
  | Death _ :: l' => events l'
  end.

(** A log of the two guards [a] and [b] of a monitored pair, running [tA]
    and [tB] on a kernel that starts in [w0]: the kernel serves the calls
    in the order of the log, only [a] and [b] call, and what each of them
    calls is an execution of its program, as far as it got. *)
Definition pair_run (a b : Z) (tA tB : itree sysE unit) (w0 : world)
           (log : list sys_ev) : Prop :=
  (exists w, replay w0 log w) /\
  run tA (calls_of a log) None /\
  run tB (calls_of b log) None /\
  Forall (fun sev => match sev with
                     | Call q _ => q = a \/ q = b
                     | Death _ => True
                     end) log.

(** The kernel as guard 1 finds it when its sibling, process 2, is alive
    and well: process 2 has locked its own indicator file and announced
    itself through its observer file. *)
Definition sibling_alive : world :=
  snd (exec 20 2 (lockFile "/data/b.lock" ;; openOrCreate "/data/b.obs")
            (boot emptyParcel)).

(** The loop of [waitForFileLock] and what follows it, on descriptor 3. *)
Definition drain_then_block : itree sysE bool :=
  while (fun _ : unit =>
           r <- flock 3 (Z.lor LOCK_EX LOCK_NB) ;; Ret (negb (r =? -1), tt))
        (fun _ => usleep 1000) tt ;;
  result <- flock 3 LOCK_EX ;;
  Ret (negb (result =? -1)).

(** The kernel once process 1 has opened the fresh file "/data/b.lock" on
    descriptor 3 and taken its lock. *)
Definition holding : world :=
  snd (exec 3 1 (lockFile "/data/b.lock") (boot emptyParcel)).

(** The result of an execution that came to its end. *)
Definition returned {R : Type} (o : outcome R) : option R :=
  match o with
  | Returned r => Some r
  | _ => None
  end.


(** The executions of a [while] loop, iteration by iteration. *)
Inductive while_run {St : Type} (cond : St -> itree sysE (bool * St))
          (body : St -> itree sysE St) : St -> trace -> option St -> Prop :=
| wr_cond_stop s tr :
    run (cond s) tr None -> while_run cond body s tr None
| wr_exit s tr s1 :
    run (cond s) tr (Some (false, s1)) -> while_run cond body s tr (Some s1)
| wr_body_stop s tr1 s1 tr2 :
    run (cond s) tr1 (Some (true, s1)) -> run (body s1) tr2 None ->
    while_run cond body s (tr1 ++ tr2) None
| wr_iter s tr1 s1 tr2 s2 tr3 o :
    run (cond s) tr1 (Some (true, s1)) -> run (body s1) tr2 (Some s2) ->
    while_run cond body s2 tr3 o ->
    while_run cond body s (tr1 ++ tr2 ++ tr3) o.


(* ===================================================================== *)
(** * Reading traces *)
(* ===================================================================== *)

(** Number of events of a trace that satisfy [P]. *)
Definition count (P : event -> bool) (tr : trace) : nat :=
  List.length (List.filter P tr).

(** [t] makes at most [n] calls satisfying [P], in every execution. *)
Definition at_most {R : Type} (t : itree sysE R) (P : event -> bool) (n : nat) : Prop :=
  forall tr o, run t tr o -> (count P tr <= n)%nat.

(** [open_driver()] *)
Definition is_OpenDriver (ev : event) : bool :=
  match ev with
  | @Ev _ e _ => match e with OpenDriver => true | _ => false end
  end.

(** Any [flock]. *)
Definition is_Flock (ev : event) : bool :=
  match ev with
  | @Ev _ e _ => match e with Flock _ _ => true | _ => false end
  end.

(** A [flock] that was granted (answer other than -1). *)
Definition flock_granted (ev : event) : bool :=
  match ev with
  | @Ev _ e x =>
      match e in sysE T return T -> bool with
      | Flock _ _ => fun x => negb (x =? -1)
      | _ => fun _ => false
      end x
  end.

(** A [flock] whose operation is not exactly [LOCK_EX | LOCK_NB]: one that
    may suspend the caller, or that releases. *)
Definition flock_other (ev : event) : bool :=
  match ev with
  | @Ev _ e _ =>
      match e with
      | Flock _ operation => negb (operation =? Z.lor LOCK_EX LOCK_NB)
      | _ => false
      end
  end.

(** A [flock] that releases ([LOCK_UN] among the bits of the operation). *)
Definition flock_release (ev : event) : bool :=
  match ev with
  | @Ev _ e _ =>
      match e with
      | Flock _ operation => negb (Z.land operation LOCK_UN =? 0)
      | _ => false
      end
  end.

(** A transaction submitted fire-and-forget: oneway flag set ([flags = 1],
    [TF_ONE_WAY]) and no reply parcel.  The revival request is the only
    such transaction of the guard. *)
Definition is_revival (ev : event) : bool :=
  match ev with
  | @Ev _ e _ =>
      match e with
      | WriteTransact _ _ _ wantReply flags _ => negb wantReply && (flags =? 1)
      | _ => false
      end
  end.

(** Any transaction. *)
Definition is_transact (ev : event) : bool :=
  match ev with
  | @Ev _ e _ => match e with WriteTransact _ _ _ _ _ _ => true | _ => false end
  end.

(** Any [open]. *)
Definition is_Open (ev : event) : bool :=
  match ev with
  | @Ev _ e _ => match e with Open _ _ _ => true | _ => false end
  end.

(** An [open] of a path other than [path]. *)
Definition opens_other (path : string) (ev : event) : bool :=
  match ev with
  | @Ev _ e _ =>
      match e with Open p _ _ => negb (String.eqb p path) | _ => false end
  end.

(** The read-only [open] of [path], as the guard issues it. *)
Definition opens_rdonly (path : string) (ev : event) : bool :=
  match ev with
  | @Ev _ e _ =>
      match e with
      | Open p flags None =>
          String.eqb p path && (flags =? Z.lor O_RDONLY O_LARGEFILE)
      | _ => false
      end
  end.

(** A call that makes [path] exist when it succeeds: [open] with
    [O_CREAT], or [fopen]. *)
Definition creating (path : string) (ev : event) : bool :=
  match ev with
  | @Ev _ e _ =>
      match e with
      | Open p flags _ => String.eqb p path && has_flag flags O_CREAT
      | Fopen p _ => String.eqb p path
      | _ => false
      end
  end.

(** [creating] that succeeded. *)
Definition created (path : string) (ev : event) : bool :=
  match ev with
  | @Ev _ e x =>
      match e in sysE T return T -> bool with
      | Open p flags _ => fun x =>
          String.eqb p path && has_flag flags O_CREAT && negb (x =? -1)
      | Fopen p _ => fun x => String.eqb p path && negb (x =? 0)
      | _ => fun _ => false
      end x
  end.

(** A [remove] of [path]. *)
Definition removing (path : string) (ev : event) : bool :=
  match ev with
  | @Ev _ e _ =>
      match e with Remove p => String.eqb p path | _ => false end
  end.

(** A [remove] of [path] that took the name away (answer 0). *)
Definition removed (path : string) (ev : event) : bool :=
  match ev with
  | @Ev _ e x =>
      match e in sysE T return T -> bool with
      | Remove p => fun x => String.eqb p path && (x =? 0)
      | _ => fun _ => false
      end x
  end.

(** The backoff of LockingSelf: [usleep(10000)]. *)
Definition is_backoff (ev : event) : bool :=
  match ev with
  | @Ev _ e _ => match e with Usleep us => us =? 10000 | _ => false end
  end.

(** The calls LockingSelf can make on [path]: [open] of [path], [flock]
    with [LOCK_EX | LOCK_NB], and the backoff. *)
Definition locking_call (path : string) (ev : event) : bool :=
  match ev with
  | @Ev _ e _ =>
      match e with
      | Open p _ _ => String.eqb p path
      | Flock _ operation => operation =? Z.lor LOCK_EX LOCK_NB
      | Usleep us => us =? 10000
      | _ => false
      end
  end.

(** The trace of a series of failed attempts, each followed by the
    backoff [usleep(10000)]. *)
Definition backoffs (attempts : list trace) : trace :=
  flat_map (fun a => a ++ [Ev (Usleep 10000) tt]) attempts.

(** [n] polls of [path] that found nothing, each followed by
    [usleep(1000)]. *)
Fixpoint failed_polls (path : string) (n : nat) : trace :=
  match n with
  | O => []
  | S n' =>
      Ev (Open path (Z.lor O_RDONLY O_LARGEFILE) None) (-1)
      :: Ev (Usleep 1000) tt :: failed_polls path n'
  end.

(** What precedes the first [open] of a trace.  In an execution of the
    entry point this is Init: [doDaemon] begins with the [open] of
    [lockFile], and nothing before it opens a file that way. *)
Fixpoint before_guarding (tr : trace) : trace :=
  match tr with
  | [] => []
  | ev :: tr' => if is_Open ev then [] else ev :: before_guarding tr'
  end.

(** The answers of [fork] in a trace: [[pid]] with [0 < pid] in the
    original process, [[0; 0]] in the detached daemon. *)
Fixpoint forks (tr : trace) : list Z :=
  match tr with
  | [] => []
  | @Ev _ e x :: tr' =>
      match e in sysE T return T -> list Z with
      | Fork => fun x => x :: forks tr'
      | _ => fun _ => forks tr'
      end x
  end.

(** Init as the spec words it: whenever guarding begins, creating calls
    for all four marker files of the role have been made. *)
Definition Init_creates_all_markers
           (indicatorSelf indicatorDaemon observerSelf observerDaemon
            pkgName svcName : string) (sdkVersion : Z) : Prop :=
  forall tr,
    run (startForceStopDaemon (Some indicatorSelf) (Some indicatorDaemon)
                              (Some observerSelf) (Some observerDaemon)
                              (Some pkgName) (Some svcName) sdkVersion) tr None ->
    existsb is_Open tr = true ->
    (forall pid, forks tr = [pid] -> 0 < pid ->
       Forall (fun p => (1 <= count (creating p) (before_guarding tr))%nat)
              [indicatorSelf; indicatorDaemon; observerSelf; observerDaemon]) /\
    (forks tr = [0; 0] ->
       Forall (fun p => (1 <= count (creating p) (before_guarding tr))%nat)
              [snprintf_c MAX_PATH indicatorSelf;
               snprintf_c MAX_PATH indicatorDaemon;
               snprintf_c MAX_PATH observerSelf;
               snprintf_c MAX_PATH observerDaemon]).


(* ===================================================================== *)
(** * Sample executions *)
(* ===================================================================== *)

(** Five refused attempts of guard 1 on its own indicator file. *)
Definition refused_attempt : trace :=
  [Ev (Open "/data/a.lock" (Z.lor O_RDONLY O_LARGEFILE) None) 3;
   Ev (Flock 3 (Z.lor LOCK_EX LOCK_NB)) (-1)].

Definition five_refusals : trace :=
  backoffs [refused_attempt; refused_attempt; refused_attempt;
            refused_attempt; refused_attempt].

(** Guard 1 up to the grant of the sibling's lock, and what it does then. *)
Definition until_detection : trace :=
  [Ev (Open "/data/a.lock" (Z.lor O_RDONLY O_LARGEFILE) None) 3;
   Ev (Flock 3 (Z.lor LOCK_EX LOCK_NB)) 0;
   Ev (Open "/data/a.obs" (Z.lor O_RDONLY O_LARGEFILE) None) (-1);
   Ev (Open "/data/a.obs" O_CREAT (Some (Z.lor S_IRUSR S_IWUSR))) 4;
   Ev (Open "/data/b.obs" (Z.lor O_RDONLY O_LARGEFILE) None) 5;
   Ev (Remove "/data/b.obs") 0;
   Ev OpenDriver 6;
   Ev (InitProcessState 6) tt;
   Ev (WriteTransact 0 CHECK_SERVICE_TRANSACTION
         (pwrites emptyParcel
            [WInterfaceToken "android.os.IServiceManager";
             WString16 (Some "activity")])
         true 0 6) (0, mkParcel [] [mkFlat 0 0 7 0]);
   Ev (Open "/data/b.lock" (Z.lor O_RDONLY O_LARGEFILE) None) 8].

Definition after_detection : trace :=
  [Ev (WriteTransact 7 30
         (writeStartServiceParcel emptyParcel "pkg" "svc" 28) false 1 6)
      (0, emptyParcel);
   Ev (Remove "/data/a.obs") 0;
   Ev Getpid 1234;
   Ev (Killpg 1234 SIGTERM) 0].

(** Guards 1 and 2 from boot until guard 1 opens the driver. *)
Definition both_synced : list sys_ev :=
  [Call 1 (Ev (Open "/data/a.lock" (Z.lor O_RDONLY O_LARGEFILE) None) (-1));
   Call 1 (Ev (Open "/data/a.lock" O_CREAT (Some (Z.lor S_IRUSR S_IWUSR))) 3);
   Call 1 (Ev (Flock 3 (Z.lor LOCK_EX LOCK_NB)) 0);
   Call 1 (Ev (Open "/data/a.obs" (Z.lor O_RDONLY O_LARGEFILE) None) (-1));
   Call 1 (Ev (Open "/data/a.obs" O_CREAT (Some (Z.lor S_IRUSR S_IWUSR))) 4);
   Call 1 (Ev (Open "/data/b.obs" (Z.lor O_RDONLY O_LARGEFILE) None) (-1));
   Call 2 (Ev (Open "/data/b.lock" (Z.lor O_RDONLY O_LARGEFILE) None) (-1));
   Call 2 (Ev (Open "/data/b.lock" O_CREAT (Some (Z.lor S_IRUSR S_IWUSR))) 5);
   Call 2 (Ev (Flock 5 (Z.lor LOCK_EX LOCK_NB)) 0);
   Call 1 (Ev (Usleep 1000) tt);
   Call 2 (Ev (Open "/data/b.obs" (Z.lor O_RDONLY O_LARGEFILE) None) (-1));
   Call 2 (Ev (Open "/data/b.obs" O_CREAT (Some (Z.lor S_IRUSR S_IWUSR))) 6);
   Call 1 (Ev (Open "/data/b.obs" (Z.lor O_RDONLY O_LARGEFILE) None) 7);
   Call 2 (Ev (Open "/data/a.obs" (Z.lor O_RDONLY O_LARGEFILE) None) 8);
   Call 1 (Ev (Remove "/data/b.obs") 0)].

(* ===================================================================== *)
(** * Properties of every call of an execution *)
(* ===================================================================== *)

(** Every call [t] makes, in every execution, satisfies [P]. *)
Definition always {R : Type} (t : itree sysE R) (P : event -> Prop) : Prop :=
  forall tr o, run t tr o -> Forall P tr.

(** A [remove] is of one of [paths]. *)
Definition removes_among (paths : list string) (ev : event) : Prop :=
  match ev with
  | @Ev _ e _ => match e with Remove p => In p paths | _ => True end
  end.

(** A [flock] is on descriptor [fd]. *)
Definition flock_on (fd : Z) (ev : event) : Prop :=
  match ev with
  | @Ev _ e _ => match e with Flock d _ => d = fd | _ => True end
  end.

(** A oneway transaction without reply parcel is the request to start
    service [svc] of package [pkg], as laid out for revision [sdk]. *)
Definition starts_service (pkg svc : string) (sdk : Z) (ev : event) : Prop :=
  match ev with
  | @Ev _ e _ =>
      match e with
      | WriteTransact _ code data wantReply flags _ =>
          wantReply = false ->
          flags = 1 /\
          code = getStartServiceTransactionCode sdk /\
          data = writeStartServiceParcel emptyParcel pkg svc sdk
      | _ => True
      end
  end.

(** Rounds of the loop of [waitForFileLock] on descriptor [fd]: a
    non-blocking [flock] answered by one of [answers], then
    [usleep(1000)]. *)
Definition drained (fd : Z) (answers : list Z) : trace :=
  flat_map (fun x => [Ev (Flock fd (Z.lor LOCK_EX LOCK_NB)) x; Ev (Usleep 1000) tt])
           answers.

(** The six [ReleaseStringUTFChars] that end [startForceStopDaemon]. *)
Definition releases (indicatorSelf indicatorDaemon observerSelf observerDaemon
                     pkgName svcName : string) : trace :=
  [Ev (ReleaseStringUTFChars (Some indicatorSelf) indicatorSelf) tt;
   Ev (ReleaseStringUTFChars (Some indicatorDaemon) indicatorDaemon) tt;
   Ev (ReleaseStringUTFChars (Some observerSelf) observerSelf) tt;
   Ev (ReleaseStringUTFChars (Some observerDaemon) observerDaemon) tt;
   Ev (ReleaseStringUTFChars (Some pkgName) pkgName) tt;
   Ev (ReleaseStringUTFChars (Some svcName) svcName) tt].

(** The kind of call of an event. *)
Definition kind (ev : event) : nat :=
  match ev with
  | @Ev _ e _ =>
      match e with
      | Open _ _ _ => 0
      | Flock _ _ => 1
      | Usleep _ => 2
      | Remove _ => 3
      | Fopen _ _ => 4
      | Fclose _ => 5
      | Getpid => 6
      | Killpg _ _ => 7
      | Fork => 8
      | Exit _ => 9
      | Waitpid _ _ => 10
      | Setsid => 11
      | OpenDriver => 12
      | InitProcessState _ => 13
      | UnInitProcessState _ => 14
      | WriteTransact _ _ _ _ _ _ => 15
      | JniAbort => 16
      | ReleaseStringUTFChars _ _ => 17
      | SetProcessName _ => 18
      end%nat
  end.

(** Five refused attempts on [path], opened on descriptor [fd], with
    their backoffs. *)
Definition refusals (path : string) (fd : Z) : trace :=
  let attempt := [Ev (Open path (Z.lor O_RDONLY O_LARGEFILE) None) fd;
                  Ev (Flock fd (Z.lor LOCK_EX LOCK_NB)) (-1)] in
  backoffs [attempt; attempt; attempt; attempt; attempt].

(** The original process, whose guard gives up after five attempts. *)
Definition original_gives_up : trace :=
  Ev Fork 100 :: Ev (Waitpid 100 0) 100 :: Ev Getpid 50 ::
  refusals "/data/a.lock" 3 ++
  releases "/data/a.lock" "/data/b.lock" "/data/a.obs" "/data/b.obs" "pkg" "svc".

(** The detached daemon, both of whose guards give up. *)
Definition detached_gives_up : trace :=
  Ev Fork 0 :: Ev Fork 0 :: Ev Getpid 101 ::
  [Ev (Fopen "/data/a.lock-c" "ab+") 0] ++
  [Ev (Fopen "/data/b.lock-c" "ab+") 0] ++
  Ev (SetProcessName "fw_daemon") tt ::
  refusals "/data/a.lock-c" 3 ++
  Ev (Waitpid 0 0) (-1) :: Ev Getpid 101 ::
  refusals "/data/a.lock" 4 ++
  releases "/data/a.lock" "/data/b.lock" "/data/a.obs" "/data/b.obs" "pkg" "svc".

(** Any [remove]. *)
Definition is_Remove (ev : event) : bool :=
  match ev with
  | @Ev _ e _ => match e with Remove _ => true | _ => false end
  end.

(** [n] refused attempts of LockingSelf on [path] with their backoffs, as
    the kernel serves them: each attempt opens the file anew, on the next
    descriptor, starting with [fd]. *)
Fixpoint refused_from (path : string) (fd : Z) (n : nat) : trace :=
  match n with
  | O => []
  | S n' =>
      Ev (Open path (Z.lor O_RDONLY O_LARGEFILE) None) fd
      :: Ev (Flock fd (Z.lor LOCK_EX LOCK_NB)) (-1)
      :: Ev (Usleep 10000) tt
      :: refused_from path (fd + 1) n'
  end.

(** Calls by which a process could give up a lock or a descriptor: a
    [flock] other than [LOCK_EX | LOCK_NB], or [fclose]. *)
Definition lets_go (ev : event) : bool :=
  match ev with
  | @Ev _ e _ =>
      match e with
      | Flock _ operation => negb (operation =? Z.lor LOCK_EX LOCK_NB)
      | Fclose _ => true
      | _ => false
      end
  end.

(** An entry of a log that leaves the locks and descriptors of process
    [p] in place: [p] does not die there and gives up nothing. *)
Definition steady (p : Z) (sev : sys_ev) : Prop :=
  match sev with
  | Call q ev => q = p -> lets_go ev = false
  | Death q => q <> p
  end.

(** Guards 1 and 2 from boot until guard 1, in Monitoring, has tried the
    lock of guard 2. *)
Definition until_refusal : list sys_ev :=
  both_synced ++
  [Call 1 (Ev OpenDriver 9);
   Call 1 (Ev (InitProcessState 9) tt);
   Call 1 (Ev (WriteTransact 0 CHECK_SERVICE_TRANSACTION
                 (pwrites emptyParcel
                    [WInterfaceToken "android.os.IServiceManager";
                     WString16 (Some "activity")])
                 true 0 9) (0, emptyParcel));
   Call 1 (Ev (Open "/data/b.lock" (Z.lor O_RDONLY O_LARGEFILE) None) 10);
   Call 1 (Ev (Flock 10 (Z.lor LOCK_EX LOCK_NB)) (-1))].

(** The kernel as guard 1 finds it when its sibling, process 2, has
    announced itself and died: the indicator files exist and nobody holds
    their locks, the observer file of process 2 is in place; the registry
    knows the activity service under handle 7. *)
Definition sibling_gone : world :=
  die 2 (snd (exec 30 2
                   (createFileIfNotExist "/data/a.lock" ;;
                    lockFile "/data/b.lock" ;;
                    openOrCreate "/data/b.obs")
                   (boot (mkParcel [] [mkFlat 0 0 7 0])))).

(** The same, with process 2 alive and holding its lock. *)
Definition sibling_holds : world :=
  snd (exec 30 2
            (createFileIfNotExist "/data/a.lock" ;;
             lockFile "/data/b.lock" ;;
             openOrCreate "/data/b.obs")
            (boot (mkParcel [] [mkFlat 0 0 7 0]))).

(** What [waitForFileLock] does with the descriptor it has opened. *)
Definition drain_from (fd : Z) : itree sysE bool :=
  while (fun _ : unit =>
           r <- flock fd (Z.lor LOCK_EX LOCK_NB) ;; Ret (negb (r =? -1), tt))
        (fun _ => usleep 1000) tt ;;
  result <- flock fd LOCK_EX ;;
  Ret (negb (result =? -1)).

(** [calls_next t tr e]: having made the calls of [tr] and got the answers
    recorded there, [t] makes the call [e]. *)
Inductive calls_next {R : Type} :
  itree sysE R -> trace -> forall T : Type, sysE T -> Prop :=
| calls_next_here t T (e : sysE T) k :
    observe t = VisF e k -> calls_next t [] e
| calls_next_tau t t' tr T (e : sysE T) :
    observe t = TauF t' -> calls_next t' tr e -> calls_next t tr e
| calls_next_vis t U (e0 : sysE U) k x tr T (e : sysE T) :
    observe t = VisF e0 k -> calls_next (k x) tr e ->
    calls_next t (Ev e0 x :: tr) e.

(** [setsid], the one call that changes the process groups. *)
Definition is_Setsid (ev : event) : bool :=
  match ev with
  | @Ev _ e _ => match e with Setsid => true | _ => false end
  end.

(** Process [p] as [fork] leaves a child: a member of the group that
    [leader] leads, and of no other.  So is the detached daemon, in the
    group of the process that called [startForceStopDaemon]. *)
Definition in_group_of (leader p : Z) (w : world) : world :=
  mkWorld (names w) (inodes w) (fdtab w) (nextfd w) (holder w) (alive w)
          (binder w)
          (fun g => if g =? leader then p :: without p (group w g)
                    else without p (group w g)).

(** What [killpg(p, SIGTERM)] answers to [p] when it comes back: -1 when
    no group has the id [p]. *)
Definition killpg_answer (p : Z) (w : world) : Z :=
  match group w p with
  | [] => -1
  | _ :: _ => 0
  end.

(** The tree [t] once its pending [fork] has answered [x]. *)
Definition after_fork {R : Type} (x : Z) (t : itree sysE R) : itree sysE R :=
  match observe t with
  | VisF e k =>
      match e in sysE T return (T -> itree sysE R) -> itree sysE R with
      | Fork => fun k => k x
      | _ => fun _ => t
      end k
  | _ => t
  end.

(** The kernel as a detached daemon, process 3, finds it when the daemon
    of an earlier start, process 4, is still there and holds the lock on
    "/data/a.lock-c", while the sibling has announced itself through
    "/data/b.obs" and is gone: nobody holds a lock on "/data/b.lock".  The
    daemon is in the group of process 1, which forked it.  The registry
    knows the activity service under handle 7. *)
Definition stale_daemon : world :=
  in_group_of 1 3
    (snd (exec 30 2 (openOrCreate "/data/b.obs")
               (snd (exec 30 4 (lockFile "/data/a.lock-c")
                          (boot (mkParcel [] [mkFlat 0 0 7 0])))))).

(** What the detached daemon does on [stale_daemon] before its guard
    starts, and once its guard has given up after five refused attempts:
    it goes on with the code written for the original process. *)
Definition daemon_init : trace :=
  [Ev Getpid 3;
   Ev (Fopen "/data/a.lock-c" "ab+") 5; Ev (Fclose 5) 0;
   Ev (Fopen "/data/b.lock-c" "ab+") 6; Ev (Fclose 6) 0;
   Ev (SetProcessName "fw_daemon") tt].

Definition daemon_after_exhaustion : trace :=
  [Ev (Waitpid 0 0) (-1);
   Ev Getpid 3;
   Ev (Open "/data/a.lock" (Z.lor O_RDONLY O_LARGEFILE) None) (-1);
   Ev (Open "/data/a.lock" O_CREAT (Some (Z.lor S_IRUSR S_IWUSR))) 12;
   Ev (Flock 12 (Z.lor LOCK_EX LOCK_NB)) 0;
   Ev (Open "/data/a.obs" (Z.lor O_RDONLY O_LARGEFILE) None) (-1);
   Ev (Open "/data/a.obs" O_CREAT (Some (Z.lor S_IRUSR S_IWUSR))) 13;
   Ev (Open "/data/b.obs" (Z.lor O_RDONLY O_LARGEFILE) None) 14;
   Ev (Remove "/data/b.obs") 0;
   Ev OpenDriver 15;
   Ev (InitProcessState 15) tt;
   Ev (WriteTransact 0 CHECK_SERVICE_TRANSACTION
         (pwrites emptyParcel
            [WInterfaceToken "android.os.IServiceManager";
             WString16 (Some "activity")])
         true 0 15) (0, mkParcel [] [mkFlat 0 0 7 0]);
   Ev (Open "/data/b.lock" (Z.lor O_RDONLY O_LARGEFILE) None) (-1);
   Ev (Open "/data/b.lock" O_CREAT (Some (Z.lor S_IRUSR S_IWUSR))) 16;
   Ev (Flock 16 (Z.lor LOCK_EX LOCK_NB)) 0;
   Ev (WriteTransact 7 30
         (writeStartServiceParcel emptyParcel "pkg" "svc" 28) false 1 15)
      (0, emptyParcel);
   Ev (Remove "/data/a.obs") 0;
   Ev Getpid 3;
   Ev (Killpg 3 SIGTERM) (-1)] ++
  releases "/data/a.lock" "/data/b.lock" "/data/a.obs" "/data/b.obs" "pkg" "svc".

Definition daemon_goes_on : trace :=
  daemon_init ++ refused_from "/data/a.lock-c" 7 5 ++ daemon_after_exhaustion.

(** Syncing as the spec words it, for guards [a] and [b] on exchanged
    paths, whatever the directory holds when they start: when [a] opens
    the driver, both guards have created their observer files. *)
Definition Syncing_both_announced
           (a b : Z) (indicatorA indicatorB observerA observerB
                      pkg svc : string) (sdk code : Z) : Prop :=
  forall w0 log,
    pair_run a b
             (doDaemon indicatorA indicatorB observerA observerB pkg svc sdk code)
             (doDaemon indicatorB indicatorA observerB observerA pkg svc sdk code)
             w0 log ->
    0 < nextfd w0 ->
    forall l1 d l2,
      log = l1 ++ Call a (Ev OpenDriver d) :: l2 ->
      (exists ev, In (Call a ev) l1 /\ created observerA ev = true) /\
      (exists ev, In (Call b ev) l1 /\ created observerB ev = true).

(** A kernel on which an earlier life of guard 2 has left its observer
    file behind. *)
Definition leftover_observer : world :=
  snd (exec 30 2 (openOrCreate "/data/b.obs") (boot emptyParcel)).

(** Guard 1 on [leftover_observer], up to Syncing; guard 2 has not made a
    call yet. *)
Definition alone_until_synced : list sys_ev :=
  [Call 1 (Ev (Open "/data/a.lock" (Z.lor O_RDONLY O_LARGEFILE) None) (-1));
   Call 1 (Ev (Open "/data/a.lock" O_CREAT (Some (Z.lor S_IRUSR S_IWUSR))) 4);
   Call 1 (Ev (Flock 4 (Z.lor LOCK_EX LOCK_NB)) 0);
   Call 1 (Ev (Open "/data/a.obs" (Z.lor O_RDONLY O_LARGEFILE) None) (-1));
   Call 1 (Ev (Open "/data/a.obs" O_CREAT (Some (Z.lor S_IRUSR S_IWUSR))) 5);
   Call 1 (Ev (Open "/data/b.obs" (Z.lor O_RDONLY O_LARGEFILE) None) 6);
   Call 1 (Ev (Remove "/data/b.obs") 0)].
(* ===================================================================== *)
(** * Executions: general facts *)
(* ===================================================================== *)

Lemma Ev_inj {T : Type} (e : sysE T) (x y : T) : Ev e x = Ev e y -> x = y.
Proof.
  intros H. inversion H. ddestruction. reflexivity.
Qed.

Section Executions.

Context {R : Type}.

Lemma runN_inv n (t : itree sysE R) tr o :
  runN n t tr o ->
  match observe t with
  | RetF r => n = 0%nat /\ tr = [] /\ (o = None \/ o = Some r)
  | TauF t' =>
      (n = 0%nat /\ tr = [] /\ o = None) \/
      (exists m, n = S m /\ runN m t' tr o)
  | VisF e k =>
      (n = 0%nat /\ tr = [] /\ o = None) \/
      (exists m x tr', n = S m /\ tr = Ev e x :: tr' /\ runN m (k x) tr' o)
  end.
Proof.
  intros H. destruct H as [t | t r E | n t t' tr o E H | n t T e k x tr o E H].
  - destruct (observe t); auto.
  - rewrite E. auto.
  - rewrite E. right. eauto.
  - rewrite E. right. eauto 6.
Qed.

Lemma runN_observe n (t t' : itree sysE R) tr o :
  observe t = observe t' -> runN n t tr o -> runN n t' tr o.
Proof.
  intros E H. destruct H.
  - apply runN_stop.
  - apply runN_ret. congruence.
  - eapply runN_tau; eauto. congruence.
  - eapply runN_vis; eauto. congruence.
Qed.

Lemma runN_forget n (t : itree sysE R) tr o :
  runN n t tr o -> runN n t tr None.
Proof.
  induction 1.
  - apply runN_stop.
  - apply runN_stop.
  - eapply runN_tau; eauto.
  - eapply runN_vis; eauto.
Qed.

Lemma run_forget (t : itree sysE R) tr o : run t tr o -> run t tr None.
Proof. intros [n H]. exists n. eapply runN_forget; eauto. Qed.

Lemma run_nil (t : itree sysE R) : run t [] None.
Proof. exists 0%nat. apply runN_stop. Qed.

Lemma run_observe (t t' : itree sysE R) tr o :
  observe t = observe t' -> run t tr o -> run t' tr o.
Proof. intros E [n H]. exists n. eapply runN_observe; eauto. Qed.

Lemma run_Ret_inv (r : R) tr o :
  run (Ret r) tr o -> tr = [] /\ (o = None \/ o = Some r).
Proof.
  intros [n H]. apply runN_inv in H. cbn in H. tauto.
Qed.

Lemma run_Ret (r : R) : run (Ret r : itree sysE R) [] (Some r).
Proof. exists 0%nat. apply runN_ret. reflexivity. Qed.

Lemma run_Tau_inv (t : itree sysE R) tr o :
  run (Tau t) tr o -> (tr = [] /\ o = None) \/ run t tr o.
Proof.
  intros [n H]. apply runN_inv in H. cbn in H.
  destruct H as [(_ & -> & ->) | (m & _ & H)]; [left | right]; auto.
  exists m; auto.
Qed.

Lemma run_Tau (t : itree sysE R) tr o : run t tr o -> run (Tau t) tr o.
Proof.
  intros [n H]. exists (S n). eapply runN_tau; [reflexivity | exact H].
Qed.

Lemma run_trigger_inv (e : sysE R) tr o :
  run (ITree.trigger e) tr o ->
  (tr = [] /\ o = None) \/
  (exists x, tr = [Ev e x] /\ (o = None \/ o = Some x)).
Proof.
  intros [n H]. apply runN_inv in H. cbn in H.
  destruct H as [(_ & -> & ->) | (m & x & tr' & _ & -> & H)]; [left; auto | right].
  apply runN_inv in H. cbn in H. destruct H as (_ & -> & H).
  exists x. auto.
Qed.

Lemma run_trigger (e : sysE R) x : run (ITree.trigger e) [Ev e x] (Some x).
Proof.
  exists 1%nat. eapply runN_vis; [reflexivity |].
  apply runN_ret. reflexivity.
Qed.

End Executions.

Section Bind.

Context {R U : Type} (k : R -> itree sysE U).

Lemma runN_bind_inv :
  forall n (t : itree sysE R) tr o,
    runN n (ITree.bind t k) tr o ->
    (o = None /\ runN n t tr None) \/
    (exists n1 n2 tr1 tr2 x,
        n = (n1 + n2)%nat /\ tr = tr1 ++ tr2 /\
        runN n1 t tr1 (Some x) /\ runN n2 (k x) tr2 o).
Proof.
  induction n as [n IH] using lt_wf_ind. intros t tr o H.
  pose proof (runN_inv H) as Hi. rewrite observe_bind in Hi.
  destruct (observe t) as [r | t0 | X e ke] eqn:Ot.
  - right. exists 0%nat, n, [], tr, r. repeat split; auto.
    + apply runN_ret; auto.
    + eapply runN_observe; [| exact H].
      rewrite observe_bind, Ot. reflexivity.
  - cbn in Hi. destruct Hi as [(-> & -> & ->) | (m & -> & Hm)].
    + left. split; auto. apply runN_stop.
    + destruct (IH m (Nat.lt_succ_diag_r _) _ _ _ Hm)
        as [[-> Hl] | (n1 & n2 & tr1 & tr2 & x & -> & -> & H3 & H4)].
      * left. split; auto. eapply runN_tau; eauto.
      * right. exists (S n1), n2, tr1, tr2, x. repeat split; auto.
        eapply runN_tau; eauto.
  - cbn in Hi. destruct Hi as [(-> & -> & ->) | (m & x & tr' & -> & -> & Hm)].
    + left. split; auto. apply runN_stop.
    + destruct (IH m (Nat.lt_succ_diag_r _) _ _ _ Hm)
        as [[-> Hl] | (n1 & n2 & tr1 & tr2 & x1 & -> & -> & H3 & H4)].
      * left. split; auto. eapply runN_vis; eauto.
      * right. exists (S n1), n2, (Ev e x :: tr1), tr2, x1. repeat split; auto.
        eapply runN_vis; eauto.
Qed.

Lemma runN_bind n1 n2 (t : itree sysE R) tr1 x tr2 o :
  runN n1 t tr1 (Some x) -> runN n2 (k x) tr2 o ->
  runN (n1 + n2) (ITree.bind t k) (tr1 ++ tr2) o.
Proof.
  intros H1. remember (Some x) as ox eqn:Eo. revert Eo.
  induction H1 as [t | t r E | n t t' tr o' E H IH | n t T e ke y tr o' E H IH];
    intros Eo H2.
  - discriminate.
  - injection Eo as ->. cbn. eapply runN_observe; [| exact H2].
    rewrite observe_bind, E. reflexivity.
  - cbn. eapply runN_tau; [| apply IH; eauto].
    rewrite observe_bind, E. reflexivity.
  - cbn. eapply runN_vis with (k := fun y => ITree.bind (ke y) k); [| apply IH; eauto].
    rewrite observe_bind, E. reflexivity.
Qed.

Lemma runN_bind_stop n (t : itree sysE R) tr :
  runN n t tr None -> runN n (ITree.bind t k) tr None.
Proof.
  intros H. remember None as ox eqn:Eo. revert Eo.
  induction H as [t | t r E | n t t' tr o' E H IH | n t T e ke y tr o' E H IH];
    intros Eo.
  - apply runN_stop.
  - discriminate.
  - eapply runN_tau; [| apply IH; eauto].
    rewrite observe_bind, E. reflexivity.
  - eapply runN_vis with (k := fun y => ITree.bind (ke y) k); [| apply IH; eauto].
    rewrite observe_bind, E. reflexivity.
Qed.

Lemma run_bind_inv (t : itree sysE R) tr o :
  run (ITree.bind t k) tr o ->
  (o = None /\ run t tr None) \/
  (exists tr1 tr2 x,
      tr = tr1 ++ tr2 /\ run t tr1 (Some x) /\ run (k x) tr2 o).
Proof.
  intros [n H]. apply runN_bind_inv in H.
  destruct H as [[-> H] | (n1 & n2 & tr1 & tr2 & x & _ & -> & H1 & H2)].
  - left. split; auto. exists n; auto.
  - right. exists tr1, tr2, x. repeat split; auto; eexists; eauto.
Qed.

Lemma run_bind (t : itree sysE R) tr1 x tr2 o :
  run t tr1 (Some x) -> run (k x) tr2 o ->
  run (ITree.bind t k) (tr1 ++ tr2) o.
Proof.
  intros [n1 H1] [n2 H2]. exists (n1 + n2)%nat. eapply runN_bind; eauto.
Qed.

Lemma run_bind_stop (t : itree sysE R) tr :
  run t tr None -> run (ITree.bind t k) tr None.
Proof. intros [n H]. exists n. apply runN_bind_stop; auto. Qed.

End Bind.

Section While.

Context {St : Type} (cond : St -> itree sysE (bool * St))
        (body : St -> itree sysE St).

Lemma observe_while s :
  observe (while cond body s) =
  observe (lr <- (cs <- cond s ;;
                  if fst cs then (s' <- body (snd cs) ;; Ret (inl s'))
                  else Ret (inr (snd cs))) ;;
           match lr with
           | inl l => Tau (while cond body l)
           | inr r => Ret r
           end).
Proof. reflexivity. Qed.

Lemma runN_while_inv :
  forall n s tr o, runN n (while cond body s) tr o -> while_run cond body s tr o.
Proof.
  induction n as [n IH] using lt_wf_ind. intros s tr o H.
  eapply runN_observe in H; [| apply observe_while].
  apply runN_bind_inv in H.
  destruct H as [[-> H] | (n1 & n2 & tr1 & tr2 & lr & -> & -> & H1 & H2)].
  - (* still inside the first iteration *)
    apply runN_bind_inv in H.
    destruct H as [[_ H] | (m1 & m2 & ta & tb & [b s1] & -> & -> & Ha & Hb)].
    + apply wr_cond_stop. exists n; auto.
    + cbn [fst snd] in Hb. destruct b.
      * apply runN_bind_inv in Hb.
        destruct Hb as [[_ Hb] | (p1 & p2 & tc & td & s2 & -> & -> & Hc & Hd)].
        -- eapply wr_body_stop; eexists; eauto.
        -- apply runN_inv in Hd. cbn in Hd. destruct Hd as (_ & -> & _).
           rewrite app_nil_r.
           eapply wr_body_stop; [eexists; eauto |].
           exists p1. eapply runN_forget; eauto.
      * apply runN_inv in Hb. cbn in Hb. destruct Hb as (_ & -> & _).
        rewrite app_nil_r. apply wr_cond_stop.
        exists m1. eapply runN_forget; eauto.
  - apply runN_bind_inv in H1.
    destruct H1 as [[? _] | (m1 & m2 & ta & tb & [b s1] & -> & -> & Ha & Hb)];
      [discriminate |].
    cbn [fst snd] in Hb. destruct b.
    + apply runN_bind_inv in Hb.
      destruct Hb as [[? _] | (p1 & p2 & tc & td & s2 & -> & -> & Hc & Hd)];
        [discriminate |].
      apply runN_inv in Hd. cbn in Hd. destruct Hd as (_ & -> & [? | Hd]);
        [discriminate |].
      injection Hd as Hd; subst lr. rewrite app_nil_r.
      apply runN_inv in H2. cbn in H2.
      destruct H2 as [(_ & -> & ->) | (m & -> & H2)].
      * rewrite app_nil_r. eapply wr_body_stop; [eexists; eauto |].
        exists p1. eapply runN_forget; eauto.
      * rewrite <- app_assoc.
        eapply wr_iter; [eexists; eauto | eexists; eauto |].
        apply (IH m); [lia | exact H2].
    + apply runN_inv in Hb. cbn in Hb. destruct Hb as (_ & -> & [? | Hb]);
        [discriminate |].
      injection Hb as Hb; subst lr. rewrite app_nil_r.
      apply runN_inv in H2. cbn in H2. destruct H2 as (_ & -> & [-> | ->]).
      * rewrite app_nil_r. apply wr_cond_stop.
        exists m1. eapply runN_forget; eauto.
      * rewrite app_nil_r. eapply wr_exit. eexists; eauto.
Qed.

Lemma run_while_inv s tr o :
  run (while cond body s) tr o -> while_run cond body s tr o.
Proof. intros [n H]. eapply runN_while_inv; eauto. Qed.

Lemma run_while s tr o :
  while_run cond body s tr o -> run (while cond body s) tr o.
Proof.
  induction 1 as [s tr H | s tr s1 H | s tr1 s1 tr2 H1 H2
                  | s tr1 s1 tr2 s2 tr3 o H1 H2 H3 IH].
  - eapply run_observe; [symmetry; apply observe_while |].
    apply run_bind_stop, run_bind_stop. exact H.
  - eapply run_observe; [symmetry; apply observe_while |].
    rewrite <- (app_nil_r tr). eapply run_bind.
    + rewrite <- (app_nil_r tr). eapply run_bind; [exact H |].
      cbn. apply run_Ret.
    + cbn. apply run_Ret.
  - eapply run_observe; [symmetry; apply observe_while |].
    apply run_bind_stop. eapply run_bind; [exact H1 |].
    cbn. apply run_bind_stop. exact H2.
  - eapply run_observe; [symmetry; apply observe_while |].
    rewrite app_assoc. eapply run_bind.
    + eapply run_bind; [exact H1 |]. cbn.
      rewrite <- (app_nil_r tr2). eapply run_bind; [exact H2 | apply run_Ret].
    + cbn. apply run_Tau. exact IH.
Qed.

End While.

Lemma run_bind_Ret {R U : Type} (r : R) (k : R -> itree sysE U) tr o :
  run (ITree.bind (Ret r) k) tr o -> run (k r) tr o.
Proof. apply run_observe. reflexivity. Qed.

Lemma run_bind_assoc {R U V : Type} (t : itree sysE R)
      (k1 : R -> itree sysE U) (k2 : U -> itree sysE V) tr o :
  run (ITree.bind (ITree.bind t k1) k2) tr o ->
  run (ITree.bind t (fun x => ITree.bind (k1 x) k2)) tr o.
Proof.
  intros H. apply run_bind_inv in H.
  destruct H as [[-> H] | (tr1 & tr2 & y & -> & H1 & H2)].
  - apply run_bind_inv in H.
    destruct H as [[_ H] | (ta & tb & x & -> & Ha & Hb)].
    + apply run_bind_stop. exact H.
    + eapply run_bind; [exact Ha |]. apply run_bind_stop. exact Hb.
  - apply run_bind_inv in H1.
    destruct H1 as [[? _] | (ta & tb & x & -> & Ha & Hb)]; [discriminate |].
    rewrite <- app_assoc. eapply run_bind; [exact Ha |].
    eapply run_bind; eauto.
Qed.

Lemma run_trigger_complete {R : Type} (e : sysE R) tr x :
  run (ITree.trigger e) tr (Some x) -> tr = [Ev e x].
Proof.
  intros H. apply run_trigger_inv in H.
  destruct H as [[_ ?] | (y & -> & [? | E])]; try discriminate.
  congruence.
Qed.

(** Proves that a given trace is an execution of a given tree. *)
Ltac run_steps :=
  repeat first
    [ apply runN_stop
    | apply runN_ret; cbn; reflexivity
    | eapply runN_vis; [cbn; reflexivity |]
    | eapply runN_tau; [cbn; reflexivity |] ].
Ltac prove_run := eexists; run_steps.

(* ===================================================================== *)
(** * Counting calls over all executions *)
(* ===================================================================== *)

Lemma count_app P a b : count P (a ++ b) = (count P a + count P b)%nat.
Proof. unfold count. rewrite filter_app, length_app. reflexivity. Qed.

Lemma count_cons P ev tr :
  count P (ev :: tr) = ((if P ev then 1 else 0) + count P tr)%nat.
Proof. unfold count. cbn. destruct (P ev); reflexivity. Qed.

Lemma count_nil P : count P [] = 0%nat.
Proof. reflexivity. Qed.

Lemma count_zero_Forall P tr :
  count P tr = 0%nat <-> Forall (fun ev => P ev = false) tr.
Proof.
  induction tr as [| ev tr IH].
  - split; [constructor | reflexivity].
  - rewrite count_cons. split.
    + intros H. destruct (P ev) eqn:E; [discriminate |].
      constructor; [exact E | apply IH; exact H].
    + intros H. inversion H; subst. rewrite H2. apply IH. assumption.
Qed.

Lemma count_zero_In P tr ev :
  count P tr = 0%nat -> In ev tr -> P ev = false.
Proof.
  intros H Hin. apply count_zero_Forall in H.
  rewrite Forall_forall in H. auto.
Qed.

Section AtMost.

Context (P : event -> bool).

Lemma at_most_weaken {R} (t : itree sysE R) n m :
  (n <= m)%nat -> at_most t P n -> at_most t P m.
Proof. intros Hle H tr o Hr. specialize (H tr o Hr). lia. Qed.

Lemma at_most_Ret {R} (r : R) n : at_most (Ret r : itree sysE R) P n.
Proof.
  intros tr o H. apply run_Ret_inv in H. destruct H as [-> _].
  cbn. lia.
Qed.

Lemma at_most_trigger_0 {R} (e : sysE R) :
  (forall x, P (Ev e x) = false) -> at_most (ITree.trigger e) P 0.
Proof.
  intros HP tr o H. apply run_trigger_inv in H.
  destruct H as [[-> _] | (x & -> & _)].
  - cbn. lia.
  - rewrite count_cons, HP. cbn. lia.
Qed.

Lemma at_most_trigger_1 {R} (e : sysE R) : at_most (ITree.trigger e) P 1.
Proof.
  intros tr o H. apply run_trigger_inv in H.
  destruct H as [[-> _] | (x & -> & _)].
  - cbn. lia.
  - rewrite count_cons. destruct (P (Ev e x)); cbn; lia.
Qed.

Lemma at_most_bind {R U} (t : itree sysE R) (k : R -> itree sysE U) n m :
  at_most t P n -> (forall x, at_most (k x) P m) ->
  at_most (ITree.bind t k) P (n + m).
Proof.
  intros Ht Hk tr o H. apply run_bind_inv in H.
  destruct H as [[-> H] | (tr1 & tr2 & x & -> & H1 & H2)].
  - specialize (Ht _ _ H). lia.
  - rewrite count_app. specialize (Ht _ _ H1). specialize (Hk x _ _ H2). lia.
Qed.

Lemma at_most_bind_r {R U} (t : itree sysE R) (k : R -> itree sysE U) n :
  at_most t P 0 -> (forall x, at_most (k x) P n) ->
  at_most (ITree.bind t k) P n.
Proof. intros Ht Hk. exact (@at_most_bind _ _ t k 0%nat n Ht Hk). Qed.

Lemma at_most_bind_l {R U} (t : itree sysE R) (k : R -> itree sysE U) n :
  at_most t P n -> (forall x, at_most (k x) P 0) ->
  at_most (ITree.bind t k) P n.
Proof.
  intros Ht Hk.
  eapply at_most_weaken; [| exact (@at_most_bind _ _ t k n 0%nat Ht Hk)]. lia.
Qed.

Lemma at_most_while_0 {St} (cond : St -> itree sysE (bool * St))
      (body : St -> itree sysE St) :
  (forall s, at_most (cond s) P 0) -> (forall s, at_most (body s) P 0) ->
  forall s, at_most (while cond body s) P 0.
Proof.
  intros Hc Hb s tr o H. apply run_while_inv in H.
  induction H as [s tr H | s tr s1 H | s tr1 s1 tr2 H1 H2
                  | s tr1 s1 tr2 s2 tr3 o H1 H2 H3 IH].
  - apply (Hc _ _ _ H).
  - apply (Hc _ _ _ H).
  - rewrite count_app. specialize (Hc _ _ _ H1). specialize (Hb _ _ _ H2). lia.
  - rewrite !count_app. specialize (Hc _ _ _ H1). specialize (Hb _ _ _ H2). lia.
Qed.

End AtMost.

(** Discharges [at_most t P 0] for the straight-line and looping code of
    the guard, call by call. *)
Ltac no_such_call :=
  repeat match goal with
    | |- at_most (Ret _) _ _ => apply at_most_Ret
    | |- at_most (ITree.trigger _) _ _ =>
        apply at_most_trigger_0; intros;
        first [ reflexivity
              | cbn;
                repeat match goal with
                  | H : String.eqb _ _ = false |- _ => rewrite H
                  end;
                rewrite ?andb_false_r; reflexivity ]
    | |- at_most (while _ _ _) _ _ => apply at_most_while_0; intros
    | |- at_most (ITree.bind _ _) _ _ => apply at_most_bind_r; [| intros]
    | |- at_most (if ?b then _ else _) _ _ => destruct b
    | |- at_most (match ?x with Some _ => _ | None => _ end) _ _ => destruct x
    | |- at_most (let (_, _) := ?x in _) _ _ => destruct x
    | |- at_most (openOrCreate _) _ _ => unfold openOrCreate
    | |- at_most (lockFile _) _ _ => unfold lockFile
    | |- at_most (notifyAndWaitFor _ _) _ _ => unfold notifyAndWaitFor
    | |- at_most (getServiceHandle _ _) _ _ => unfold getServiceHandle
    | |- at_most (open2 _ _) _ _ => unfold open2
    | |- at_most (open3 _ _ _) _ _ => unfold open3
    | |- at_most (flock _ _) _ _ => unfold flock
    | |- at_most (usleep _) _ _ => unfold usleep
    | |- at_most (remove _) _ _ => unfold remove
    | |- at_most (write_transact _ _ _ _ _ _) _ _ => unfold write_transact
    | |- at_most (setProcessName _) _ _ => unfold setProcessName
    | |- at_most _ _ _ => progress cbv zeta
    end.

(** An event singled out by [P] sits at one place only. *)
Lemma split_unique (P : event -> bool) a x b a' x' b' :
  a ++ x :: b = a' ++ x' :: b' ->
  P x = true -> P x' = true -> count P a = 0%nat -> count P b = 0%nat ->
  a = a' /\ x = x' /\ b = b'.
Proof.
  revert a'. induction a as [| z a IH]; intros a' E Px Px' Ha Hb.
  - destruct a' as [| y a'].
    + cbn in E. injection E as -> ->. auto.
    + cbn in E. injection E as -> ->.
      rewrite count_app, count_cons, Px' in Hb. lia.
  - rewrite count_cons in Ha. destruct (P z) eqn:Pz; [discriminate |].
    destruct a' as [| y a'].
    + cbn in E. injection E as -> _. congruence.
    + cbn in E. injection E as -> E.
      destruct (IH a' E Px Px' Ha Hb) as (-> & -> & ->). auto.
Qed.

(* ===================================================================== *)
(** * Executions of the file helpers *)
(* ===================================================================== *)

(** Takes the executions of straight-line code apart, call by call. *)
Ltac run_inv :=
  repeat match goal with
    | H : run (ITree.bind _ _) _ _ |- _ =>
        apply run_bind_inv in H;
        destruct H as [[? H] | (? & ? & ? & ? & ? & H)]
    | H : run (ITree.trigger _) _ _ |- _ =>
        apply run_trigger_inv in H;
        destruct H as [[? ?] | (? & ? & [? | ?])]
    | H : run (Ret _) _ _ |- _ =>
        apply run_Ret_inv in H; destruct H as [? [? | ?]]
    | H : run (if ?b then _ else _) _ _ |- _ => destruct b eqn:?
    | H : Some _ = None |- _ => discriminate H
    | H : None = Some _ |- _ => discriminate H
    | H : Some ?x = Some ?y |- _ =>
        assert (x = y) by congruence; clear H
    | H : ?x = _ |- _ => is_var x; subst x
    | H : _ = ?x |- _ => is_var x; subst x
    end.

Lemma run_openOrCreate_inv path tr o :
  run (openOrCreate path) tr o ->
  (tr = [] /\ o = None) \/
  (tr = [Ev (Open path (Z.lor O_RDONLY O_LARGEFILE) None) (-1)] /\ o = None) \/
  (exists fd,
      tr = [Ev (Open path (Z.lor O_RDONLY O_LARGEFILE) None) fd] /\
      fd <> -1 /\ (o = None \/ o = Some fd)) \/
  (exists fd,
      tr = [Ev (Open path (Z.lor O_RDONLY O_LARGEFILE) None) (-1);
            Ev (Open path O_CREAT (Some (Z.lor S_IRUSR S_IWUSR))) fd] /\
      (o = None \/ o = Some fd)).
Proof.
  unfold openOrCreate, open2, open3. intros H. run_inv; cbn [app];
    repeat match goal with
      | E : (_ =? _) = true |- _ => apply Z.eqb_eq in E; subst
      | E : (_ =? _) = false |- _ => apply Z.eqb_neq in E
      end;
    eauto 8.
  - destruct (Z.eq_dec x (-1)) as [-> | Hx]; eauto 8.
Qed.

Ltac Zbool :=
  repeat match goal with
    | E : (_ =? _) = true |- _ => apply Z.eqb_eq in E
    | E : (_ =? _) = false |- _ => apply Z.eqb_neq in E
    | E : (_ <? _) = true |- _ => apply Z.ltb_lt in E
    | E : (_ <? _) = false |- _ => apply Z.ltb_ge in E
    end.

(** The executions of [lockFile]: the opening sequence and, when a
    descriptor was obtained, one [flock] with [LOCK_EX | LOCK_NB].  The
    result is 1 exactly when that [flock] was granted. *)
Lemma run_lockFile_inv path tr o :
  run (lockFile path) tr o ->
  exists tro oo,
    run (openOrCreate path) tro oo /\
    ((tr = tro /\ (o = None \/ (oo = Some (-1) /\ o = Some 0))) \/
     (exists fd x,
         oo = Some fd /\ fd <> -1 /\
         tr = tro ++ [Ev (Flock fd (Z.lor LOCK_EX LOCK_NB)) x] /\
         (o = None \/ o = Some (if x =? -1 then 0 else 1)))).
Proof.
  unfold lockFile, flock. intros H.
  apply run_bind_inv in H.
  destruct H as [[-> H] | (tro & tr2 & fd & -> & H1 & H2)].
  - exists tr, None. split; auto.
  - exists tro, (Some fd). split; auto.
    destruct (fd =? -1) eqn:Efd; Zbool.
    + apply run_Ret_inv in H2. destruct H2 as [-> H2]. rewrite app_nil_r.
      left. split; auto. destruct H2; subst; auto.
    + apply run_bind_inv in H2.
      destruct H2 as [[-> H2] | (tra & trb & x & -> & Ha & Hb)].
      * apply run_trigger_inv in H2. destruct H2 as [[-> _] | (x & -> & _)].
        -- rewrite app_nil_r. left. auto.
        -- right. exists fd, x. auto.
      * apply run_trigger_inv in Ha.
        destruct Ha as [[_ ?] | (y & -> & [? | Hy])]; try discriminate.
        assert (y = x) by congruence. subst y.
        right. exists fd, x.
        assert (Hb' : trb = [] /\ (o = None \/ o = Some (if x =? -1 then 0 else 1))).
        { destruct (x =? -1); apply run_Ret_inv in Hb; exact Hb. }
        destruct Hb' as [-> Hb']. repeat split; auto.
Qed.

Lemma openOrCreate_calls path tr o :
  run (openOrCreate path) tr o ->
  Forall (fun ev => locking_call path ev = true) tr /\
  count is_Flock tr = 0%nat /\ count is_backoff tr = 0%nat /\
  (count (opens_rdonly path) tr <= 1)%nat /\
  (tr = [] \/ count (opens_rdonly path) tr = 1%nat).
Proof.
  intros H. apply run_openOrCreate_inv in H.
  destruct H as [[-> _] | [[-> _] | [(fd & -> & _) | (fd & -> & _)]]];
    cbn; rewrite ?String.eqb_refl; cbn;
    repeat split; auto; repeat constructor; cbn; rewrite ?String.eqb_refl; auto.
Qed.

Lemma lockFile_calls path tr o :
  run (lockFile path) tr o ->
  Forall (fun ev => locking_call path ev = true) tr /\
  count is_backoff tr = 0%nat /\
  (count (opens_rdonly path) tr <= 1)%nat /\
  (tr = [] \/ count (opens_rdonly path) tr = 1%nat) /\
  match o with
  | None => True
  | Some r =>
      (r = 0 /\ count flock_granted tr = 0%nat) \/
      (r = 1 /\ exists tro fd x,
          tr = tro ++ [Ev (Flock fd (Z.lor LOCK_EX LOCK_NB)) x] /\
          x <> -1 /\ count is_Flock tro = 0%nat)
  end.
Proof.
  intros H. apply run_lockFile_inv in H.
  destruct H as (tro & oo & Ho & H).
  pose proof (@openOrCreate_calls _ _ _ Ho) as (Hc & Hf & Hb & Hle & Hone).
  assert (Hg : count flock_granted tro = 0%nat).
  { apply count_zero_Forall. apply count_zero_Forall in Hf.
    eapply Forall_impl; [| exact Hf]. intros [T e x] E.
    destruct e; cbn in *; auto; discriminate. }
  destruct H as [[-> H] | (fd & x & -> & Hfd & -> & H)].
  - repeat split; auto.
    destruct H as [-> | [_ ->]]; auto.
  - repeat split.
    + apply Forall_app. split; auto.
    + rewrite count_app, Hb. reflexivity.
    + rewrite count_app. cbn. lia.
    + right. rewrite count_app. cbn.
      destruct Hone as [-> | ->]; [| lia].
      apply run_openOrCreate_inv in Ho.
      destruct Ho as [[_ ?] | [[_ ?] | [(? & ? & _) | (? & ? & _)]]];
        discriminate.
    + destruct H as [-> | ->]; auto.
      destruct (x =? -1) eqn:Ex; Zbool.
      * left. split; auto. rewrite count_app, Hg. subst x. reflexivity.
      * right. split; auto. exists tro, fd, x. auto.
Qed.

(** Whatever [lockFile] does, it does it after the read-only [open]. *)
Lemma lockFile_starts path tr o :
  run (lockFile path) tr o ->
  (tr = [] /\ o = None) \/
  (exists fd rest,
      tr = Ev (Open path (Z.lor O_RDONLY O_LARGEFILE) None) fd :: rest).
Proof.
  intros H. apply run_lockFile_inv in H.
  destruct H as (tro & oo & Ho & H).
  apply run_openOrCreate_inv in Ho.
  destruct Ho as [[-> ->] | [[-> ->] | [(fd & -> & _ & Hoo) | (fd & -> & Hoo)]]];
    destruct H as [[-> H] | (fd' & x & ? & _ & -> & _)];
    try discriminate; cbn [app]; eauto.
  left. split; auto. destruct H as [-> | [? _]]; [auto | discriminate].
Qed.

(* ===================================================================== *)
(** * The kernel side: names *)
(* ===================================================================== *)

Lemma has_flag_rdonly :
  has_flag (Z.lor O_RDONLY O_LARGEFILE) O_CREAT = false.
Proof. reflexivity. Qed.

Lemma os_open_names p q path flags w fd w' :
  os_open q path flags w = (fd, w') ->
  0 < nextfd w ->
  0 < nextfd w' /\
  (fd <> -1 -> names w' path <> None) /\
  (fd <> -1 -> has_flag flags O_CREAT = false -> names w path <> None) /\
  (has_flag flags O_CREAT = true -> fd <> -1) /\
  (names w' p <> names w p ->
   p = path /\ names w p = None /\ has_flag flags O_CREAT = true).
Proof.
  unfold os_open, os_alloc, os_creat. intros H Hwf.
  destruct (names w path) as [ino |] eqn:En.
  - injection H as <- <-. cbn. rewrite En.
    repeat split; try lia; try congruence.
  - destruct (has_flag flags O_CREAT) eqn:Ef.
    + injection H as <- <-. cbn. rewrite String.eqb_refl.
      repeat split; try lia; try congruence.
      * destruct (String.eqb_spec p path); auto. congruence.
      * destruct (String.eqb_spec p path); [subst; auto | congruence].
    + injection H as <- <-. repeat split; try lia; try congruence.
Qed.

Lemma os_remove_names p path w x w' :
  os_remove path w = (x, w') ->
  nextfd w' = nextfd w /\
  (x = 0 \/ x = -1) /\
  (x = 0 -> names w path <> None /\ names w' path = None) /\
  (x = -1 -> names w path = None) /\
  (names w' p <> names w p -> p = path /\ x = 0).
Proof.
  unfold os_remove. intros H.
  destruct (names w path) as [ino |] eqn:En; injection H as <- <-; cbn.
  - rewrite String.eqb_refl. repeat split; auto; try congruence; try lia.
    + destruct (String.eqb_spec p path); auto. congruence.
  - repeat split; auto; try congruence; try lia.
Qed.

Lemma os_flock_names q fd operation w x w' :
  os_flock q fd operation w = Some (x, w') ->
  names w' = names w /\ nextfd w' = nextfd w.
Proof.
  unfold os_flock, set_holder. intros H.
  repeat match type of H with
         | context [match ?c with _ => _ end] => destruct c
         end;
    try discriminate; injection H as <- <-; auto.
Qed.

Lemma os_close_names q fd w x w' :
  os_close q fd w = (x, w') -> names w' = names w /\ nextfd w' = nextfd w.
Proof.
  unfold os_close, set_holder. intros H.
  repeat match type of H with
         | context [match ?c with _ => _ end] => destruct c
         end;
    injection H as <- <-; auto.
Qed.

(** [killpg] changes nothing in the kernel by itself, and [setsid] nothing
    but the groups. *)
Lemma os_killpg_same p pgrp w x w' :
  os_killpg p pgrp w = Some (x, w') -> w' = w.
Proof.
  unfold os_killpg. intros H.
  repeat match type of H with
         | context [match ?c with _ => _ end] => destruct c
         | context [if ?c then _ else _] => destruct c
         end;
    congruence.
Qed.

Lemma os_call_killpg_same p pgrp sig w x w' :
  os_call p (Killpg pgrp sig) w = Some (x, w') -> w' = w.
Proof.
  cbn [os_call]. destruct (sig =? SIGTERM).
  - apply os_killpg_same.
  - congruence.
Qed.

Lemma os_setsid_keeps p w x w' :
  os_setsid p w = (x, w') ->
  names w' = names w /\ inodes w' = inodes w /\ fdtab w' = fdtab w /\
  nextfd w' = nextfd w /\ holder w' = holder w /\ alive w' = alive w /\
  binder w' = binder w.
Proof.
  unfold os_setsid. intros H.
  destruct (group w p); injection H as <- <-; cbn; repeat split; reflexivity.
Qed.

(** One call, seen from the name [p]. *)
Lemma os_call_names p q T (e : sysE T) x w w' :
  os_call q e w = Some (x, w') ->
  0 < nextfd w ->
  0 < nextfd w' /\
  (removed p (Ev e x) = true -> names w p <> None /\ names w' p = None) /\
  (names w p = None -> names w' p <> None -> created p (Ev e x) = true) /\
  (names w p <> None -> names w' p = None -> removed p (Ev e x) = true).
Proof.
  intros H Hwf.
  destruct e; cbn [os_call] in H; try discriminate;
    try (injection H as <- <-; cbn;
         split; [exact Hwf |]; split; [discriminate |]; split; congruence).
  - (* open *)
    destruct (os_open q path flags w) as [fd w1] eqn:Eo.
    assert (fd = x /\ w1 = w') by (split; congruence). destruct H0 as [-> ->].
    destruct (@os_open_names p _ _ _ _ _ _ Eo Hwf) as (W & A1 & A2 & A3 & A4).
    cbn. split; [exact W |]. split; [discriminate |]. split.
    + intros Hn Hn'.
      destruct A4 as (-> & _ & Hf); [congruence |].
      rewrite String.eqb_refl, Hf. cbn.
      apply A3 in Hf. apply Z.eqb_neq in Hf. rewrite Hf. reflexivity.
    + intros Hn Hn'. exfalso.
      destruct A4 as (_ & ? & _); congruence.
  - (* flock *)
    apply os_flock_names in H. destruct H as [En Ef]. rewrite En, Ef.
    cbn. split; [exact Hwf |]. split; [discriminate |]. split; congruence.
  - (* remove *)
    destruct (os_remove path w) as [r w1] eqn:Er.
    assert (r = x /\ w1 = w') by (split; congruence). destruct H0 as [-> ->].
    destruct (@os_remove_names p _ _ _ _ Er) as (W & A0 & A1 & A2 & A3).
    cbn. split; [lia |]. split; [| split].
    + intros Hr. apply andb_prop in Hr. destruct Hr as [Hp Hx].
      apply String.eqb_eq in Hp. apply Z.eqb_eq in Hx. subst. tauto.
    + intros Hn Hn'. exfalso.
      destruct A3 as (-> & ->); [congruence |].
      destruct (A1 eq_refl). congruence.
    + intros Hn Hn'. destruct A3 as (-> & ->); [congruence |].
      rewrite String.eqb_refl. reflexivity.
  - (* fopen *)
    destruct (os_open q path O_CREAT w) as [fd w1] eqn:Eo.
    assert (fd = x /\ w1 = w') by (split; congruence). destruct H0 as [-> ->].
    destruct (@os_open_names p _ _ _ _ _ _ Eo Hwf) as (W & A1 & A2 & A3 & A4).
    cbn. split; [exact W |]. split; [discriminate |]. split.
    + intros Hn Hn'.
      destruct A4 as (-> & _ & Hf); [congruence |].
      rewrite String.eqb_refl. cbn.
      unfold os_open, os_alloc, os_creat in Eo. rewrite Hn in Eo.
      change (has_flag O_CREAT O_CREAT) with true in Eo. cbn in Eo.
      injection Eo as <- _.
      destruct (Z.eqb_spec (nextfd w) 0); [lia | reflexivity].
    + intros Hn Hn'. exfalso.
      destruct A4 as (_ & ? & _); congruence.
  - (* fclose *)
    destruct (os_close q fp w) as [r w1] eqn:Ec.
    assert (r = x /\ w1 = w') by (split; congruence). destruct H0 as [-> ->].
    apply os_close_names in Ec. destruct Ec as [En Ef]. rewrite En, Ef.
    cbn. split; [exact Hwf |]. split; [discriminate |]. split; congruence.
  - (* killpg *)
    change (os_call q (Killpg pgrp sig) w = Some (x, w')) in H.
    apply os_call_killpg_same in H. subst w'. cbn.
    split; [exact Hwf |]. split; [discriminate |]. split; congruence.
  - (* setsid *)
    destruct (os_setsid q w) as [r w1] eqn:Es.
    assert (r = x /\ w1 = w') by (split; congruence). destruct H0 as [-> ->].
    apply os_setsid_keeps in Es. destruct Es as (En & _ & _ & Ef & _).
    rewrite En, Ef. cbn.
    split; [exact Hwf |]. split; [discriminate |]. split; congruence.
  - (* open_driver *)
    unfold os_driver in H. injection H as <- <-. cbn.
    split; [lia |]. split; [discriminate |]. split; congruence.
Qed.

Lemma os_open_rdonly_names p q path flags w fd w' :
  os_open q path flags w = (fd, w') ->
  has_flag flags O_CREAT = false ->
  names w' p = names w p /\ (fd <> -1 -> names w path <> None).
Proof.
  unfold os_open, os_alloc. intros H Hf. rewrite Hf in H.
  destruct (names w path) eqn:En; injection H as <- <-; cbn.
  - split; [reflexivity | congruence].
  - split; [reflexivity | congruence].
Qed.

Lemma created_creating p ev : created p ev = true -> creating p ev = true.
Proof.
  destruct ev as [T e x]. destruct e; cbn; try discriminate.
  - intros H. apply andb_prop in H. tauto.
  - intros H. apply andb_prop in H. tauto.
Qed.

Lemma count_le_impl (P Q : event -> bool) tr :
  (forall ev, P ev = true -> Q ev = true) ->
  (count P tr <= count Q tr)%nat.
Proof.
  intros H. induction tr as [| ev tr IH]; [cbn; lia |].
  rewrite !count_cons. destruct (P ev) eqn:E.
  - rewrite (H _ E). lia.
  - destruct (Q ev); lia.
Qed.

(* ===================================================================== *)
(** * Logs of several processes *)
(* ===================================================================== *)

Lemma replay_call_inv w0 q T (e : sysE T) x l w :
  replay w0 (Call q (Ev e x) :: l) w ->
  exists w1, alive w0 q = true /\ os_call q e w0 = Some (x, w1) /\ replay w1 l w.
Proof.
  intros H. inversion H; subst. ddestruction. eauto.
Qed.

Lemma replay_death_inv w0 q l w :
  replay w0 (Death q :: l) w -> replay (die q w0) l w.
Proof.
  intros H. inversion H; subst. assumption.
Qed.

Lemma replay_app w0 l1 l2 w :
  replay w0 (l1 ++ l2) w -> exists w1, replay w0 l1 w1 /\ replay w1 l2 w.
Proof.
  revert w0. induction l1 as [| [q [T e x] | q] l1 IH]; intros w0 H.
  - exists w0. split; [constructor | exact H].
  - cbn in H. apply replay_call_inv in H. destruct H as (w1 & Ha & Hc & H).
    destruct (IH _ H) as (w2 & Hx & Hy).
    exists w2. split; auto. econstructor; eauto.
  - cbn in H. apply replay_death_inv in H.
    destruct (IH _ H) as (w2 & Hx & Hy).
    exists w2. split; auto. constructor; auto.
Qed.

Lemma replay_nextfd w0 l w :
  replay w0 l w -> 0 < nextfd w0 -> 0 < nextfd w.
Proof.
  induction 1 as [w | w q T e x w1 l w2 Ha Hc Hr IH | w q l w2 Hr IH];
    intros Hwf; auto.
  - apply IH. eapply (@os_call_names ""); eauto.
Qed.

(** As long as nobody creates [p] afresh more often than the log shows,
    [p] cannot be removed more often than it was created. *)
Lemma replay_removed_le p w0 l w :
  replay w0 l w -> 0 < nextfd w0 -> names w0 p = None ->
  (count (removed p) (events l)
   + match names w p with Some _ => 1 | None => 0 end <= count (created p) (events l))%nat.
Proof.
  intros H Hwf H0.
  enough (G : (count (removed p) (events l) + match names w p with Some _ => 1 | None => 0 end
               <= count (created p) (events l)
                  + match names w0 p with Some _ => 1 | None => 0 end)%nat).
  { rewrite H0 in G. lia. }
  clear H0.
  induction H as [w | w q T e x w1 l w2 Ha Hc Hr IH | w q l w2 Hr IH].
  - cbn. lia.
  - destruct (@os_call_names p _ _ _ _ _ _ Hc Hwf) as (W & F1 & F2 & F3).
    specialize (IH W). cbn [events]. rewrite !count_cons.
    destruct (removed p (Ev e x)) eqn:Er.
    + destruct (F1 eq_refl) as [N1 N2]. rewrite N2 in IH.
      destruct (names w p); [| congruence].
      destruct (created p (Ev e x)); lia.
    + destruct (names w p) eqn:N; destruct (names w1 p) eqn:N1.
      * destruct (created p (Ev e x)); lia.
      * assert (false = true) by (apply F3; congruence).
        discriminate.
      * rewrite F2; [lia | auto | congruence].
      * destruct (created p (Ev e x)); lia.
  - cbn [events]. apply IH. exact Hwf.
Qed.

(** A name that was there and is gone was removed. *)
Lemma replay_disappeared p w0 l w :
  replay w0 l w -> 0 < nextfd w0 ->
  names w0 p <> None -> names w p = None ->
  (1 <= count (removed p) (events l))%nat.
Proof.
  induction 1 as [w | w q T e x w1 l w2 Ha Hc Hr IH | w q l w2 Hr IH];
    intros Hwf H0 H1.
  - congruence.
  - destruct (@os_call_names p _ _ _ _ _ _ Hc Hwf) as (W & F1 & F2 & F3).
    cbn [events]. rewrite count_cons.
    destruct (names w1 p) eqn:N1.
    + assert (1 <= count (removed p) (events l))%nat by (apply IH; auto; congruence).
      lia.
    + rewrite F3; auto. lia.
  - cbn [events]. apply IH; auto.
Qed.

Lemma calls_of_app p l1 l2 :
  calls_of p (l1 ++ l2) = calls_of p l1 ++ calls_of p l2.
Proof.
  induction l1 as [| [q ev | q] l1 IH]; cbn; auto.
  destruct (q =? p); cbn; congruence.
Qed.

Lemma calls_of_cons_same p ev l :
  calls_of p (Call p ev :: l) = ev :: calls_of p l.
Proof. cbn. rewrite Z.eqb_refl. reflexivity. Qed.

(** A place in the trace of [p] is a place in the log. *)
Lemma calls_of_split p l t1 ev t2 :
  calls_of p l = t1 ++ ev :: t2 ->
  exists m1 m2,
    l = m1 ++ Call p ev :: m2 /\ calls_of p m1 = t1 /\ calls_of p m2 = t2.
Proof.
  revert t1. induction l as [| [q ev' | q] l IH]; intros t1 H.
  - destruct t1; discriminate.
  - cbn in H. destruct (Z.eqb_spec q p) as [-> | Hq].
    + destruct t1 as [| ev1 t1].
      * cbn in H. injection H as -> <-.
        exists [], l. auto.
      * cbn in H. injection H as -> H.
        destruct (IH _ H) as (m1 & m2 & -> & <- & <-).
        exists (Call p ev1 :: m1), m2. rewrite calls_of_cons_same. auto.
    + destruct (IH _ H) as (m1 & m2 & -> & <- & <-).
      exists (Call q ev' :: m1), m2. cbn.
      destruct (Z.eqb_spec q p); [contradiction | auto].
  - cbn in H. destruct (IH _ H) as (m1 & m2 & -> & <- & <-).
    exists (Death q :: m1), m2. auto.
Qed.

Lemma In_calls_of p ev l : In (Call p ev) l -> In ev (calls_of p l).
Proof.
  induction l as [| [q ev' | q] l IH]; cbn; auto.
  - intros [E | H].
    + injection E as -> ->. rewrite Z.eqb_refl. left. reflexivity.
    + destruct (q =? p); [right |]; auto.
  - intros [E | H]; [discriminate | auto].
Qed.

Lemma count_events_pair P a b l :
  a <> b ->
  Forall (fun sev => match sev with
                     | Call q _ => q = a \/ q = b
                     | Death _ => True
                     end) l ->
  count P (events l) = (count P (calls_of a l) + count P (calls_of b l))%nat.
Proof.
  intros Hab. induction 1 as [| [q ev | q] l Hq Hall IH]; cbn [events calls_of].
  - reflexivity.
  - rewrite count_cons, IH.
    destruct Hq as [-> | ->].
    + rewrite Z.eqb_refl. destruct (Z.eqb_spec a b); [contradiction |].
      rewrite count_cons. lia.
    + rewrite Z.eqb_refl. destruct (Z.eqb_spec b a); [congruence |].
      rewrite count_cons. lia.
  - exact IH.
Qed.

Lemma count_pos_event P l :
  (1 <= count P (events l))%nat ->
  exists q ev, In (Call q ev) l /\ P ev = true.
Proof.
  induction l as [| [q ev | q] l IH]; cbn [events].
  - cbn. lia.
  - rewrite count_cons. destruct (P ev) eqn:E.
    + intros _. exists q, ev. split; [left; reflexivity | exact E].
    + intros H. destruct IH as (q' & ev' & Hin & HP); [lia |].
      exists q', ev'. split; [right |]; auto.
  - intros H. destruct (IH H) as (q' & ev' & Hin & HP).
    exists q', ev'. split; [right |]; auto.
Qed.

Lemma events_app l1 l2 : events (l1 ++ l2) = events l1 ++ events l2.
Proof.
  induction l1 as [| [q ev | q] l1 IH]; cbn; congruence.
Qed.

(* ===================================================================== *)
(** * One process on the kernel *)
(* ===================================================================== *)

(** What [exec] computes is an execution of the tree. *)
Lemma exec_run {R : Type} fuel p (t : itree sysE R) w tr o w' :
  exec fuel p t w = (tr, o, w') -> run t tr (returned o).
Proof.
  revert t w tr o w'. induction fuel as [| fuel IH]; intros t w tr o w' H.
  - cbn in H. injection H as <- <- _. apply run_nil.
  - cbn [exec] in H. destruct (observe t) as [r | t' | X e k] eqn:Ot.
    + injection H as <- <- _. exists 0%nat. apply runN_ret. exact Ot.
    + apply IH in H. destruct H as [n H]. exists (S n).
      eapply runN_tau; eauto.
    + destruct (os_call p e w) as [[x w1] |] eqn:Ec.
      * destruct (exec fuel p (k x) w1) as [[tr1 o1] w2] eqn:Ee.
        injection H as <- <- _.
        apply IH in Ee. destruct Ee as [n Ee]. exists (S n).
        eapply runN_vis; eauto.
      * injection H as <- <- _. apply run_nil.
Qed.

Lemma os_call_alive p T (e : sysE T) x w w' :
  os_call p e w = Some (x, w') -> alive w' = alive w.
Proof.
  intros H. destruct e; cbn [os_call] in H; try discriminate;
    try (injection H as _ <-; reflexivity).
  - unfold os_open, os_alloc, os_creat in H.
    destruct (names w path); [injection H as _ <-; reflexivity |].
    destruct (has_flag flags O_CREAT); injection H as _ <-; reflexivity.
  - unfold os_flock, set_holder in H.
    repeat match type of H with
           | context [match ?c with _ => _ end] => destruct c
           end;
      try discriminate; injection H as _ <-; reflexivity.
  - unfold os_remove in H.
    destruct (names w path); injection H as _ <-; reflexivity.
  - unfold os_open, os_alloc, os_creat in H.
    destruct (names w path); [injection H as _ <-; reflexivity |].
    change (has_flag O_CREAT O_CREAT) with true in H.
    injection H as _ <-. reflexivity.
  - unfold os_close, set_holder in H.
    repeat match type of H with
           | context [match ?c with _ => _ end] => destruct c
           end;
      injection H as _ <-; reflexivity.
  - change (os_call p (Killpg pgrp sig) w = Some (x, w')) in H.
    apply os_call_killpg_same in H. subst w'. reflexivity.
  - destruct (os_setsid p w) as [r w1] eqn:Es.
    injection H as _ <-. apply os_setsid_keeps in Es.
    destruct Es as (_ & _ & _ & _ & _ & Ea & _). exact Ea.
Qed.

(** And the kernel serves its calls in that order. *)
Lemma exec_replay {R : Type} fuel p (t : itree sysE R) w tr o w' :
  exec fuel p t w = (tr, o, w') -> alive w p = true ->
  replay w (List.map (Call p) tr) w'.
Proof.
  revert t w tr o w'. induction fuel as [| fuel IH]; intros t w tr o w' H Ha.
  - cbn in H. injection H as <- _ <-. constructor.
  - cbn [exec] in H. destruct (observe t) as [r | t' | X e k] eqn:Ot.
    + injection H as <- _ <-. constructor.
    + eapply IH; eauto.
    + destruct (os_call p e w) as [[x w1] |] eqn:Ec.
      * destruct (exec fuel p (k x) w1) as [[tr1 o1] w2] eqn:Ee.
        injection H as <- _ <-. cbn [List.map].
        econstructor; eauto. eapply IH; eauto.
        erewrite os_call_alive by exact Ec. exact Ha.
      * injection H as <- _ <-. constructor.
Qed.

(* ===================================================================== *)
(** * The command code of startService *)
(* ===================================================================== *)

(** C10.  The mapping from the platform revision to the command code is
    total: 26 for revisions 26 and 27, 30 for 28, 24 for 29, and 34 for
    every other integer, below 26 and above 29 alike. *)
Theorem getStartServiceTransactionCode_table (sdkVersion : Z) :
  getStartServiceTransactionCode sdkVersion =
  if (sdkVersion =? 26) || (sdkVersion =? 27) then 26
  else if sdkVersion =? 28 then 30
  else if sdkVersion =? 29 then 24
  else 34.
Proof.
  unfold getStartServiceTransactionCode.
  destruct sdkVersion as [| p | p]; try reflexivity.
  do 5 (destruct p as [p | p |]; try reflexivity).
Qed.

Lemma getStartServiceTransactionCode_other (sdkVersion : Z) :
  sdkVersion < 26 \/ 29 < sdkVersion ->
  getStartServiceTransactionCode sdkVersion = 34.
Proof.
  intros H. rewrite getStartServiceTransactionCode_table.
  destruct (Z.eqb_spec sdkVersion 26); [lia |].
  destruct (Z.eqb_spec sdkVersion 27); [lia |].
  destruct (Z.eqb_spec sdkVersion 28); [lia |].
  destruct (Z.eqb_spec sdkVersion 29); [lia |].
  reflexivity.
Qed.

(* ===================================================================== *)
(** * The entry point on NULL paths *)
(* ===================================================================== *)

(** C9.  When one of the four path arguments is NULL, the entry point
    returns at once: it makes no call at all (no fork, no file created or
    locked, no driver opened), and on any kernel state it returns leaving
    that state as it was. *)
Theorem startForceStopDaemon_NULL
        (indicatorSelfPath indicatorDaemonPath observerSelfPath observerDaemonPath
         packageName serviceName : jstring) (sdkVersion : Z) :
  indicatorSelfPath = None \/ indicatorDaemonPath = None \/
  observerSelfPath = None \/ observerDaemonPath = None ->
  let t := startForceStopDaemon indicatorSelfPath indicatorDaemonPath
                                observerSelfPath observerDaemonPath
                                packageName serviceName sdkVersion in
  (forall tr o, run t tr o -> tr = []) /\
  run t [] (Some tt) /\
  (forall fuel p w, exec (S fuel) p t w = ([], Returned tt, w)).
Proof.
  intros H t.
  assert (E : t = Ret tt).
  { subst t. unfold startForceStopDaemon.
    destruct H as [-> | [-> | [-> | ->]]]; cbn [isNULL orb];
      rewrite ?orb_true_r; reflexivity. }
  rewrite E. split; [| split].
  - intros tr o Hr. apply run_Ret_inv in Hr. tauto.
  - apply run_Ret.
  - reflexivity.
Qed.

Lemma startForceStopDaemon_NULL_witness :
  let t := startForceStopDaemon (Some "/data/a.lock") None
                                (Some "/data/a.obs") (Some "/data/b.obs")
                                (Some "pkg") (Some "svc") 28 in
  (forall tr o, run t tr o -> tr = []) /\
  run t [] (Some tt) /\
  (forall fuel p w, exec (S fuel) p t w = ([], Returned tt, w)).
Proof.
  apply startForceStopDaemon_NULL. right. left. reflexivity.
Defined.

(* ===================================================================== *)
(** * Resolving a service *)
(* ===================================================================== *)

(** The query [getServiceHandle] sends to the registry (handle 0). *)
Lemma run_getServiceHandle_inv serviceName driverFD tr o :
  run (getServiceHandle serviceName driverFD) tr o ->
  (tr = [] /\ o = None) \/
  (exists status reply,
      tr = [Ev (WriteTransact 0 CHECK_SERVICE_TRANSACTION
                              (pwrites emptyParcel
                                 [WInterfaceToken "android.os.IServiceManager";
                                  WString16 (Some serviceName)])
                              true 0 driverFD) (status, reply)] /\
      (o = None \/
       o = Some (match objects reply with
                 | [] => 0
                 | flat :: _ => handle flat
                 end))).
Proof.
  unfold getServiceHandle, write_transact. intros H.
  apply run_bind_inv in H.
  destruct H as [[-> H] | (tr1 & tr2 & [status reply] & -> & H1 & H2)].
  - apply run_trigger_inv in H.
    destruct H as [[-> _] | ([status reply] & -> & _)]; [left; auto | right].
    exists status, reply. split; auto.
  - right. apply run_trigger_inv in H1.
    destruct H1 as [[_ ?] | (x & -> & [? | Hx])]; try discriminate.
    assert (x = (status, reply)) by congruence; subst x. exists status, reply.
    cbn [snd] in H2. unfold readObject in H2.
    destruct (objects reply); apply run_Ret_inv in H2;
      destruct H2 as [-> H2]; split; auto.
Qed.

Lemma getServiceHandle_run serviceName driverFD status reply :
  run (getServiceHandle serviceName driverFD)
      [Ev (WriteTransact 0 CHECK_SERVICE_TRANSACTION
                         (pwrites emptyParcel
                            [WInterfaceToken "android.os.IServiceManager";
                             WString16 (Some serviceName)])
                         true 0 driverFD) (status, reply)]
      (Some (match objects reply with
             | [] => 0
             | flat :: _ => handle flat
             end)).
Proof.
  unfold getServiceHandle, write_transact.
  match goal with
  | |- run _ [?ev] _ => change [ev] with ([ev] ++ [])
  end.
  eapply run_bind; [apply run_trigger |].
  cbn [snd]. unfold readObject. destruct (objects reply); apply run_Ret.
Qed.

(** C8.  Whatever the registry answers, [getServiceHandle] makes that one
    query and returns: handle 0 when the reply carries no embedded
    reference, the handle field of the first embedded reference otherwise.
    It makes no other call (it neither exits nor aborts), and no execution
    returns anything else. *)
Theorem getServiceHandle_NotFound (serviceName : string) (driverFD status : Z)
        (reply : Parcel) :
  let query :=
    Ev (WriteTransact 0 CHECK_SERVICE_TRANSACTION
                      (pwrites emptyParcel
                         [WInterfaceToken "android.os.IServiceManager";
                          WString16 (Some serviceName)])
                      true 0 driverFD) (status, reply) in
  (objects reply = [] ->
   run (getServiceHandle serviceName driverFD) [query] (Some 0)) /\
  (forall flat rest, objects reply = flat :: rest ->
   run (getServiceHandle serviceName driverFD) [query] (Some (handle flat))) /\
  (forall h, run (getServiceHandle serviceName driverFD) [query] (Some h) ->
   h = match objects reply with [] => 0 | flat :: _ => handle flat end) /\
  (forall tr o, run (getServiceHandle serviceName driverFD) tr o ->
   tr = [] \/ exists status' reply', tr = [
     Ev (WriteTransact 0 CHECK_SERVICE_TRANSACTION
                      (pwrites emptyParcel
                         [WInterfaceToken "android.os.IServiceManager";
                          WString16 (Some serviceName)])
                      true 0 driverFD) (status', reply')]).
Proof.
  intros query.
  assert (Hrun : run (getServiceHandle serviceName driverFD) [query]
                     (Some (match objects reply with
                            | [] => 0 | flat :: _ => handle flat end))).
  { apply getServiceHandle_run. }
  split; [| split; [| split]].
  - intros E. rewrite E in Hrun. exact Hrun.
  - intros flat rest E. rewrite E in Hrun. exact Hrun.
  - intros h H. apply run_getServiceHandle_inv in H.
    destruct H as [[? _] | (st & rp & E & [? | Hh])]; try discriminate.
    assert (E' : query = Ev (WriteTransact 0 CHECK_SERVICE_TRANSACTION
                      (pwrites emptyParcel
                         [WInterfaceToken "android.os.IServiceManager";
                          WString16 (Some serviceName)])
                      true 0 driverFD) (st, rp)) by congruence.
    subst query. apply Ev_inj in E'.
    assert (rp = reply) by congruence. subst rp. congruence.
  - intros tr o H. apply run_getServiceHandle_inv in H.
    destruct H as [[-> _] | (st & rp & -> & _)]; [left; auto | right; eauto].
Qed.

Lemma getServiceHandle_NotFound_witness :
  run (getServiceHandle "activity" 7)
      [Ev (WriteTransact 0 CHECK_SERVICE_TRANSACTION
                         (pwrites emptyParcel
                            [WInterfaceToken "android.os.IServiceManager";
                             WString16 (Some "activity")])
                         true 0 7) (0, emptyParcel)] (Some 0) /\
  run (getServiceHandle "activity" 7)
      [Ev (WriteTransact 0 CHECK_SERVICE_TRANSACTION
                         (pwrites emptyParcel
                            [WInterfaceToken "android.os.IServiceManager";
                             WString16 (Some "activity")])
                         true 0 7) (0, mkParcel [] [mkFlat 0 0 5 0; mkFlat 0 0 9 0])]
      (Some 5).
Proof.
  split.
  - apply (@getServiceHandle_NotFound "activity" 7 0 emptyParcel). reflexivity.
  - apply (@getServiceHandle_NotFound "activity" 7 0
             (mkParcel [] [mkFlat 0 0 5 0; mkFlat 0 0 9 0]))
      with (flat := mkFlat 0 0 5 0) (rest := [mkFlat 0 0 9 0]).
    reflexivity.
Defined.

(* ===================================================================== *)
(** * The daemon *)
(* ===================================================================== *)

Section DoDaemon.

Variables (indicatorSelfPath indicatorDaemonPath
           observerSelfPath observerDaemonPath
           packageName serviceName : string)
          (sdkVersion transactCode : Z).

Let daemon : itree sysE unit :=
  doDaemon indicatorSelfPath indicatorDaemonPath
           observerSelfPath observerDaemonPath
           packageName serviceName sdkVersion transactCode.

(** The condition and the body of the loop of step 1. *)
Let lockCond : Z * Z -> itree sysE (bool * (Z * Z)) :=
  fun st =>
    let (tryCount, lockStatus) := st in
    if tryCount <? 5 then
      lockStatus <- lockFile indicatorSelfPath ;;
      Ret (lockStatus =? 0, (tryCount, lockStatus))
    else Ret (false, (tryCount, lockStatus)).

Let lockBody : Z * Z -> itree sysE (Z * Z) :=
  fun st =>
    let (tryCount, lockStatus) := st in
    usleep 10000 ;; Ret (tryCount + 1, lockStatus).

(** What follows step 1 once the own lock is held. *)
Let guarding : itree sysE unit :=
  notifyAndWaitFor observerSelfPath observerDaemonPath ;;
  driverFD <- ITree.trigger OpenDriver ;;
  ITree.trigger (InitProcessState driverFD) ;;
  amsHandle <- getServiceHandle "activity" driverFD ;;
  let data := writeStartServiceParcel emptyParcel packageName serviceName sdkVersion in
  lockStatus <- lockFile indicatorDaemonPath ;;
  if lockStatus =? 0 then Ret tt else
  write_transact amsHandle transactCode data false 1 driverFD ;;
  remove observerSelfPath ;;
  pid <- ITree.trigger Getpid ;;
  if 0 <? pid then (ITree.trigger (Killpg pid SIGTERM) ;; Ret tt) else Ret tt.

Lemma daemon_unfold :
  daemon =
  (st <- while lockCond lockBody (0, 0) ;;
   if snd st =? 0 then Ret tt else guarding).
Proof. reflexivity. Qed.

Lemma run_lockCond c tr o :
  run (lockCond (c, 0)) tr o ->
  (c < 5 /\ run (lockFile indicatorSelfPath) tr None /\
   (o = None \/
    exists ls, run (lockFile indicatorSelfPath) tr (Some ls) /\
               o = Some (ls =? 0, (c, ls)))) \/
  (5 <= c /\ tr = [] /\ (o = None \/ o = Some (false, (c, 0)))).
Proof.
  unfold lockCond. intros H. destruct (c <? 5) eqn:Ec; Zbool.
  - left. split; auto.
    apply run_bind_inv in H.
    destruct H as [[-> H] | (tr1 & tr2 & ls & -> & H1 & H2)]; auto.
    apply run_Ret_inv in H2. destruct H2 as [-> H2]. rewrite app_nil_r.
    split; [eapply run_forget; eauto |].
    destruct H2 as [-> | ->]; eauto.
  - right. apply run_Ret_inv in H. tauto.
Qed.

Lemma run_lockBody c ls tr o :
  run (lockBody (c, ls)) tr o ->
  (tr = [] /\ o = None) \/
  (tr = [Ev (Usleep 10000) tt] /\ (o = None \/ o = Some (c + 1, ls))).
Proof.
  unfold lockBody, usleep. intros H.
  apply run_bind_inv in H.
  destruct H as [[-> H] | (tr1 & tr2 & u & -> & H1 & H2)].
  - apply run_trigger_inv in H. destruct H as [[-> _] | ([] & -> & _)]; auto.
  - apply run_trigger_inv in H1.
    destruct H1 as [[_ ?] | ([] & -> & _)]; [discriminate |].
    apply run_Ret_inv in H2. destruct H2 as [-> H2]. right. auto.
Qed.

(** The executions of the loop of step 1, entered with [tryCount = c]:
    a number of failed attempts with their backoffs, and then an attempt
    under way, a granted attempt, or the fifth failure. *)
Lemma lockingSelf_runs st tr o :
  while_run lockCond lockBody st tr o ->
  forall c, st = (c, 0) -> 0 <= c <= 5 ->
  exists attempts,
    Forall (fun a => run (lockFile indicatorSelfPath) a (Some 0)) attempts /\
    c + Z.of_nat (List.length attempts) <= 5 /\
    ((o = None /\
      exists last, run (lockFile indicatorSelfPath) last None /\
                   tr = backoffs attempts ++ last /\
                   (last = [] \/ c + Z.of_nat (List.length attempts) < 5)) \/
     (exists ok, o = Some (c + Z.of_nat (List.length attempts), 1) /\
                 run (lockFile indicatorSelfPath) ok (Some 1) /\
                 tr = backoffs attempts ++ ok /\
                 c + Z.of_nat (List.length attempts) < 5) \/
     (o = Some (5, 0) /\ c + Z.of_nat (List.length attempts) = 5 /\
      tr = backoffs attempts)).
Proof.
  induction 1 as [s tr H | s tr s1 H | s tr1 s1 tr2 H1 H2
                  | s tr1 s1 tr2 s2 tr3 o H1 H2 H3 IH];
    intros c -> Hc.
  - exists []. split; [constructor |]. split; [cbn; lia |]. left. split; auto.
    apply run_lockCond in H.
    destruct H as [(Hlt & H & _) | (Hge & -> & _)].
    + exists tr. cbn. repeat split; auto. right. lia.
    + exists []. cbn. repeat split; auto. apply run_nil.
  - exists []. split; [constructor |]. split; [cbn; lia |]. right.
    apply run_lockCond in H.
    destruct H as [(Hlt & _ & [? | (ls & H & E)]) | (Hge & -> & [? | E])];
      try discriminate.
    + left. assert (E1 : (ls =? 0) = false /\ s1 = (c, ls)).
      { split; congruence. }
      destruct E1 as [E1 ->]. Zbool.
      pose proof (@lockFile_calls _ _ _ H) as (_ & _ & _ & _ & [[? _] | [-> _]]);
        [contradiction |].
      exists tr. cbn. rewrite Z.add_0_r. repeat split; auto.
    + right. assert (s1 = (c, 0)) by congruence. subst s1.
      cbn. assert (c = 5) by lia. subst c. auto.
  - apply run_lockCond in H1.
    destruct H1 as [(Hlt & _ & [? | (ls & H1 & E)]) | (Hge & -> & [? | E])];
      try discriminate.
    assert (E1 : (ls =? 0) = true /\ s1 = (c, ls)) by (split; congruence).
    destruct E1 as [E1 ->]. Zbool. subst ls.
    apply run_lockBody in H2. destruct H2 as [[-> _] | [-> _]].
    + exists []. split; [constructor |]. split; [cbn; lia |]. left. split; auto.
      exists tr1. rewrite app_nil_r. cbn. repeat split; auto.
      * eapply run_forget; eauto.
      * right. lia.
    + exists [tr1]. split; [repeat constructor; auto |].
      split; [cbn; lia |]. left. split; auto.
      exists []. cbn. rewrite !app_nil_r. repeat split; auto. apply run_nil.
  - apply run_lockCond in H1.
    destruct H1 as [(Hlt & _ & [? | (ls & H1 & E)]) | (Hge & -> & [? | E])];
      try discriminate.
    assert (E1 : (ls =? 0) = true /\ s1 = (c, ls)) by (split; congruence).
    destruct E1 as [E1 ->]. Zbool. subst ls.
    apply run_lockBody in H2.
    destruct H2 as [[_ ?] | [-> [? | E2]]]; try discriminate.
    assert (s2 = (c + 1, 0)) by congruence. subst s2.
    destruct (IH (c + 1) eq_refl ltac:(lia)) as (attempts & Hall & Hlen & Hcases).
    exists (tr1 :: attempts). split; [constructor; auto |].
    cbn [List.length]. rewrite Nat2Z.inj_succ.
    split; [lia |].
    replace (c + Z.succ (Z.of_nat (List.length attempts)))
      with (c + 1 + Z.of_nat (List.length attempts)) by lia.
    cbn [backoffs flat_map]. fold (backoffs attempts).
    destruct Hcases as [(-> & last & Hl & -> & Hb) | [(ok & -> & Hok & -> & Hlt5) | (-> & Hfive & ->)]].
    + left. split; auto. exists last. rewrite <- !app_assoc. auto.
    + right. left. exists ok. rewrite <- !app_assoc. auto.
    + right. right. rewrite <- !app_assoc. auto.
Qed.

Lemma backoffs_calls attempts :
  Forall (fun a => run (lockFile indicatorSelfPath) a (Some 0)) attempts ->
  Forall (fun ev => locking_call indicatorSelfPath ev = true) (backoffs attempts) /\
  (count (opens_rdonly indicatorSelfPath) (backoffs attempts)
   <= List.length attempts)%nat /\
  count is_backoff (backoffs attempts) = List.length attempts /\
  count flock_granted (backoffs attempts) = 0%nat.
Proof.
  induction 1 as [| a attempts Ha Hall IH]; cbn [backoffs flat_map].
  - cbn. repeat split; auto.
  - fold (backoffs attempts). destruct IH as (I1 & I2 & I3 & I4).
    pose proof (@lockFile_calls _ _ _ Ha) as (C1 & C2 & C3 & _ & [[_ C5] | [? _]]);
      [| discriminate].
    rewrite !count_app, C2, C5, I3, I4. cbn [List.length].
    repeat split; try (cbn; lia).
    rewrite !Forall_app. repeat split; auto.
Qed.

Lemma locking_calls_only path tr :
  Forall (fun ev => locking_call path ev = true) tr ->
  count is_transact tr = 0%nat /\ count is_OpenDriver tr = 0%nat /\
  count (opens_other path) tr = 0%nat /\ count flock_other tr = 0%nat /\
  (forall p, count (removing p) tr = 0%nat).
Proof.
  intros H.
  assert (G : forall Q : event -> bool,
             (forall ev, locking_call path ev = true -> Q ev = false) ->
             count Q tr = 0%nat).
  { intros Q HQ. apply count_zero_Forall.
    eapply Forall_impl; [| exact H]. exact HQ. }
  repeat split; [| | | | intros p]; apply G; intros [T e x] E;
    destruct e; cbn in *; try discriminate; try reflexivity.
  - rewrite E. reflexivity.
  - rewrite E. reflexivity.
Qed.

Lemma lockingSelf_exhausted attempts :
  Forall (fun a => run (lockFile indicatorSelfPath) a (Some 0)) attempts ->
  forall c, c + Z.of_nat (List.length attempts) = 5 -> 0 <= c ->
  while_run lockCond lockBody (c, 0) (backoffs attempts) (Some (5, 0)).
Proof.
  induction 1 as [| a attempts Ha Hall IH]; intros c Hc Hpos.
  - cbn in Hc. assert (c = 5) by lia. subst c.
    cbn. apply wr_exit. apply run_Ret.
  - cbn [List.length] in Hc. rewrite Nat2Z.inj_succ in Hc.
    cbn [backoffs flat_map]. fold (backoffs attempts). rewrite <- app_assoc.
    eapply wr_iter with (s1 := (c, 0)) (s2 := (c + 1, 0)).
    + unfold lockCond. replace (c <? 5) with true by (symmetry; apply Z.ltb_lt; lia).
      rewrite <- (app_nil_r a). eapply run_bind; [exact Ha | apply run_Ret].
    + unfold lockBody, usleep.
      change [Ev (Usleep 10000) tt] with ([Ev (Usleep 10000) tt] ++ []).
      eapply run_bind; [apply run_trigger | apply run_Ret].
    + apply IH; lia.
Qed.

(** X30.  LockingSelf.  Every execution of [doDaemon] begins with at most
    five attempts, and goes beyond them only after an attempt that was
    granted.  When no [flock] is ever granted:
    - a complete execution of [doDaemon] consists of exactly five failed
      executions of [lockFile] on the own indicator file, each followed by
      the backoff [usleep(10000)], and nothing else;
    - conversely five such failures make [doDaemon] return;
    - and no execution, complete or not, makes any call other than [open]
      on the own indicator file, [flock] with [LOCK_EX | LOCK_NB] and the
      backoff: the observer files are not touched, the driver is not
      opened, no transaction is submitted; there are at most five attempts
      and at most five backoffs. *)
Theorem doDaemon_LockingSelf :
  (forall tr o, run daemon tr o ->
     exists attempts last rest,
       Forall (fun a => run (lockFile indicatorSelfPath) a (Some 0)) attempts /\
       (List.length attempts <= 5)%nat /\
       run (lockFile indicatorSelfPath) last None /\
       tr = backoffs attempts ++ last ++ rest /\
       (rest <> [] ->
        (List.length attempts < 5)%nat /\
        run (lockFile indicatorSelfPath) last (Some 1))) /\
  (forall tr, run daemon tr (Some tt) -> count flock_granted tr = 0%nat ->
     exists attempts,
       List.length attempts = 5%nat /\
       Forall (fun a => run (lockFile indicatorSelfPath) a (Some 0)) attempts /\
       tr = backoffs attempts) /\
  (forall attempts,
     List.length attempts = 5%nat ->
     Forall (fun a => run (lockFile indicatorSelfPath) a (Some 0)) attempts ->
     run daemon (backoffs attempts) (Some tt)) /\
  (forall tr o, run daemon tr o -> count flock_granted tr = 0%nat ->
     Forall (fun ev => locking_call indicatorSelfPath ev = true) tr /\
     (count (opens_rdonly indicatorSelfPath) tr <= 5)%nat /\
     (count is_backoff tr <= 5)%nat /\
     count (opens_other indicatorSelfPath) tr = 0%nat /\
     count flock_other tr = 0%nat /\
     count is_OpenDriver tr = 0%nat /\
     count is_transact tr = 0%nat /\
     (forall p, count (removing p) tr = 0%nat)).
Proof.
  assert (Main : forall tr o, run daemon tr o -> count flock_granted tr = 0%nat ->
            exists attempts last,
              Forall (fun a => run (lockFile indicatorSelfPath) a (Some 0)) attempts /\
              run (lockFile indicatorSelfPath) last None /\
              tr = backoffs attempts ++ last /\
              (Z.of_nat (List.length attempts) <= 5) /\
              (last = [] \/ Z.of_nat (List.length attempts) < 5) /\
              (o = Some tt -> last = [] /\ List.length attempts = 5%nat)).
  { intros tr o H Hg. rewrite daemon_unfold in H.
    apply run_bind_inv in H.
    destruct H as [[-> H] | (tr1 & tr2 & st & -> & H1 & H2)].
    - apply run_while_inv in H.
      destruct (lockingSelf_runs H eq_refl ltac:(lia))
        as (attempts & Hall & Hlen & [(_ & last & Hl & -> & Hb) | [(ok & ? & _) | (? & _)]]);
        try discriminate.
      exists attempts, last. repeat split; auto; try lia; discriminate.
    - apply run_while_inv in H1.
      destruct (lockingSelf_runs H1 eq_refl ltac:(lia))
        as (attempts & Hall & Hlen & [(? & _) | [(ok & E & Hok & -> & Hlt5) | (E & Hfive & ->)]]);
        try discriminate.
      + exfalso.
        pose proof (@lockFile_calls _ _ _ Hok)
          as (_ & _ & _ & _ & [[? _] | (_ & tro & fd & x & -> & Hx & _)]);
          [discriminate |].
        rewrite !count_app in Hg. cbn in Hg.
        destruct (x =? -1) eqn:Ex; Zbool; [contradiction |].
        cbn in Hg. lia.
      + assert (st = (5, 0)) by congruence. subst st. cbn [snd] in H2.
        change (0 =? 0) with true in H2. cbn iota in H2.
        apply run_Ret_inv in H2. destruct H2 as [-> _].
        exists attempts, []. repeat split; auto; try lia. apply run_nil. }
  split; [| split; [| split]].
  - intros tr o H. rewrite daemon_unfold in H.
    apply run_bind_inv in H.
    destruct H as [[-> H] | (tr1 & tr2 & st & -> & H1 & H2)].
    + apply run_while_inv in H.
      destruct (lockingSelf_runs H eq_refl ltac:(lia))
        as (attempts & Hall & Hlen & [(_ & last & Hl & -> & Hb) | [(ok & ? & _) | (? & _)]]);
        try discriminate.
      exists attempts, last, []. rewrite app_nil_r.
      repeat split; auto; try lia; congruence.
    + apply run_while_inv in H1.
      destruct (lockingSelf_runs H1 eq_refl ltac:(lia))
        as (attempts & Hall & Hlen & [(? & _) | [(ok & E & Hok & -> & Hlt5) | (E & Hfive & ->)]]);
        try discriminate.
      * exists attempts, ok, tr2. rewrite <- app_assoc.
        repeat split; auto; try lia. eapply run_forget; eauto.
      * assert (st = (5, 0)) by congruence. subst st. cbn [snd] in H2.
        change (0 =? 0) with true in H2. cbn iota in H2.
        apply run_Ret_inv in H2. destruct H2 as [-> _].
        exists attempts, [], []. rewrite !app_nil_r.
        repeat split; auto; try lia; try congruence. apply run_nil.
  - intros tr H Hg.
    destruct (Main _ _ H Hg) as (attempts & last & Hall & _ & -> & _ & _ & Hdone).
    destruct (Hdone eq_refl) as [-> Hlen]. rewrite app_nil_r. eauto.
  - intros attempts Hlen Hall. rewrite daemon_unfold.
    rewrite <- (app_nil_r (backoffs attempts)).
    eapply run_bind.
    + apply run_while. apply lockingSelf_exhausted; auto. rewrite Hlen. reflexivity.
      lia.
    + cbn. apply run_Ret.
  - intros tr o H Hg.
    destruct (Main _ _ H Hg) as (attempts & last & Hall & Hlast & E & Hlen & Hb & _).
    clear H Hg. subst tr.
    pose proof (backoffs_calls Hall) as (B1 & B2 & B3 & _).
    pose proof (@lockFile_calls _ _ _ Hlast) as (L1 & L2 & L3 & _).
    assert (F : Forall (fun ev => locking_call indicatorSelfPath ev = true)
                       (backoffs attempts ++ last)).
    { apply Forall_app. auto. }
    pose proof (@locking_calls_only _ _ F) as (T1 & T2 & T3 & T4 & T5).
    repeat split; auto.
    + rewrite count_app. destruct Hb as [-> | Hb]; [cbn |]; lia.
    + rewrite count_app, B3, L2. lia.
Qed.

(** The polling loop of [notifyAndWaitFor]. *)
Let pollCond : unit -> itree sysE (bool * unit) :=
  fun _ =>
    r <- open2 observerDaemonPath (Z.lor O_RDONLY O_LARGEFILE) ;;
    Ret (r =? -1, tt).

Let pollBody : unit -> itree sysE unit := fun _ => usleep 1000.

Lemma run_pollCond tr o :
  run (pollCond tt) tr o ->
  (tr = [] /\ o = None) \/
  (exists r, tr = [Ev (Open observerDaemonPath (Z.lor O_RDONLY O_LARGEFILE) None) r] /\
             (o = None \/ o = Some (r =? -1, tt))).
Proof.
  unfold pollCond, open2. intros H. apply run_bind_inv in H.
  destruct H as [[-> H] | (tr1 & tr2 & r & -> & H1 & H2)].
  - apply run_trigger_inv in H. destruct H as [[-> _] | (r & -> & _)]; eauto.
  - apply run_trigger_inv in H1.
    destruct H1 as [[_ ?] | (y & -> & [? | Hy])]; try discriminate.
    assert (y = r) by congruence. subst y.
    apply run_Ret_inv in H2. destruct H2 as [-> H2]. right. exists r. auto.
Qed.

Lemma run_pollBody tr o :
  run (pollBody tt) tr o ->
  (tr = [] /\ o = None) \/ (tr = [Ev (Usleep 1000) tt] /\ (o = None \/ o = Some tt)).
Proof.
  unfold pollBody, usleep. intros H. apply run_trigger_inv in H.
  destruct H as [[-> ->] | ([] & -> & H)]; auto.
Qed.

(** A complete execution of the polling loop: polls that fail, and the
    poll that finds the observer file of the sibling. *)
Lemma polling_runs s tr o :
  while_run pollCond pollBody s tr o ->
  o = Some tt ->
  exists n fd,
    fd <> -1 /\
    tr = failed_polls observerDaemonPath n ++
         [Ev (Open observerDaemonPath (Z.lor O_RDONLY O_LARGEFILE) None) fd].
Proof.
  induction 1 as [s tr H | s tr s1 H | s tr1 s1 tr2 H1 H2
                  | s tr1 s1 tr2 s2 tr3 o H1 H2 H3 IH];
    intros Eo; try discriminate; destruct s.
  - apply run_pollCond in H.
    destruct H as [[_ ?] | (r & -> & [? | E])]; try discriminate.
    assert (Er : (r =? -1) = false) by congruence. Zbool.
    exists 0%nat, r. auto.
  - apply run_pollCond in H1.
    destruct H1 as [[_ ?] | (r & -> & [? | E])]; try discriminate.
    assert (Er : (r =? -1) = true) by congruence. Zbool. subst r.
    destruct s1. apply run_pollBody in H2.
    destruct H2 as [[_ ?] | (-> & _)]; try discriminate.
    destruct (IH Eo) as (n & fd & Hfd & ->).
    exists (S n), fd. split; auto.
Qed.

(** A complete execution of [notifyAndWaitFor]: the own observer file is
    opened or created, the observer file of the sibling is polled until it
    can be opened, and is then removed. *)
Lemma run_notifyAndWaitFor_inv tr :
  run (notifyAndWaitFor observerSelfPath observerDaemonPath) tr (Some tt) ->
  exists tro fd0 n fd r,
    run (openOrCreate observerSelfPath) tro (Some fd0) /\
    fd <> -1 /\
    tr = tro ++ failed_polls observerDaemonPath n ++
         [Ev (Open observerDaemonPath (Z.lor O_RDONLY O_LARGEFILE) None) fd;
          Ev (Remove observerDaemonPath) r].
Proof.
  unfold notifyAndWaitFor, remove. intros H.
  apply run_bind_inv in H.
  destruct H as [[? _] | (tro & tr2 & fd0 & -> & H1 & H2)]; [discriminate |].
  apply run_bind_inv in H2.
  destruct H2 as [[? _] | (trp & tr3 & [] & -> & H2 & H3)]; [discriminate |].
  apply run_while_inv in H2.
  destruct (polling_runs H2 eq_refl) as (n & fd & Hfd & ->).
  apply run_bind_inv in H3.
  destruct H3 as [[? _] | (tr4 & tr5 & r & -> & H3 & H4)]; [discriminate |].
  apply run_trigger_inv in H3.
  destruct H3 as [[_ ?] | (y & -> & [? | Hy])]; try discriminate.
  apply run_Ret_inv in H4. destruct H4 as [-> _].
  exists tro, fd0, n, fd, y. repeat split; auto.
  rewrite <- !app_assoc. reflexivity.
Qed.

(** Monitoring, from the descriptor of the driver on. *)
Let monitoring (driverFD : Z) : itree sysE unit :=
  ITree.trigger (InitProcessState driverFD) ;;
  amsHandle <- getServiceHandle "activity" driverFD ;;
  let data := writeStartServiceParcel emptyParcel packageName serviceName sdkVersion in
  lockStatus <- lockFile indicatorDaemonPath ;;
  if lockStatus =? 0 then Ret tt else
  write_transact amsHandle transactCode data false 1 driverFD ;;
  remove observerSelfPath ;;
  pid <- ITree.trigger Getpid ;;
  if 0 <? pid then (ITree.trigger (Killpg pid SIGTERM) ;; Ret tt) else Ret tt.

Lemma guarding_unfold :
  guarding =
  (notifyAndWaitFor observerSelfPath observerDaemonPath ;;
   driverFD <- ITree.trigger OpenDriver ;;
   monitoring driverFD).
Proof. reflexivity. Qed.

Lemma lockingSelf_no_driver s :
  at_most (while lockCond lockBody s) is_OpenDriver 0.
Proof. unfold lockCond, lockBody. no_such_call. Qed.

Lemma notify_no_driver :
  at_most (notifyAndWaitFor observerSelfPath observerDaemonPath) is_OpenDriver 0.
Proof. no_such_call. Qed.

Lemma monitoring_no_driver driverFD : at_most (monitoring driverFD) is_OpenDriver 0.
Proof. unfold monitoring. no_such_call. Qed.

(** Where [open_driver()] occurs in an execution of [doDaemon]: once, after
    LockingSelf has taken the own lock and Syncing is complete. *)
Lemma doDaemon_at_driver tr o :
  run daemon tr o ->
  forall l1 d l2, tr = l1 ++ Ev OpenDriver d :: l2 ->
  exists trL st trS,
    l1 = trL ++ trS /\
    run (while lockCond lockBody (0, 0)) trL (Some st) /\ snd st <> 0 /\
    run (notifyAndWaitFor observerSelfPath observerDaemonPath) trS (Some tt) /\
    run (monitoring d) l2 o.
Proof.
  intros H l1 d l2 E.
  assert (Hin : forall a, count is_OpenDriver a = 0%nat -> tr <> a).
  { intros a Ha ->. rewrite E, count_app, count_cons in Ha. cbn in Ha. lia. }
  rewrite daemon_unfold in H. apply run_bind_inv in H.
  destruct H as [[-> H] | (trL & tr2 & st & -> & H1 & H2)].
  { exfalso. apply (Hin tr); auto.
    pose proof (@lockingSelf_no_driver _ _ _ H). lia. }
  pose proof (@lockingSelf_no_driver _ _ _ H1) as HL.
  destruct (snd st =? 0) eqn:Est; Zbool.
  { apply run_Ret_inv in H2. destruct H2 as [-> _].
    exfalso. apply (Hin (trL ++ [])); auto. rewrite count_app. cbn. lia. }
  rewrite guarding_unfold in H2. apply run_bind_inv in H2.
  destruct H2 as [[-> H2] | (trS & tr3 & [] & -> & H2 & H3)].
  { exfalso. apply (Hin (trL ++ tr2)); auto.
    pose proof (notify_no_driver H2). rewrite count_app. lia. }
  pose proof (notify_no_driver H2) as HS.
  assert (HLS : count is_OpenDriver (trL ++ trS) = 0%nat).
  { rewrite count_app. lia. }
  apply run_bind_inv in H3.
  destruct H3 as [[-> H3] | (tr4 & tr5 & d' & -> & H3 & H4)].
  - apply run_trigger_inv in H3. destruct H3 as [[-> _] | (d' & -> & _)].
    + exfalso. apply (Hin (trL ++ trS ++ [])); auto.
      rewrite app_nil_r. exact HLS.
    + rewrite app_assoc in E.
      destruct (@split_unique is_OpenDriver _ _ _ _ _ _ E) as (<- & E' & <-);
        auto.
      apply Ev_inj in E'. subst d'.
      exists trL, st, trS. repeat split; auto. apply run_nil.
  - apply run_trigger_inv in H3.
    destruct H3 as [[_ ?] | (y & -> & [? | Hy])]; try discriminate.
    assert (y = d') by congruence. subst y.
    rewrite app_assoc in E. cbn [app] in E.
    pose proof (@monitoring_no_driver d' _ _ H4) as HM.
    destruct (@split_unique is_OpenDriver _ _ _ _ _ _ E) as (<- & E' & <-);
      auto; try lia.
    apply Ev_inj in E'. subst d'.
    exists trL, st, trS. repeat split; auto.
Qed.
(** The registry query of step 4 and the revival request of step 7. *)
Let query (driverFD : Z) : sysE (Z * Parcel) :=
  WriteTransact 0 CHECK_SERVICE_TRANSACTION
                (pwrites emptyParcel
                   [WInterfaceToken "android.os.IServiceManager";
                    WString16 (Some "activity")])
                true 0 driverFD.



(** Step 7 and what follows it. *)
Let triggered (amsHandle driverFD : Z) : itree sysE unit :=
  write_transact amsHandle transactCode
                 (writeStartServiceParcel emptyParcel packageName serviceName sdkVersion)
                 false 1 driverFD ;;
  remove observerSelfPath ;;
  pid <- ITree.trigger Getpid ;;
  if 0 <? pid then (ITree.trigger (Killpg pid SIGTERM) ;; Ret tt) else Ret tt.

Lemma monitoring_unfold driverFD :
  monitoring driverFD =
  (ITree.trigger (InitProcessState driverFD) ;;
   amsHandle <- getServiceHandle "activity" driverFD ;;
   lockStatus <- lockFile indicatorDaemonPath ;;
   if lockStatus =? 0 then Ret tt else triggered amsHandle driverFD).
Proof. reflexivity. Qed.










(** C3.  In every execution of [doDaemon], complete or not, the revival
    transaction is submitted at most once: after the one submission that
    follows the detection there is no path back to it. *)
Theorem doDaemon_revival_at_most_once :
  forall tr o, run daemon tr o -> (count is_revival tr <= 1)%nat.
Proof.
  change (at_most daemon is_revival 1).
  unfold daemon, doDaemon.
  apply at_most_bind_r; [no_such_call | intros st].
  destruct (snd st =? 0); [apply at_most_Ret |].
  apply at_most_bind_r; [no_such_call | intros _].
  apply at_most_bind_r; [no_such_call | intros driverFD].
  apply at_most_bind_r; [no_such_call | intros _].
  apply at_most_bind_r; [no_such_call | intros amsHandle].
  apply at_most_bind_r; [no_such_call | intros lockStatus].
  destruct (lockStatus =? 0); [apply at_most_Ret |].
  apply at_most_bind_l; [apply at_most_trigger_1 | intros _].
  no_such_call.
Qed.

(** The executions of LockingSelf that take the own lock make locking
    calls on the own indicator file only. *)
Lemma lockingSelf_calls tr st :
  run (while lockCond lockBody (0, 0)) tr (Some st) ->
  Forall (fun ev => locking_call indicatorSelfPath ev = true) tr.
Proof.
  intros H. apply run_while_inv in H.
  destruct (lockingSelf_runs H eq_refl ltac:(lia))
    as (attempts & Hall & _ & [(? & _) | [(ok & _ & Hok & -> & _) | (_ & _ & ->)]]);
    try discriminate.
  - pose proof (backoffs_calls Hall) as (B1 & _).
    pose proof (@lockFile_calls _ _ _ Hok) as (L1 & _).
    apply Forall_app. auto.
  - apply (backoffs_calls Hall).
Qed.

(** Syncing, seen from [open_driver()]: before it come LockingSelf, the
    opening or creation of the own observer file, the polls of the
    sibling's observer file up to the one that finds it, and the removal
    of the sibling's observer file, in this order and nothing else. *)
Lemma doDaemon_Syncing_order tr o :
  run daemon tr o ->
  forall l1 d l2, tr = l1 ++ Ev OpenDriver d :: l2 ->
  exists trL tro fd0 n fd r,
    Forall (fun ev => locking_call indicatorSelfPath ev = true) trL /\
    run (openOrCreate observerSelfPath) tro (Some fd0) /\
    fd <> -1 /\
    l1 = trL ++ tro ++ failed_polls observerDaemonPath n ++
         [Ev (Open observerDaemonPath (Z.lor O_RDONLY O_LARGEFILE) None) fd;
          Ev (Remove observerDaemonPath) r].
Proof.
  intros H l1 d l2 E.
  eapply doDaemon_at_driver in H; [| exact E].
  destruct H as (trL & st & trS & -> & HL & _ & HS & _).
  apply run_notifyAndWaitFor_inv in HS.
  destruct HS as (tro & fd0 & n & fd & r & Ho & Hfd & ->).
  exists trL, tro, fd0, n, fd, r. repeat split; auto.
  eapply lockingSelf_calls; eauto.
Qed.

(** [doDaemon] never creates the observer file of the sibling. *)
Lemma doDaemon_never_creates_sibling :
  String.eqb indicatorSelfPath observerDaemonPath = false ->
  String.eqb observerSelfPath observerDaemonPath = false ->
  String.eqb indicatorDaemonPath observerDaemonPath = false ->
  at_most daemon (creating observerDaemonPath) 0.
Proof.
  intros H1 H2 H3. unfold daemon, doDaemon. no_such_call.
Qed.

(** [doDaemon] creates its own observer file at most once. *)
Lemma doDaemon_creates_own_once :
  String.eqb indicatorSelfPath observerSelfPath = false ->
  String.eqb indicatorDaemonPath observerSelfPath = false ->
  at_most daemon (creating observerSelfPath) 1.
Proof.
  intros H1 H2. rewrite daemon_unfold.
  apply at_most_bind_r; [unfold lockCond, lockBody; no_such_call | intros st].
  destruct (snd st =? 0); [apply at_most_Ret |].
  rewrite guarding_unfold.
  apply at_most_bind_l; [| intros; unfold monitoring; no_such_call].
  unfold notifyAndWaitFor.
  apply at_most_bind_l; [| intros; no_such_call].
  unfold openOrCreate.
  apply at_most_bind_r; [no_such_call | intros fd].
  destruct (fd =? -1); [apply at_most_trigger_1 | apply at_most_Ret].
Qed.

(** Every [flock] of [doDaemon] carries [LOCK_NB]: none can suspend the
    caller. *)
Lemma doDaemon_flock_nonblocking : at_most daemon flock_other 0.
Proof. unfold daemon, doDaemon. no_such_call. Qed.

(** [doDaemon] begins with the read-only [open] of the own indicator
    file, and does not return without a call. *)
Lemma doDaemon_starts tr o :
  run daemon tr o ->
  (tr = [] /\ o = None) \/
  (exists fd rest,
      tr = Ev (Open indicatorSelfPath (Z.lor O_RDONLY O_LARGEFILE) None) fd :: rest).
Proof.
  assert (Hb : forall attempts rest,
             Forall (fun a => run (lockFile indicatorSelfPath) a (Some 0)) attempts ->
             attempts <> [] ->
             exists fd rest',
               backoffs attempts ++ rest =
               Ev (Open indicatorSelfPath (Z.lor O_RDONLY O_LARGEFILE) None) fd
               :: rest').
  { intros attempts rest Hall Hne. destruct Hall as [| a attempts Ha _];
      [congruence |].
    apply lockFile_starts in Ha.
    destruct Ha as [[_ ?] | (fd & rest' & ->)]; [discriminate |].
    cbn. eauto. }
  intros H. rewrite daemon_unfold in H. apply run_bind_inv in H.
  destruct H as [[-> H] | (tr1 & tr2 & st & -> & H1 & H2)].
  - apply run_while_inv in H.
    destruct (lockingSelf_runs H eq_refl ltac:(lia))
      as (attempts & Hall & _ & [(_ & last & Hl & -> & _) | [(ok & ? & _) | (? & _)]]);
      try discriminate.
    destruct attempts as [| a attempts].
    + cbn. apply lockFile_starts in Hl.
      destruct Hl as [[-> _] | (fd & rest & ->)]; eauto.
    + right. apply Hb; auto. discriminate.
  - right. apply run_while_inv in H1.
    destruct (lockingSelf_runs H1 eq_refl ltac:(lia))
      as (attempts & Hall & Hlen & [(? & _) | [(ok & _ & Hok & -> & _) | (_ & Hfive & ->)]]);
      try discriminate.
    + destruct attempts as [| a attempts].
      * cbn. apply lockFile_starts in Hok.
        destruct Hok as [[_ ?] | (fd & rest & ->)]; [discriminate |].
        cbn. eauto.
      * rewrite <- app_assoc. apply Hb; auto. discriminate.
    + apply Hb; auto. intros ->. cbn in Hfive. lia.
Qed.

(** Where an event singled out by [P] sits, when what comes first has
    none. *)
Lemma app_split_after (P : event -> bool) (a b t1 : trace) ev t2 :
  a ++ b = t1 ++ ev :: t2 -> count P a = 0%nat -> P ev = true ->
  exists t1', t1 = a ++ t1' /\ b = t1' ++ ev :: t2.
Proof.
  revert t1. induction a as [| z a IH]; intros t1 E Ha Pev.
  - exists t1. auto.
  - rewrite count_cons in Ha. destruct (P z) eqn:Pz; [discriminate |].
    destruct t1 as [| y t1]; cbn in E.
    + injection E as -> _. congruence.
    + injection E as -> E. destruct (IH t1 E Ha Pev) as (t1' & -> & ->).
      exists t1'. auto.
Qed.

(** A granted [lockFile] ends with the [open] that gave the descriptor
    and the [flock] on it. *)
Lemma lockFile_granted_shape path tr :
  run (lockFile path) tr (Some 1) ->
  exists u flags mode fd x,
    tr = u ++ [Ev (Open path flags mode) fd;
               Ev (Flock fd (Z.lor LOCK_EX LOCK_NB)) x] /\
    fd <> -1 /\ x <> -1.
Proof.
  intros H. apply run_lockFile_inv in H.
  destruct H as (tro & oo & Ho & [[-> [? | [_ ?]]] | (fd & x & -> & Hfd & -> & [? | E])]);
    try discriminate.
  assert (Hx : x <> -1).
  { intros ->. cbn in E. discriminate. }
  apply run_openOrCreate_inv in Ho.
  destruct Ho as [[_ ?] | [[_ ?] | [(fd' & -> & _ & [? | E']) | (fd' & -> & [? | E'])]]];
    try discriminate;
    assert (fd' = fd) by congruence; subst fd'.
  - exists [], (Z.lor O_RDONLY O_LARGEFILE), None, fd, x. auto.
  - exists [Ev (Open path (Z.lor O_RDONLY O_LARGEFILE) None) (-1)],
      O_CREAT, (Some (Z.lor S_IRUSR S_IWUSR)), fd, x. auto.
Qed.

(** A guard creates its own observer file only once it holds its own
    lock. *)
Lemma creates_own_after_lock tr o t1 ev t2 :
  String.eqb indicatorSelfPath observerSelfPath = false ->
  run daemon tr o ->
  tr = t1 ++ ev :: t2 -> creating observerSelfPath ev = true ->
  exists u flags mode fd x u',
    t1 = u ++ Ev (Open indicatorSelfPath flags mode) fd
           :: Ev (Flock fd (Z.lor LOCK_EX LOCK_NB)) x :: u' /\
    fd <> -1 /\ x <> -1.
Proof.
  intros Hne H E Hev.
  assert (HL : forall s, at_most (while lockCond lockBody s)
                                 (creating observerSelfPath) 0).
  { intros s. unfold lockCond, lockBody. no_such_call. }
  rewrite daemon_unfold in H. apply run_bind_inv in H.
  destruct H as [[-> H] | (trL & tr2 & st & -> & H1 & H2)].
  - exfalso. apply HL in H. rewrite E, count_app, count_cons, Hev in H. lia.
  - pose proof (HL _ _ _ H1) as Hz.
    destruct (@app_split_after (creating observerSelfPath) trL tr2 t1 ev t2 E)
      as (t1' & -> & ->); [lia | exact Hev |].
    destruct (snd st =? 0) eqn:Est; Zbool.
    { apply run_Ret_inv in H2. destruct H2 as [H2 _].
      destruct t1'; discriminate. }
    apply run_while_inv in H1.
    destruct (lockingSelf_runs H1 eq_refl ltac:(lia))
      as (attempts & Hall & Hlen & [(? & _) | [(ok & Eo & Hok & -> & _) | (Eo & _ & _)]]);
      try discriminate.
    + apply lockFile_granted_shape in Hok.
      destruct Hok as (u & flags & mode & fd & x & -> & Hfd & Hx).
      exists (backoffs attempts ++ u), flags, mode, fd, x, t1'.
      split; [| auto]. rewrite <- !app_assoc. reflexivity.
    + exfalso. assert (st = (5, 0)) by congruence. subst st. cbn in Est. lia.
Qed.

(** In Monitoring a revival request is preceded by the grant of the
    sibling's lock. *)
Lemma monitoring_revival_inv driverFD tr o :
  run (monitoring driverFD) tr o ->
  count is_revival tr = 0%nat \/
  (exists status reply trM post,
      run (lockFile indicatorDaemonPath) trM (Some 1) /\
      tr = Ev (InitProcessState driverFD) tt
           :: Ev (query driverFD) (status, reply) :: trM ++ post).
Proof.
  assert (HLk : at_most (lockFile indicatorDaemonPath) is_revival 0)
    by no_such_call.
  rewrite monitoring_unfold. intros H.
  apply run_bind_inv in H.
  destruct H as [[-> H] | (tr1 & tr2 & [] & -> & H1 & H2)].
  { left. apply run_trigger_inv in H.
    destruct H as [[-> _] | ([] & -> & _)]; reflexivity. }
  apply run_trigger_complete in H1. subst tr1.
  apply run_bind_inv in H2.
  destruct H2 as [[-> H2] | (tr3 & tr4 & ams & -> & H2 & H3)].
  { left. apply run_getServiceHandle_inv in H2.
    destruct H2 as [[-> _] | (status & reply & -> & _)]; reflexivity. }
  apply run_getServiceHandle_inv in H2.
  destruct H2 as [[_ ?] | (status & reply & -> & _)]; try discriminate.
  apply run_bind_inv in H3.
  destruct H3 as [[-> H3] | (trM & post & ls & -> & H3 & H4)].
  - left. apply HLk in H3. cbn [app]. rewrite !count_cons. cbn. lia.
  - pose proof (@lockFile_calls _ _ _ H3)
      as (_ & _ & _ & _ & [[-> _] | [-> _]]).
    + left. cbn in H4. apply run_Ret_inv in H4. destruct H4 as [-> _].
      apply HLk in H3. cbn [app]. rewrite !count_cons, app_nil_r. cbn. lia.
    + right. exists status, reply, trM, post. auto.
Qed.

(** A revival request is preceded by [open_driver()] and, after it, by
    the grant of the lock on the sibling's indicator file. *)
Lemma revival_needs_grant tr o :
  run daemon tr o -> (1 <= count is_revival tr)%nat ->
  exists p1 d p2 flags mode fd x post,
    tr = p1 ++ Ev OpenDriver d
         :: p2 ++ Ev (Open indicatorDaemonPath flags mode) fd
         :: Ev (Flock fd (Z.lor LOCK_EX LOCK_NB)) x :: post /\
    fd <> -1 /\ x <> -1.
Proof.
  intros H Hr.
  assert (HL : forall s, at_most (while lockCond lockBody s) is_revival 0).
  { intros s. unfold lockCond, lockBody. no_such_call. }
  assert (HN : at_most (notifyAndWaitFor observerSelfPath observerDaemonPath)
                       is_revival 0) by no_such_call.
  rewrite daemon_unfold in H. apply run_bind_inv in H.
  destruct H as [[-> H] | (trL & tr2 & st & -> & H1 & H2)].
  { apply HL in H. lia. }
  pose proof (HL _ _ _ H1) as HzL. rewrite count_app in Hr.
  destruct (snd st =? 0) eqn:Est.
  { apply run_Ret_inv in H2. destruct H2 as [-> _]. cbn in Hr. lia. }
  rewrite guarding_unfold in H2. apply run_bind_inv in H2.
  destruct H2 as [[-> H2] | (trS & tr3 & [] & -> & H2 & H3)].
  { apply HN in H2. lia. }
  pose proof (HN _ _ H2) as HzS. rewrite count_app in Hr.
  apply run_bind_inv in H3.
  destruct H3 as [[-> H3] | (tr4 & tr5 & d & -> & H3 & H4)].
  { apply run_trigger_inv in H3.
    destruct H3 as [[-> _] | (d & -> & _)]; cbn in Hr; lia. }
  apply run_trigger_complete in H3. subst tr4.
  rewrite count_app in Hr. cbn [count filter is_revival List.length] in Hr.
  apply monitoring_revival_inv in H4.
  destruct H4 as [Hz | (status & reply & trM & post & HM & ->)]; [cbn in Hr; lia |].
  apply lockFile_granted_shape in HM.
  destruct HM as (u & flags & mode & fd & x & -> & Hfd & Hx).
  exists (trL ++ trS), d,
    (Ev (InitProcessState d) tt :: Ev (query d) (status, reply) :: u),
    flags, mode, fd, x, post.
  split; [| auto].
  rewrite <- ?app_assoc. cbn [app]. rewrite <- ?app_assoc. reflexivity.
Qed.

(** A complete execution that never opened the driver never was granted
    a lock: the guard had given up. *)
Lemma doDaemon_returns_without_driver tr :
  run daemon tr (Some tt) -> count is_OpenDriver tr = 0%nat ->
  count flock_granted tr = 0%nat.
Proof.
  intros H Hd. rewrite daemon_unfold in H. apply run_bind_inv in H.
  destruct H as [[? _] | (trL & tr2 & st & -> & H1 & H2)]; [discriminate |].
  destruct (snd st =? 0) eqn:Est; Zbool.
  - apply run_Ret_inv in H2. destruct H2 as [-> _]. rewrite app_nil_r.
    apply run_while_inv in H1.
    destruct (lockingSelf_runs H1 eq_refl ltac:(lia))
      as (attempts & Hall & Hlen & [(? & _) | [(ok & Eo & _) | (_ & _ & ->)]]);
      try discriminate.
    + exfalso. assert (st = (0 + Z.of_nat (List.length attempts), 1)) by congruence.
      subst st. cbn in Est. lia.
    + apply (backoffs_calls Hall).
  - exfalso. rewrite guarding_unfold in H2. apply run_bind_inv in H2.
    destruct H2 as [[? _] | (trS & tr3 & [] & -> & H2 & H3)]; [discriminate |].
    apply run_bind_inv in H3.
    destruct H3 as [[? _] | (tr4 & tr5 & d & -> & H3 & H4)]; [discriminate |].
    apply run_trigger_complete in H3. subst tr4.
    rewrite !count_app in Hd. cbn in Hd. lia.
Qed.

End DoDaemon.

(* ===================================================================== *)
(** * The Syncing barrier of a monitored pair *)
(* ===================================================================== *)

Section BarrierSide.

(** Guard [a] runs [doDaemon] on its four paths; guard [b], its sibling,
    runs it on the same paths with self and sibling exchanged. *)
Variables (a b : Z)
          (indicatorSelf indicatorSibling observerSelf observerSibling : string)
          (pkgA svcA : string) (sdkA codeA : Z)
          (pkgB svcB : string) (sdkB codeB : Z).

Let A : itree sysE unit :=
  doDaemon indicatorSelf indicatorSibling observerSelf observerSibling
           pkgA svcA sdkA codeA.
Let B : itree sysE unit :=
  doDaemon indicatorSibling indicatorSelf observerSibling observerSelf
           pkgB svcB sdkB codeB.

Hypothesis a_b : a <> b.
Hypothesis oS_oD : observerSelf <> observerSibling.
Hypothesis iS_oS : indicatorSelf <> observerSelf.
Hypothesis iS_oD : indicatorSelf <> observerSibling.
Hypothesis iD_oS : indicatorSibling <> observerSelf.
Hypothesis iD_oD : indicatorSibling <> observerSibling.

Variables (w0 : world) (log : list sys_ev).
Hypothesis Hpair : pair_run a b A B w0 log.
Hypothesis Hwf : 0 < nextfd w0.
Hypothesis fresh_oS : names w0 observerSelf = None.
Hypothesis fresh_oD : names w0 observerSibling = None.

Lemma neq_eqb (s t : string) : s <> t -> String.eqb s t = false.
Proof. intros H. apply String.eqb_neq. exact H. Qed.

Lemma A_never_creates_sibling : at_most A (creating observerSibling) 0.
Proof.
  apply doDaemon_never_creates_sibling; apply neq_eqb; auto.
Qed.

Lemma B_never_creates_sibling : at_most B (creating observerSelf) 0.
Proof.
  apply doDaemon_never_creates_sibling; apply neq_eqb; auto.
Qed.

Lemma B_creates_own_once : at_most B (creating observerSibling) 1.
Proof.
  apply doDaemon_creates_own_once; apply neq_eqb; auto.
Qed.

(** Whoever made a creating call on the observer file of [b], it was
    not [a]; and the other way round. *)
Lemma creator_of_sibling q ev :
  In (Call q ev) log -> created observerSibling ev = true ->
  q = a \/ q = b -> q = b.
Proof.
  intros Hin Hc [-> | ->]; auto. exfalso.
  destruct Hpair as (_ & HA & _ & _).
  apply A_never_creates_sibling in HA.
  assert (Hz : count (creating observerSibling) (calls_of a log) = 0%nat) by lia.
  apply In_calls_of in Hin.
  pose proof (@count_zero_In _ _ _ Hz Hin) as Hf.
  apply created_creating in Hc. congruence.
Qed.

Lemma creator_of_self q ev :
  In (Call q ev) log -> created observerSelf ev = true ->
  q = a \/ q = b -> q = a.
Proof.
  intros Hin Hc [-> | ->]; auto. exfalso.
  destruct Hpair as (_ & _ & HB & _).
  apply B_never_creates_sibling in HB.
  assert (Hz : count (creating observerSelf) (calls_of b log) = 0%nat) by lia.
  apply In_calls_of in Hin.
  pose proof (@count_zero_In _ _ _ Hz Hin) as Hf.
  apply created_creating in Hc. congruence.
Qed.

Lemma caller_in_pair q ev : In (Call q ev) log -> q = a \/ q = b.
Proof.
  intros Hin. destruct Hpair as (_ & _ & _ & Hall).
  rewrite Forall_forall in Hall. apply (Hall _ Hin).
Qed.

(** If [p] was fresh and a read-only [open] of [p] succeeds at some place
    of the log, a creating call on [p] succeeded before that place. *)
Lemma seen_was_created p q fd m1 m2 :
  log = m1 ++ Call q (Ev (Open p (Z.lor O_RDONLY O_LARGEFILE) None) fd) :: m2 ->
  names w0 p = None -> fd <> -1 ->
  exists w1 w1' q' ev,
    replay w0 m1 w1 /\ 0 < nextfd w1' /\
    (exists w2, replay w1' m2 w2) /\
    names w1 p <> None /\ names w1' p = names w1 p /\
    In (Call q' ev) m1 /\ created p ev = true.
Proof.
  intros E Hfresh Hfd.
  destruct Hpair as ([w Hrep] & _).
  rewrite E in Hrep. apply replay_app in Hrep.
  destruct Hrep as (w1 & R1 & R2).
  apply replay_call_inv in R2. destruct R2 as (w1' & _ & Hc & R2).
  cbn [os_call] in Hc.
  destruct (os_open q p (Z.lor O_RDONLY O_LARGEFILE) w1) as [fd' w'] eqn:Eo.
  assert (fd' = fd /\ w' = w1') by (split; congruence).
  destruct H as [-> ->].
  pose proof (replay_nextfd R1 Hwf) as W1.
  destruct (@os_open_rdonly_names p _ _ _ _ _ _ Eo has_flag_rdonly) as [N1 N2].
  destruct (@os_open_names p _ _ _ _ _ _ Eo W1) as (W2 & _).
  specialize (N2 Hfd).
  pose proof (@replay_removed_le p _ _ _ R1 Hwf Hfresh) as Hle.
  destruct (names w1 p) eqn:En; [| congruence].
  destruct (@count_pos_event (created p) m1) as (q' & ev & Hin & Hcr); [lia |].
  exists w1, w1', q', ev. repeat split; eauto; congruence.
Qed.

(** The barrier, seen from [a]: when [a] opens the driver, it has created
    its own observer file, [b] has created the observer file [a] waited
    for, and that file has been removed exactly once. *)
Lemma barrier_side l1 d l2 :
  log = l1 ++ Call a (Ev OpenDriver d) :: l2 ->
  (exists ev, In (Call a ev) l1 /\ created observerSelf ev = true) /\
  (exists ev, In (Call b ev) l1 /\ created observerSibling ev = true) /\
  (1 <= count (removed observerSibling) (events l1))%nat.
Proof.
  intros E.
  assert (HA : run A (calls_of a log) None) by apply Hpair.
  assert (Esub : forall sev, In sev l1 -> In sev log).
  { intros sev Hin. rewrite E. apply in_or_app. auto. }
  assert (Ea : calls_of a log = calls_of a l1 ++ Ev OpenDriver d :: calls_of a l2).
  { rewrite E, calls_of_app, calls_of_cons_same. reflexivity. }
  pose proof HA as HS. eapply doDaemon_Syncing_order in HS; [| exact Ea].
  destruct HS as (trL & tro & fd0 & n & fd & r & HL & Ho & Hfd & E1).
  (* the successful poll of the sibling's observer file *)
  assert (E1' : calls_of a l1 =
                (trL ++ tro ++ failed_polls observerSibling n)
                ++ Ev (Open observerSibling (Z.lor O_RDONLY O_LARGEFILE) None) fd
                :: [Ev (Remove observerSibling) r]).
  { rewrite E1, <- !app_assoc. reflexivity. }
  apply calls_of_split in E1'. destruct E1' as (m1 & m2 & El1 & Em1 & Em2).
  assert (Elog : log = m1 ++ Call a (Ev (Open observerSibling
                          (Z.lor O_RDONLY O_LARGEFILE) None) fd)
                       :: (m2 ++ Call a (Ev OpenDriver d) :: l2)).
  { rewrite E, El1, <- app_assoc. reflexivity. }
  destruct (@seen_was_created _ _ _ _ _ Elog fresh_oD Hfd)
    as (w1 & w1' & q' & ev & R1 & W1' & [w2 R2] & Np & Np' & Hin & Hcr).
  split; [| split].
  - (* the own observer file *)
    apply run_openOrCreate_inv in Ho.
    destruct Ho as [[_ ?] | [[_ ?] | [(fd0' & -> & Hfd0 & _) | (fd0' & -> & _)]]];
      try discriminate.
    + (* it could be opened: it was created before *)
      assert (E2 : calls_of a l1 =
                   trL ++ Ev (Open observerSelf (Z.lor O_RDONLY O_LARGEFILE) None) fd0'
                   :: (failed_polls observerSibling n ++
                       [Ev (Open observerSibling (Z.lor O_RDONLY O_LARGEFILE) None) fd;
                        Ev (Remove observerSibling) r])).
      { rewrite E1. reflexivity. }
      apply calls_of_split in E2. destruct E2 as (k1 & k2 & Ek & _ & _).
      assert (Elog2 : log = k1 ++ Call a (Ev (Open observerSelf
                          (Z.lor O_RDONLY O_LARGEFILE) None) fd0')
                       :: (k2 ++ Call a (Ev OpenDriver d) :: l2)).
      { rewrite E, Ek, <- app_assoc. reflexivity. }
      destruct (@seen_was_created _ _ _ _ _ Elog2 fresh_oS Hfd0)
        as (_ & _ & q2 & ev2 & _ & _ & _ & _ & _ & Hin2 & Hcr2).
      assert (Hin2' : In (Call q2 ev2) l1).
      { rewrite Ek. apply in_or_app. auto. }
      assert (q2 = a).
      { eapply creator_of_self; eauto. eapply caller_in_pair; eauto. }
      subst q2. eauto.
    + (* it was created by the second open *)
      assert (E2 : calls_of a l1 =
                   (trL ++ [Ev (Open observerSelf (Z.lor O_RDONLY O_LARGEFILE) None) (-1)])
                   ++ Ev (Open observerSelf O_CREAT (Some (Z.lor S_IRUSR S_IWUSR))) fd0'
                   :: (failed_polls observerSibling n ++
                       [Ev (Open observerSibling (Z.lor O_RDONLY O_LARGEFILE) None) fd;
                        Ev (Remove observerSibling) r])).
      { rewrite E1, <- !app_assoc. reflexivity. }
      apply calls_of_split in E2. destruct E2 as (k1 & k2 & Ek & _ & _).
      exists (Ev (Open observerSelf O_CREAT (Some (Z.lor S_IRUSR S_IWUSR))) fd0').
      split; [rewrite Ek; apply in_or_app; right; left; reflexivity |].
      destruct Hpair as ([w Hrep] & _).
      rewrite E, Ek, <- app_assoc in Hrep. apply replay_app in Hrep.
      destruct Hrep as (v1 & Rk & Rk').
      cbn [app] in Rk'. apply replay_call_inv in Rk'.
      destruct Rk' as (v1' & _ & Hc & _). cbn [os_call] in Hc.
      destruct (os_open a observerSelf O_CREAT v1) as [fd' v'] eqn:Eo.
      assert (fd' = fd0') by congruence. subst fd'.
      destruct (@os_open_names observerSelf _ _ _ _ _ _ Eo (replay_nextfd Rk Hwf))
        as (_ & _ & _ & A3 & _).
      specialize (A3 eq_refl). apply Z.eqb_neq in A3.
      cbn. rewrite String.eqb_refl, A3. reflexivity.
  - (* the observer file of the sibling *)
    assert (Hin' : In (Call q' ev) l1).
    { rewrite El1. apply in_or_app. auto. }
    assert (q' = b).
    { eapply creator_of_sibling; eauto. eapply caller_in_pair; eauto. }
    subst q'. eauto.
  - (* its removal *)
    assert (Em2' : calls_of a m2 = [] ++ Ev (Remove observerSibling) r :: [])
      by exact Em2.
    apply calls_of_split in Em2'. destruct Em2' as (n1 & n2 & En & _ & _).
    rewrite El1, En, !events_app. cbn [events]. rewrite events_app. cbn [events].
    rewrite !count_app, !count_cons, count_app, count_cons.
    rewrite En in R2. apply replay_app in R2. destruct R2 as (w3 & R3 & R4).
    apply replay_app in R3. destruct R3 as (w4 & R5 & R6).
    apply replay_call_inv in R6. destruct R6 as (w5 & _ & Hc & _).
    cbn [os_call] in Hc.
    destruct (os_remove observerSibling w4) as [r' w'] eqn:Er.
    assert (r' = r) by congruence. subst r'.
    destruct (@os_remove_names observerSibling _ _ _ _ Er)
      as (_ & [-> | ->] & _ & A2 & _).
    + cbn. rewrite String.eqb_refl. cbn. lia.
    + specialize (A2 eq_refl).
      assert (1 <= count (removed observerSibling) (events n1))%nat.
      { eapply replay_disappeared; eauto. congruence. }
      lia.
Qed.

(** In the whole log the observer file of [b] is removed at most once. *)
Lemma removed_at_most_once :
  (count (removed observerSibling) (events log) <= 1)%nat.
Proof.
  destruct Hpair as ([w Hrep] & HA & HB & Hall).
  pose proof (@replay_removed_le observerSibling _ _ _ Hrep Hwf fresh_oD) as H1.
  pose proof (@count_le_impl (created observerSibling) (creating observerSibling)
                (events log) (created_creating observerSibling)) as H2.
  rewrite (count_events_pair (creating observerSibling) a_b Hall) in H2.
  apply A_never_creates_sibling in HA.
  apply B_creates_own_once in HB.
  lia.
Qed.

End BarrierSide.

Lemma pair_run_sym a b tA tB w0 log :
  pair_run a b tA tB w0 log -> pair_run b a tB tA w0 log.
Proof.
  intros (Hrep & HA & HB & Hall). repeat split; auto.
  eapply Forall_impl; [| exact Hall].
  intros [q ev | q]; tauto.
Qed.

(** C5.  Syncing.
    (i) In every execution of [doDaemon] that reaches [open_driver()], what
    precedes it is, in this order: LockingSelf (calls on the own indicator
    file only), the opening or creation of the own observer file, the polls
    of the sibling's observer file up to the first that succeeds, and one
    removal of the sibling's observer file.
    (ii) For a pair of guards [a] and [b] on exchanged paths, the observer
    files being absent at the start: when either guard opens the driver,
    both guards have created their own observer file, and the observer file
    of the other has been removed exactly once; in the whole log each
    observer file is removed at most once. *)
Theorem Syncing_barrier
        (a b : Z)
        (indicatorA indicatorB observerA observerB : string)
        (pkgA svcA : string) (sdkA codeA : Z)
        (pkgB svcB : string) (sdkB codeB : Z) :
  a <> b ->
  observerA <> observerB ->
  indicatorA <> observerA -> indicatorA <> observerB ->
  indicatorB <> observerA -> indicatorB <> observerB ->
  let A := doDaemon indicatorA indicatorB observerA observerB
                    pkgA svcA sdkA codeA in
  let B := doDaemon indicatorB indicatorA observerB observerA
                    pkgB svcB sdkB codeB in
  (forall tr o, run A tr o ->
     forall l1 d l2, tr = l1 ++ Ev OpenDriver d :: l2 ->
     exists trL tro fd0 n fd r,
       Forall (fun ev => locking_call indicatorA ev = true) trL /\
       run (openOrCreate observerA) tro (Some fd0) /\
       fd <> -1 /\
       l1 = trL ++ tro ++ failed_polls observerB n ++
            [Ev (Open observerB (Z.lor O_RDONLY O_LARGEFILE) None) fd;
             Ev (Remove observerB) r]) /\
  (forall w0 log,
     pair_run a b A B w0 log ->
     0 < nextfd w0 -> names w0 observerA = None -> names w0 observerB = None ->
     (count (removed observerA) (events log) <= 1)%nat /\
     (count (removed observerB) (events log) <= 1)%nat /\
     (forall l1 d l2, log = l1 ++ Call a (Ev OpenDriver d) :: l2 ->
        (exists ev, In (Call a ev) l1 /\ created observerA ev = true) /\
        (exists ev, In (Call b ev) l1 /\ created observerB ev = true) /\
        count (removed observerB) (events l1) = 1%nat) /\
     (forall l1 d l2, log = l1 ++ Call b (Ev OpenDriver d) :: l2 ->
        (exists ev, In (Call b ev) l1 /\ created observerB ev = true) /\
        (exists ev, In (Call a ev) l1 /\ created observerA ev = true) /\
        count (removed observerA) (events l1) = 1%nat)).
Proof.
  intros Hab HoAB HiAoA HiAoB HiBoA HiBoB A B.
  split.
  - intros tr o H l1 d l2 E.
    eapply doDaemon_Syncing_order in H; [| exact E]. exact H.
  - intros w0 log Hpair Hwf FA FB.
    pose proof (pair_run_sym Hpair) as Hpair'.
    assert (RB : (count (removed observerB) (events log) <= 1)%nat).
    { exact (@removed_at_most_once a b indicatorA indicatorB observerA observerB
               pkgA svcA sdkA codeA pkgB svcB sdkB codeB
               Hab HoAB HiAoB HiBoB w0 log Hpair Hwf FB). }
    assert (RA : (count (removed observerA) (events log) <= 1)%nat).
    { exact (@removed_at_most_once b a indicatorB indicatorA observerB observerA
               pkgB svcB sdkB codeB pkgA svcA sdkA codeA
               (not_eq_sym Hab) (not_eq_sym HoAB) HiBoA HiAoA w0 log Hpair' Hwf FA). }
    split; [exact RA |]. split; [exact RB |]. split.
    + intros l1 d l2 E.
      destruct (@barrier_side a b indicatorA indicatorB observerA observerB
                  pkgA svcA sdkA codeA pkgB svcB sdkB codeB
                  HoAB HiAoA HiAoB HiBoA HiBoB w0 log Hpair Hwf FA FB
                  l1 d l2 E) as (C1 & C2 & C3).
      repeat split; auto.
      rewrite E, events_app, count_app in RB. lia.
    + intros l1 d l2 E.
      assert (HoBA : observerB <> observerA) by congruence.
      assert (Hba : b <> a) by congruence.
      destruct (@barrier_side b a indicatorB indicatorA observerB observerA
                  pkgB svcB sdkB codeB pkgA svcA sdkA codeA
                  HoBA HiBoB HiBoA HiAoB HiAoA w0 log Hpair' Hwf FB FA
                  l1 d l2 E) as (C1 & C2 & C3).
      repeat split; auto.
      rewrite E, events_app, count_app in RA. lia.
Qed.

(* ===================================================================== *)
(** * Monitoring: the wait for the sibling's lock *)
(* ===================================================================== *)

(** C1.  The spec has Monitoring suspend the guard in a blocking
    acquisition of the sibling's lock until the sibling is gone.
    [doDaemon] calls [lockFile] there, whose [flock] carries [LOCK_NB]:
    - no execution of [doDaemon] ever issues a [flock] other than
      [LOCK_EX | LOCK_NB];
    - with the sibling alive and holding its lock, guard 1 gets -1 from
      that [flock] and returns from [doDaemon] at once, without revival;
    - [waitForFileLock], in the same state, stays suspended in
      [flock(fd, LOCK_EX)]. *)
Theorem doDaemon_Monitoring_does_not_block :
  (forall indicatorSelfPath indicatorDaemonPath observerSelfPath observerDaemonPath
          packageName serviceName sdkVersion transactCode tr o,
      run (doDaemon indicatorSelfPath indicatorDaemonPath
                    observerSelfPath observerDaemonPath
                    packageName serviceName sdkVersion transactCode) tr o ->
      count flock_other tr = 0%nat) /\
  fst (exec 100 1 (doDaemon "/data/a.lock" "/data/b.lock"
                            "/data/a.obs" "/data/b.obs" "pkg" "svc" 28 30)
            sibling_alive) =
  ([Ev (Open "/data/a.lock" (Z.lor O_RDONLY O_LARGEFILE) None) (-1);
    Ev (Open "/data/a.lock" O_CREAT (Some (Z.lor S_IRUSR S_IWUSR))) 5;
    Ev (Flock 5 (Z.lor LOCK_EX LOCK_NB)) 0;
    Ev (Open "/data/a.obs" (Z.lor O_RDONLY O_LARGEFILE) None) (-1);
    Ev (Open "/data/a.obs" O_CREAT (Some (Z.lor S_IRUSR S_IWUSR))) 6;
    Ev (Open "/data/b.obs" (Z.lor O_RDONLY O_LARGEFILE) None) 7;
    Ev (Remove "/data/b.obs") 0;
    Ev OpenDriver 8;
    Ev (InitProcessState 8) tt;
    Ev (WriteTransact 0 CHECK_SERVICE_TRANSACTION
          (pwrites emptyParcel
             [WInterfaceToken "android.os.IServiceManager";
              WString16 (Some "activity")])
          true 0 8) (0, emptyParcel);
    Ev (Open "/data/b.lock" (Z.lor O_RDONLY O_LARGEFILE) None) 9;
    Ev (Flock 9 (Z.lor LOCK_EX LOCK_NB)) (-1)],
   Returned tt) /\
  fst (exec 100 1 (waitForFileLock "/data/b.lock") sibling_alive) =
  ([Ev (Open "/data/b.lock" (Z.lor O_RDONLY O_LARGEFILE) None) 5;
    Ev (Flock 5 (Z.lor LOCK_EX LOCK_NB)) (-1)],
   Suspended (Flock 5 LOCK_EX)).
Proof.
  split; [| split].
  - intros iS iD oS oD pkg svc sdk code tr o H.
    pose proof (@doDaemon_flock_nonblocking iS iD oS oD pkg svc sdk code _ _ H).
    lia.
  - vm_compute. reflexivity.
  - vm_compute. reflexivity.
Qed.

(** [waitForFileLock] never releases. *)
Lemma waitForFileLock_never_releases path :
  at_most (waitForFileLock path) flock_release 0.
Proof. unfold waitForFileLock. no_such_call. Qed.

Lemma drain_round fuel :
  exec (S (S (S fuel))) 1 drain_then_block holding =
  let '(tr, o, w) := exec fuel 1 drain_then_block holding in
  (Ev (Flock 3 (Z.lor LOCK_EX LOCK_NB)) 0 :: Ev (Usleep 1000) tt :: tr, o, w).
Proof.
  assert (E : exec (S (S (S fuel))) 1 drain_then_block holding =
              let '(tr1, o1, w1) :=
                let '(tr2, o2, w2) := exec fuel 1 drain_then_block holding in
                (Ev (Usleep 1000) tt :: tr2, o2, w2) in
              (Ev (Flock 3 (Z.lor LOCK_EX LOCK_NB)) 0 :: tr1, o1, w1))
    by reflexivity.
  rewrite E. destruct (exec fuel 1 drain_then_block holding) as [[tr o] w].
  reflexivity.
Qed.

Lemma drain_never_ends fuel :
  snd (fst (exec fuel 1 drain_then_block holding)) = Running /\
  snd (fst (exec (S fuel) 1 drain_then_block holding)) = Running /\
  snd (fst (exec (S (S fuel)) 1 drain_then_block holding)) = Running.
Proof.
  induction fuel as [| fuel (IH0 & IH1 & IH2)].
  - repeat split; reflexivity.
  - split; [exact IH1 |]. split; [exact IH2 |].
    rewrite drain_round.
    destruct (exec fuel 1 drain_then_block holding) as [[tr o] w].
    exact IH0.
Qed.

Lemma waitForFileLock_enters_drain fuel :
  exec (S (S (S (S (S fuel))))) 1 (waitForFileLock "/data/b.lock")
       (boot emptyParcel) =
  let '(tr, o, w) := exec fuel 1 drain_then_block holding in
  (Ev (Open "/data/b.lock" (Z.lor O_RDONLY O_LARGEFILE) None) (-1)
   :: Ev (Open "/data/b.lock" O_CREAT (Some (Z.lor S_IRUSR S_IWUSR))) 3
   :: Ev (Flock 3 (Z.lor LOCK_EX LOCK_NB)) 0
   :: Ev (Usleep 1000) tt :: tr, o, w).
Proof.
  assert (E : exec (S (S (S (S (S fuel))))) 1 (waitForFileLock "/data/b.lock")
                   (boot emptyParcel) =
              let '(tr1, o1, w1) :=
                let '(tr2, o2, w2) :=
                  let '(tr3, o3, w3) :=
                    let '(tr4, o4, w4) := exec fuel 1 drain_then_block holding in
                    (Ev (Usleep 1000) tt :: tr4, o4, w4) in
                  (Ev (Flock 3 (Z.lor LOCK_EX LOCK_NB)) 0 :: tr3, o3, w3) in
                (Ev (Open "/data/b.lock" O_CREAT (Some (Z.lor S_IRUSR S_IWUSR))) 3
                 :: tr2, o2, w2) in
              (Ev (Open "/data/b.lock" (Z.lor O_RDONLY O_LARGEFILE) None) (-1)
               :: tr1, o1, w1))
    by reflexivity.
  rewrite E. destruct (exec fuel 1 drain_then_block holding) as [[tr o] w].
  reflexivity.
Qed.

(** C6.  The spec has the drain loop release the lock after each
    non-blocking acquisition and end once the lock is contended.
    [waitForFileLock] never releases: no execution of it issues a [flock]
    with [LOCK_UN].  On a lock nobody holds, the first acquisition
    succeeds and every later one, on the same descriptor, succeeds again:
    however long it runs, [waitForFileLock] neither returns nor reaches the
    blocking [flock]; it keeps the lock and spins. *)
Theorem waitForFileLock_drain_spins :
  (forall path tr o, run (waitForFileLock path) tr o ->
                     count flock_release tr = 0%nat) /\
  (forall fuel,
      snd (fst (exec fuel 1 (waitForFileLock "/data/b.lock") (boot emptyParcel)))
      = Running) /\
  fst (fst (exec 8 1 (waitForFileLock "/data/b.lock") (boot emptyParcel))) =
  [Ev (Open "/data/b.lock" (Z.lor O_RDONLY O_LARGEFILE) None) (-1);
   Ev (Open "/data/b.lock" O_CREAT (Some (Z.lor S_IRUSR S_IWUSR))) 3;
   Ev (Flock 3 (Z.lor LOCK_EX LOCK_NB)) 0; Ev (Usleep 1000) tt;
   Ev (Flock 3 (Z.lor LOCK_EX LOCK_NB)) 0; Ev (Usleep 1000) tt].
Proof.
  split; [| split].
  - intros path tr o H.
    pose proof (@waitForFileLock_never_releases path _ _ H). lia.
  - intros fuel.
    do 5 (destruct fuel as [| fuel]; [reflexivity |]).
    rewrite waitForFileLock_enters_drain.
    pose proof (drain_never_ends fuel) as (H & _ & _).
    destruct (exec fuel 1 drain_then_block holding) as [[tr o] w].
    exact H.
  - vm_compute. reflexivity.
Qed.

(* ===================================================================== *)
(** * Init *)
(* ===================================================================== *)

Lemma existsb_count P (tr : trace) :
  existsb P tr = true -> (1 <= count P tr)%nat.
Proof.
  induction tr as [| ev tr IH]; cbn [existsb]; [discriminate |].
  rewrite count_cons. destruct (P ev); cbn [orb]; [lia |].
  intros H. specialize (IH H). lia.
Qed.

Lemma before_guarding_app pre tr :
  count is_Open pre = 0%nat ->
  before_guarding (pre ++ tr) = pre ++ before_guarding tr /\
  existsb is_Open (pre ++ tr) = existsb is_Open tr.
Proof.
  induction pre as [| ev pre IH]; intros H; [auto |].
  rewrite count_cons in H. cbn [app before_guarding existsb].
  destruct (is_Open ev); [discriminate |].
  destruct (IH H) as [-> ->]. auto.
Qed.

(** Past a step that opens no file. *)
Lemma past_init_step {R U : Type} (t : itree sysE R) (k : R -> itree sysE U) tr o :
  at_most t is_Open 0 ->
  run (ITree.bind t k) tr o ->
  existsb is_Open tr = true ->
  exists tr1 x tr2,
    run t tr1 (Some x) /\ run (k x) tr2 o /\
    existsb is_Open tr2 = true /\
    before_guarding tr = tr1 ++ before_guarding tr2.
Proof.
  intros Ht H Hb. apply run_bind_inv in H.
  destruct H as [[-> H] | (tr1 & tr2 & x & -> & H1 & H2)].
  - apply Ht in H. apply existsb_count in Hb. lia.
  - pose proof (Ht _ _ H1) as Hz.
    destruct (@before_guarding_app tr1 tr2) as [E1 E2]; [lia |].
    exists tr1, x, tr2. rewrite E2 in Hb. repeat split; auto.
Qed.

Lemma exit_never_returns {R : Type} (status : Z) tr (r : R) :
  ~ run (exit status) tr (Some r).
Proof.
  unfold exit. intros H. apply run_bind_inv in H.
  destruct H as [[? _] | (tr1 & tr2 & [] & _)]. discriminate.
Qed.

Lemma exit_opens_nothing {R : Type} (status : Z) :
  at_most (exit status : itree sysE R) is_Open 0.
Proof.
  unfold exit. apply at_most_bind_r; [no_such_call | intros []].
Qed.

Lemma createFileIfNotExist_opens_nothing path :
  at_most (createFileIfNotExist path) is_Open 0.
Proof. unfold createFileIfNotExist. no_such_call. Qed.

(** Once [doDaemon] has made a call, guarding has begun: nothing
    precedes its first [open]. *)
Lemma guarding_begins {U : Type} iS iD oS oD pkg svc sdk code
      (k : unit -> itree sysE U) tr o :
  run (ITree.bind (doDaemon iS iD oS oD pkg svc sdk code) k) tr o ->
  existsb is_Open tr = true ->
  before_guarding tr = [].
Proof.
  intros H Hb.
  assert (Hstart : forall tr' o',
             run (doDaemon iS iD oS oD pkg svc sdk code) tr' o' ->
             tr' <> [] -> forall rest,
             before_guarding (tr' ++ rest) = []).
  { intros tr' o' Hr Hne rest. apply doDaemon_starts in Hr.
    destruct Hr as [[-> _] | (fd & rest' & ->)]; [congruence | reflexivity]. }
  apply run_bind_inv in H.
  destruct H as [[-> H] | (tr1 & tr2 & [] & -> & H1 & H2)].
  - destruct tr as [| ev tr]; [discriminate |].
    rewrite <- (app_nil_r (ev :: tr)). eapply Hstart; eauto. discriminate.
  - eapply Hstart; eauto. intros ->.
    apply doDaemon_starts in H1.
    destruct H1 as [[_ ?] | (fd & rest & ?)]; discriminate.
Qed.

(** C7, as the code has it.  Take an execution of the entry point, on four
    paths that are not NULL, in which guarding has begun.  What precedes
    the guarding is
    - in the original process: [fork], answering the child's id,
      [waitpid] and the [getpid] that is logged, and no creating call at
      all;
    - in the detached daemon: the two [fork]s, the [getpid] that is
      logged, [createFileIfNotExist] on its own indicator path and on the
      sibling's (both with the suffix "-c"), and the change of the process
      name: the two indicator files and no observer file. *)
Theorem Init_creates_indicators
        (indicatorSelf indicatorDaemon observerSelf observerDaemon
         pkgName svcName : string) (sdkVersion : Z) (tr : trace) :
  run (startForceStopDaemon (Some indicatorSelf) (Some indicatorDaemon)
                            (Some observerSelf) (Some observerDaemon)
                            (Some pkgName) (Some svcName) sdkVersion) tr None ->
  existsb is_Open tr = true ->
  (exists pid r self,
      0 < pid /\
      before_guarding tr = [Ev Fork pid; Ev (Waitpid pid 0) r; Ev Getpid self]) \/
  (exists self c1 c2,
      run (createFileIfNotExist (snprintf_c MAX_PATH indicatorSelf)) c1 (Some tt) /\
      run (createFileIfNotExist (snprintf_c MAX_PATH indicatorDaemon)) c2 (Some tt) /\
      before_guarding tr =
      [Ev Fork 0; Ev Fork 0; Ev Getpid self] ++ c1 ++ c2 ++
      [Ev (SetProcessName "fw_daemon") tt]).
Proof.
  unfold startForceStopDaemon. cbn [isNULL orb GetStringUTFChars].
  intros H Hb.
  do 6 apply run_bind_Ret in H.
  apply past_init_step in H; [| no_such_call | exact Hb].
  destruct H as (tr1 & pid & tr2 & Hf & H & Hb2 & ->).
  apply run_trigger_complete in Hf. subst tr1.
  destruct (pid <? 0) eqn:Eneg; Zbool.
  { apply run_Ret_inv in H. destruct H as [-> _]. discriminate. }
  destruct (pid =? 0) eqn:Ezero; Zbool.
  - (* the child of the first fork *)
    subst pid. right. unfold daemonBranch in H.
    apply run_bind_assoc in H.
    apply past_init_step in H; [| no_such_call | exact Hb2].
    destruct H as (tr3 & pid2 & tr4 & Hf2 & H & Hb4 & ->).
    apply run_trigger_complete in Hf2. subst tr3.
    destruct (pid2 <? 0) eqn:Eneg2; Zbool.
    { apply past_init_step in H; [| apply exit_opens_nothing | exact Hb4].
      destruct H as (? & ? & ? & Hx & _). apply exit_never_returns in Hx.
      contradiction. }
    destruct (0 <? pid2) eqn:Epos2; Zbool.
    { apply past_init_step in H; [| apply exit_opens_nothing | exact Hb4].
      destruct H as (? & ? & ? & Hx & _). apply exit_never_returns in Hx.
      contradiction. }
    assert (pid2 = 0) by lia. subst pid2.
    apply run_bind_assoc in H.
    apply past_init_step in H; [| no_such_call | exact Hb4].
    destruct H as (trg & self & tr4' & Hg & H & Hb4' & ->).
    apply run_trigger_complete in Hg. subst trg.
    apply run_bind_assoc in H.
    apply past_init_step in H;
      [| apply createFileIfNotExist_opens_nothing | exact Hb4'].
    destruct H as (c1 & [] & tr5 & Hc1 & H & Hb5 & ->).
    apply run_bind_assoc in H.
    apply past_init_step in H;
      [| apply createFileIfNotExist_opens_nothing | exact Hb5].
    destruct H as (c2 & [] & tr6 & Hc2 & H & Hb6 & ->).
    apply run_bind_assoc in H.
    apply past_init_step in H; [| no_such_call | exact Hb6].
    destruct H as (tr7 & [] & tr8 & Hs & H & Hb8 & ->).
    apply run_trigger_complete in Hs. subst tr7.
    apply guarding_begins in H; [| exact Hb8]. rewrite H.
    exists self, c1, c2. repeat split; auto.
  - (* the original process *)
    left. apply run_bind_Ret in H.
    apply past_init_step in H; [| no_such_call | exact Hb2].
    destruct H as (tr3 & r & tr4 & Hw & H & Hb4 & ->).
    apply run_trigger_complete in Hw. subst tr3.
    apply past_init_step in H; [| no_such_call | exact Hb4].
    destruct H as (trg & self & tr5 & Hg & H & Hb5 & ->).
    apply run_trigger_complete in Hg. subst trg.
    apply guarding_begins in H; [| exact Hb5]. rewrite H.
    exists pid, r, self. split; [lia | reflexivity].
Qed.

Lemma Init_creates_indicators_witness :
  (exists pid r self,
      0 < pid /\
      before_guarding
        [Ev Fork 100; Ev (Waitpid 100 0) 100; Ev Getpid 50;
         Ev (Open "/data/a.lock" (Z.lor O_RDONLY O_LARGEFILE) None) 3] =
      [Ev Fork pid; Ev (Waitpid pid 0) r; Ev Getpid self]) \/
  (exists self c1 c2,
      run (createFileIfNotExist (snprintf_c MAX_PATH "/data/a.lock")) c1 (Some tt) /\
      run (createFileIfNotExist (snprintf_c MAX_PATH "/data/b.lock")) c2 (Some tt) /\
      before_guarding
        [Ev Fork 100; Ev (Waitpid 100 0) 100; Ev Getpid 50;
         Ev (Open "/data/a.lock" (Z.lor O_RDONLY O_LARGEFILE) None) 3] =
      [Ev Fork 0; Ev Fork 0; Ev Getpid self] ++ c1 ++ c2 ++
      [Ev (SetProcessName "fw_daemon") tt]).
Proof.
  apply (@Init_creates_indicators "/data/a.lock" "/data/b.lock"
           "/data/a.obs" "/data/b.obs" "pkg" "svc" 28).
  - prove_run.
  - reflexivity.
Defined.

(** C7, as the spec words it, fails: the original process reaches
    guarding having created none of its marker files. *)
Lemma Init_creates_all_markers_fails :
  ~ Init_creates_all_markers "/data/a.lock" "/data/b.lock"
                             "/data/a.obs" "/data/b.obs" "pkg" "svc" 28.
Proof.
  intros H.
  destruct (H [Ev Fork 100; Ev (Waitpid 100 0) 100; Ev Getpid 50;
               Ev (Open "/data/a.lock" (Z.lor O_RDONLY O_LARGEFILE) None) 3])
    as [Hparent _].
  - prove_run.
  - reflexivity.
  - specialize (Hparent 100 eq_refl ltac:(lia)).
    inversion Hparent as [| p l Hp _]. cbn in Hp. lia.
Qed.

(* ===================================================================== *)
(** * The statements above on sample executions *)
(* ===================================================================== *)

Lemma refused_attempt_run : run (lockFile "/data/a.lock") refused_attempt (Some 0).
Proof. prove_run. Defined.

Lemma doDaemon_LockingSelf_witness :
  run (doDaemon "/data/a.lock" "/data/b.lock" "/data/a.obs" "/data/b.obs"
                "pkg" "svc" 28 30) five_refusals (Some tt) /\
  exists attempts,
    List.length attempts = 5%nat /\
    Forall (fun a => run (lockFile "/data/a.lock") a (Some 0)) attempts /\
    five_refusals = backoffs attempts.
Proof.
  pose proof (@doDaemon_LockingSelf "/data/a.lock" "/data/b.lock"
                "/data/a.obs" "/data/b.obs" "pkg" "svc" 28 30)
    as (_ & Hshape & Hreturns & _).
  assert (Hrun : run (doDaemon "/data/a.lock" "/data/b.lock" "/data/a.obs"
                               "/data/b.obs" "pkg" "svc" 28 30)
                     five_refusals (Some tt)).
  { apply Hreturns; [reflexivity |].
    repeat constructor; apply refused_attempt_run. }
  split; [exact Hrun |].
  apply Hshape; [exact Hrun | reflexivity].
Defined.

Lemma detection_run :
  run (doDaemon "/data/a.lock" "/data/b.lock" "/data/a.obs" "/data/b.obs"
                "pkg" "svc" 28 30)
      (until_detection ++ Ev (Flock 8 (Z.lor LOCK_EX LOCK_NB)) 0 :: after_detection)
      (Some tt).
Proof. prove_run. Defined.

Lemma doDaemon_revival_at_most_once_witness :
  (count is_revival
         (until_detection ++ Ev (Flock 8 (Z.lor LOCK_EX LOCK_NB)) 0%Z
                          :: after_detection) <= 1)%nat.
Proof.
  apply (@doDaemon_revival_at_most_once "/data/a.lock" "/data/b.lock"
           "/data/a.obs" "/data/b.obs" "pkg" "svc" 28 30 _ (Some tt)).
  exact detection_run.
Defined.


Lemma both_synced_pair_run :
  pair_run 1 2
    (doDaemon "/data/a.lock" "/data/b.lock" "/data/a.obs" "/data/b.obs"
              "pkg" "svc" 28 30)
    (doDaemon "/data/b.lock" "/data/a.lock" "/data/b.obs" "/data/a.obs"
              "pkg" "svc" 28 30)
    (boot emptyParcel)
    (both_synced ++ [Call 1 (Ev OpenDriver 9)]).
Proof.
  split; [| split; [| split]].
  - eexists. unfold both_synced. cbn [app].
    repeat (eapply replay_call; [reflexivity | cbn; reflexivity |]).
    apply replay_nil.
  - let t := eval vm_compute in (calls_of 1 (both_synced ++ [Call 1 (Ev OpenDriver 9)])) in
    change (calls_of 1 (both_synced ++ [Call 1 (Ev OpenDriver 9)])) with t.
    prove_run.
  - let t := eval vm_compute in (calls_of 2 (both_synced ++ [Call 1 (Ev OpenDriver 9)])) in
    change (calls_of 2 (both_synced ++ [Call 1 (Ev OpenDriver 9)])) with t.
    prove_run.
  - unfold both_synced. cbn [app].
    repeat (apply Forall_cons;
            [first [left; reflexivity | right; reflexivity] |]).
    apply Forall_nil.
Defined.

Lemma Syncing_barrier_witness :
  (exists ev, In (Call 1 ev) both_synced /\ created "/data/a.obs" ev = true) /\
  (exists ev, In (Call 2 ev) both_synced /\ created "/data/b.obs" ev = true) /\
  count (removed "/data/b.obs") (events both_synced) = 1%nat.
Proof.
  pose proof (@Syncing_barrier 1 2 "/data/a.lock" "/data/b.lock"
                "/data/a.obs" "/data/b.obs" "pkg" "svc" 28 30 "pkg" "svc" 28 30)
    as H.
  destruct H as [_ H]; try discriminate.
  destruct (H (boot emptyParcel) (both_synced ++ [Call 1 (Ev OpenDriver 9)]))
    as (_ & _ & Ha & _).
  - exact both_synced_pair_run.
  - cbn. lia.
  - reflexivity.
  - reflexivity.
  - exact (Ha both_synced 9 [] eq_refl).
Defined.

(* ===================================================================== *)
(** * LockingSelf, seen from the entry point *)
(* ===================================================================== *)

(** C4.  The spec has an instance end, without Syncing, Monitoring or a
    transaction, once its five attempts on its own indicator file have
    failed.  [doDaemon] does return then.  In the detached daemon,
    however, nothing follows the call of [doDaemon] inside the branch of
    the child: control leaves the branch and enters the code written for
    the original process.  On [stale_daemon], where the lock on
    "/data/a.lock-c" is held by another process, the detached daemon
    - makes its five refused attempts, which are a complete execution of
      its [doDaemon];
    - then calls [waitpid(0, NULL, 0)] and starts [doDaemon] again, on the
      paths of the original process: it takes the lock on "/data/a.lock",
      creates "/data/a.obs" and consumes "/data/b.obs" (Syncing), opens
      the driver, is granted the lock on "/data/b.lock" (Monitoring) and
      submits the revival transaction. *)
Theorem startForceStopDaemon_exhaustion_goes_on :
  fst (exec 300 3
            (after_fork 0
               (after_fork 0
                  (startForceStopDaemon (Some "/data/a.lock") (Some "/data/b.lock")
                                        (Some "/data/a.obs") (Some "/data/b.obs")
                                        (Some "pkg") (Some "svc") 28)))
            stale_daemon) =
  (daemon_goes_on, Returned tt) /\
  run (startForceStopDaemon (Some "/data/a.lock") (Some "/data/b.lock")
                            (Some "/data/a.obs") (Some "/data/b.obs")
                            (Some "pkg") (Some "svc") 28)
      (Ev Fork 0 :: Ev Fork 0 :: daemon_goes_on) (Some tt) /\
  run (doDaemon "/data/a.lock-c" "/data/b.lock-c" "/data/a.obs-c" "/data/b.obs-c"
                "pkg" "svc" 28 30)
      (refused_from "/data/a.lock-c" 7 5) (Some tt) /\
  count flock_granted (daemon_init ++ refused_from "/data/a.lock-c" 7 5) = 0%nat /\
  count (created "/data/a.obs") daemon_after_exhaustion = 1%nat /\
  count (removed "/data/b.obs") daemon_after_exhaustion = 1%nat /\
  count is_OpenDriver daemon_after_exhaustion = 1%nat /\
  count flock_granted daemon_after_exhaustion = 2%nat /\
  count is_revival daemon_after_exhaustion = 1%nat.
Proof.
  split; [vm_compute; reflexivity |].
  split.
  { cbv [daemon_goes_on daemon_init daemon_after_exhaustion refused_from
         releases app].
    prove_run. }
  split.
  { cbv [refused_from]. prove_run. }
  repeat split; reflexivity.
Qed.

(* ===================================================================== *)
(** * Syncing, when an observer file is left over *)
(* ===================================================================== *)

Lemma alone_past_barrier_pair_run :
  pair_run 1 2
    (doDaemon "/data/a.lock" "/data/b.lock" "/data/a.obs" "/data/b.obs"
              "pkg" "svc" 28 30)
    (doDaemon "/data/b.lock" "/data/a.lock" "/data/b.obs" "/data/a.obs"
              "pkg" "svc" 28 30)
    leftover_observer
    (alone_until_synced ++ [Call 1 (Ev OpenDriver 7)]).
Proof.
  split; [| split; [| split]].
  - eexists. unfold alone_until_synced. cbn [app].
    repeat (eapply replay_call; [reflexivity | cbn; reflexivity |]).
    apply replay_nil.
  - let t := eval vm_compute in
         (calls_of 1 (alone_until_synced ++ [Call 1 (Ev OpenDriver 7)])) in
    change (calls_of 1 (alone_until_synced ++ [Call 1 (Ev OpenDriver 7)])) with t.
    prove_run.
  - apply run_nil.
  - unfold alone_until_synced. cbn [app].
    repeat (apply Forall_cons; [left; reflexivity |]).
    apply Forall_nil.
Qed.

(** C5, as the spec words it, fails when the observer file of the sibling
    is there from the start: guard 1 finds "/data/b.obs" at its first
    poll, removes it and opens the driver, while guard 2 has not made a
    single call. *)
Lemma Syncing_both_announced_fails :
  ~ Syncing_both_announced 1 2 "/data/a.lock" "/data/b.lock"
                           "/data/a.obs" "/data/b.obs" "pkg" "svc" 28 30.
Proof.
  intros H.
  destruct (H leftover_observer
              (alone_until_synced ++ [Call 1 (Ev OpenDriver 7)])
              alone_past_barrier_pair_run ltac:(vm_compute; reflexivity)
              alone_until_synced 7 [] eq_refl)
    as (_ & ev & Hin & _).
  unfold alone_until_synced in Hin. cbn [In] in Hin.
  repeat (destruct Hin as [Hin | Hin]; [discriminate |]).
  exact Hin.
Qed.

(* ===================================================================== *)
(** * The request parcel *)
(* ===================================================================== *)

Lemma items_pwrites out l : items (pwrites out l) = items out ++ l.
Proof.
  unfold pwrites. revert out. induction l as [| i l IH]; intros out; cbn.
  - rewrite app_nil_r. reflexivity.
  - rewrite IH. cbn. rewrite <- app_assoc. reflexivity.
Qed.

Lemma objects_pwrites out l : objects (pwrites out l) = objects out.
Proof.
  unfold pwrites. revert out. induction l as [| i l IH]; intros out; cbn; auto.
  rewrite IH. reflexivity.
Qed.

(** What [writeStartServiceParcel] writes for revision [sdk], after the
    header and the intent. *)
Lemma items_writeStartServiceParcel out pkg cls sdk :
  items (writeStartServiceParcel out pkg cls sdk) =
  items out ++
  [WInterfaceToken "android.app.IActivityManager"; WNullBinder; WInt32 1] ++
  items (writeIntent emptyParcel pkg cls) ++
  (if 26 <=? sdk
   then [WString16 None; WInt32 0; WString16 (Some pkg); WInt32 0]
   else if 23 <=? sdk
        then [WString16 None; WString16 (Some pkg); WInt32 0]
        else [WString16 None; WInt32 0]).
Proof.
  unfold writeStartServiceParcel, writeIntent.
  destruct (26 <=? sdk); [| destruct (23 <=? sdk)];
    rewrite !items_pwrites; cbn [pwrite items emptyParcel app];
    rewrite <- !app_assoc; reflexivity.
Qed.

Lemma objects_writeStartServiceParcel out pkg cls sdk :
  objects (writeStartServiceParcel out pkg cls sdk) = objects out.
Proof.
  unfold writeStartServiceParcel, writeIntent.
  destruct (26 <=? sdk); [| destruct (23 <=? sdk)];
    rewrite !objects_pwrites; reflexivity.
Qed.

Lemma Parcel_eq (p q : Parcel) :
  items p = items q -> objects p = objects q -> p = q.
Proof. destruct p, q. cbn. intros -> ->. reflexivity. Qed.

(** X1.  The request parcel tells the package and the service class apart, and
    depends on the revision through its band only: below 23, from 23 to
    25, from 26 on. *)
Theorem writeStartServiceParcel_bands
        (out : Parcel) (pkg cls pkg' cls' : string) (sdk sdk' : Z) :
  writeStartServiceParcel out pkg cls sdk =
  writeStartServiceParcel out pkg' cls' sdk' <->
  pkg = pkg' /\ cls = cls' /\
  (26 <=? sdk) = (26 <=? sdk') /\ (23 <=? sdk) = (23 <=? sdk').
Proof.
  split.
  - intros E. apply (f_equal items) in E.
    rewrite !items_writeStartServiceParcel in E.
    apply app_inv_head in E. unfold writeIntent in E.
    rewrite !items_pwrites in E. cbn [app items emptyParcel] in E.
    destruct (26 <=? sdk) eqn:A, (26 <=? sdk') eqn:A';
      destruct (23 <=? sdk) eqn:B, (23 <=? sdk') eqn:B';
      try (apply Z.leb_le in A); try (apply Z.leb_gt in A);
      try (apply Z.leb_le in A'); try (apply Z.leb_gt in A');
      try (apply Z.leb_le in B); try (apply Z.leb_gt in B);
      try (apply Z.leb_le in B'); try (apply Z.leb_gt in B');
      try lia; try discriminate E;
      injection E; intros; subst; auto.
  - intros (-> & -> & A & B).
    apply Parcel_eq.
    + rewrite !items_writeStartServiceParcel, A, B. reflexivity.
    + rewrite !objects_writeStartServiceParcel. reflexivity.
Qed.

(** X2.  [writeStartServiceParcel] only appends: what the parcel held stays in
    front, followed by what the function writes into an empty parcel; a
    request has 19, 20 or 21 fields. *)
Theorem writeStartServiceParcel_appends
        (out : Parcel) (pkg cls : string) (sdk : Z) :
  items (writeStartServiceParcel out pkg cls sdk) =
  items out ++ items (writeStartServiceParcel emptyParcel pkg cls sdk) /\
  List.length (items (writeStartServiceParcel emptyParcel pkg cls sdk)) =
  (if 26 <=? sdk then 21%nat else if 23 <=? sdk then 20%nat else 19%nat).
Proof.
  split.
  - rewrite !items_writeStartServiceParcel. reflexivity.
  - rewrite items_writeStartServiceParcel.
    destruct (26 <=? sdk); [| destruct (23 <=? sdk)]; reflexivity.
Qed.

(* ===================================================================== *)
(** * The paths of the detached daemon *)
(* ===================================================================== *)

Lemma length_app_string (s t : string) :
  String.length (s ++ t) = (String.length s + String.length t)%nat.
Proof. induction s as [| c s IH]; cbn; [reflexivity | rewrite IH; reflexivity]. Qed.

Lemma substring_0_app n (s t : string) :
  (n <= String.length s)%nat -> substring 0 n (s ++ t) = substring 0 n s.
Proof.
  revert s. induction n as [| n IH]; intros s H.
  - destruct s; cbn; [destruct t; reflexivity | reflexivity].
  - destruct s as [| c s]; cbn in H; [lia |].
    cbn. rewrite IH by lia. reflexivity.
Qed.

Lemma substring_0_all n (s : string) :
  (String.length s <= n)%nat -> substring 0 n s = s.
Proof.
  revert s. induction n as [| n IH]; intros s H.
  - destruct s; [reflexivity | cbn in H; lia].
  - destruct s as [| c s]; [reflexivity |].
    cbn in H. cbn. rewrite IH by lia. reflexivity.
Qed.

Lemma length_substring_0 n (s : string) :
  String.length (substring 0 n s) = Nat.min n (String.length s).
Proof.
  revert s. induction n as [| n IH]; intros s.
  - destruct s; reflexivity.
  - destruct s as [| c s]; [reflexivity |].
    cbn. rewrite IH. reflexivity.
Qed.

Lemma snprintf_c_unfold (s : string) :
  snprintf_c MAX_PATH s = substring 0 255 (s ++ "-c").
Proof. reflexivity. Qed.

(** X3.  The path built by [snprintf] fits the buffer of [MAX_PATH] bytes with
    its closing NUL: it has the length of the argument plus two, and 255
    at most. *)
Theorem snprintf_c_length (s : string) :
  String.length (snprintf_c MAX_PATH s) = Nat.min (String.length s + 2) 255.
Proof.
  rewrite snprintf_c_unfold, length_substring_0, length_app_string.
  cbn [String.length]. lia.
Qed.

(** X4.  A path of at most 253 bytes gets its suffix "-c" in full: the detached
    daemon then works on a path that is not the one of the original
    process. *)
Theorem snprintf_c_short (s : string) :
  (String.length s <= 253)%nat ->
  snprintf_c MAX_PATH s = (s ++ "-c")%string /\ snprintf_c MAX_PATH s <> s.
Proof.
  intros H.
  assert (E : snprintf_c MAX_PATH s = (s ++ "-c")%string).
  { rewrite snprintf_c_unfold. apply substring_0_all.
    rewrite length_app_string. cbn [String.length]. lia. }
  split; [exact E |].
  intros E'. rewrite E in E'. apply (f_equal String.length) in E'.
  rewrite length_app_string in E'. cbn [String.length] in E'. lia.
Qed.

Lemma snprintf_c_short_witness :
  snprintf_c MAX_PATH "/data/a.lock" = "/data/a.lock-c" /\
  snprintf_c MAX_PATH "/data/a.lock" <> "/data/a.lock".
Proof.
  apply (@snprintf_c_short "/data/a.lock"). cbn. lia.
Defined.

(** X5.  A path of 255 bytes or more loses the suffix: the result is its first
    255 bytes, so that paths which agree there are given the same path. *)
Theorem snprintf_c_long (s : string) :
  (255 <= String.length s)%nat ->
  snprintf_c MAX_PATH s = substring 0 255 s /\
  forall t, snprintf_c MAX_PATH (s ++ t) = snprintf_c MAX_PATH s.
Proof.
  intros H.
  assert (E : forall t, substring 0 255 (s ++ t) = substring 0 255 s).
  { intros t. apply substring_0_app. exact H. }
  split.
  - rewrite snprintf_c_unfold. apply E.
  - intros t. rewrite !snprintf_c_unfold.
    assert (A : ((s ++ t) ++ "-c" = s ++ (t ++ "-c"))%string).
    { clear. induction s as [| c s IH]; cbn; [reflexivity | rewrite IH; reflexivity]. }
    rewrite A, !E. reflexivity.
Qed.

Lemma snprintf_c_long_witness :
  snprintf_c MAX_PATH (string_of_list_ascii (List.repeat "a"%char 255)) =
  substring 0 255 (string_of_list_ascii (List.repeat "a"%char 255)) /\
  forall t,
    snprintf_c MAX_PATH (string_of_list_ascii (List.repeat "a"%char 255) ++ t) =
    snprintf_c MAX_PATH (string_of_list_ascii (List.repeat "a"%char 255)).
Proof.
  apply (@snprintf_c_long (string_of_list_ascii (List.repeat "a"%char 255))).
  vm_compute. lia.
Defined.

(* ===================================================================== *)
(** * What every call of an execution is like *)
(* ===================================================================== *)

Section Always.

Context (P : event -> Prop).

Lemma always_Ret {R} (r : R) : always (Ret r : itree sysE R) P.
Proof.
  intros tr o H. apply run_Ret_inv in H. destruct H as [-> _]. constructor.
Qed.

Lemma always_trigger {R} (e : sysE R) :
  (forall x, P (Ev e x)) -> always (ITree.trigger e) P.
Proof.
  intros HP tr o H. apply run_trigger_inv in H.
  destruct H as [[-> _] | (x & -> & _)]; repeat constructor. apply HP.
Qed.

Lemma always_bind {R U} (t : itree sysE R) (k : R -> itree sysE U) :
  always t P -> (forall x, always (k x) P) -> always (ITree.bind t k) P.
Proof.
  intros Ht Hk tr o H. apply run_bind_inv in H.
  destruct H as [[-> H] | (tr1 & tr2 & x & -> & H1 & H2)].
  - apply (Ht _ _ H).
  - apply Forall_app. split; [apply (Ht _ _ H1) | apply (Hk x _ _ H2)].
Qed.

Lemma always_while {St} (cond : St -> itree sysE (bool * St))
      (body : St -> itree sysE St) :
  (forall s, always (cond s) P) -> (forall s, always (body s) P) ->
  forall s, always (while cond body s) P.
Proof.
  intros Hc Hb s tr o H. apply run_while_inv in H.
  induction H as [s tr H | s tr s1 H | s tr1 s1 tr2 H1 H2
                  | s tr1 s1 tr2 s2 tr3 o H1 H2 H3 IH].
  - apply (Hc _ _ _ H).
  - apply (Hc _ _ _ H).
  - apply Forall_app. split; [apply (Hc _ _ _ H1) | apply (Hb _ _ _ H2)].
  - apply Forall_app. split; [apply (Hc _ _ _ H1) |].
    apply Forall_app. split; [apply (Hb _ _ _ H2) | exact IH].
Qed.

Lemma always_bind_Ret {R U} (r : R) (k : R -> itree sysE U) :
  always (k r) P -> always (ITree.bind (Ret r) k) P.
Proof. intros Hk tr o H. apply run_bind_Ret in H. apply (Hk _ _ H). Qed.

End Always.

(** Discharges [always t P] for the code of the guard, call by call. *)
Ltac every_call :=
  repeat match goal with
    | |- always (Ret _) _ => apply always_Ret
    | |- always (ITree.trigger _) _ =>
        apply always_trigger; intros; cbn;
        first [ exact I
              | reflexivity
              | tauto
              | (intros; discriminate)
              | (intros; repeat split; reflexivity) ]
    | |- always (while _ _ _) _ => apply always_while; intros
    | |- always (ITree.bind (Ret _) _) _ => apply always_bind_Ret
    | |- always (ITree.bind _ _) _ => apply always_bind; [| intros]
    | |- always (if ?b then _ else _) _ => destruct b
    | |- always (match ?x with Some _ => _ | None => _ end) _ => destruct x
    | |- always (match ?x with end) _ => destruct x
    | |- always (let (_, _) := ?x in _) _ => destruct x
    | |- always (openOrCreate _) _ => unfold openOrCreate
    | |- always (lockFile _) _ => unfold lockFile
    | |- always (waitForFileLock _) _ => unfold waitForFileLock
    | |- always (notifyAndWaitFor _ _) _ => unfold notifyAndWaitFor
    | |- always (getServiceHandle _ _) _ => unfold getServiceHandle
    | |- always (createFileIfNotExist _) _ => unfold createFileIfNotExist
    | |- always (doDaemon _ _ _ _ _ _ _ _) _ => unfold doDaemon
    | |- always (daemonBranch _ _ _ _ _ _ _ _) _ => unfold daemonBranch
    | |- always (exit _) _ => unfold exit
    | |- always (open2 _ _) _ => unfold open2
    | |- always (open3 _ _ _) _ => unfold open3
    | |- always (flock _ _) _ => unfold flock
    | |- always (usleep _) _ => unfold usleep
    | |- always (remove _) _ => unfold remove
    | |- always (write_transact _ _ _ _ _ _) _ => unfold write_transact
    | |- always (setProcessName _) _ => unfold setProcessName
    | |- always _ _ => progress cbv zeta
    end.

Lemma cons_Ev_inj {T : Type} (e : sysE T) (x y : T) (l l' : trace) :
  Ev e x :: l = Ev e y :: l' -> x = y /\ l = l'.
Proof.
  intros H. split.
  - apply (f_equal (@hd event (Ev e x))) in H. cbn in H.
    apply Ev_inj in H. exact H.
  - apply (f_equal (@tl event)) in H. exact H.
Qed.

(** Events of different kinds differ. *)
Ltac by_kind H := apply (f_equal kind) in H; discriminate H.

(* ===================================================================== *)
(** * [lockFile] and [waitForFileLock], call by call *)
(* ===================================================================== *)

(** X6.  What [lockFile] returns.  It returns 1 exactly when its one [flock],
    non-blocking, was granted.  It returns 0 when that [flock] was refused,
    and also when the file could neither be opened nor created: no [flock]
    is attempted then. *)
Theorem lockFile_result (path : string) (tr : trace) (r : Z) :
  run (lockFile path) tr (Some r) ->
  (r = 1 /\
   exists tro fd x,
     run (openOrCreate path) tro (Some fd) /\ fd <> -1 /\ x <> -1 /\
     tr = tro ++ [Ev (Flock fd (Z.lor LOCK_EX LOCK_NB)) x]) \/
  (r = 0 /\
   (tr = [Ev (Open path (Z.lor O_RDONLY O_LARGEFILE) None) (-1);
          Ev (Open path O_CREAT (Some (Z.lor S_IRUSR S_IWUSR))) (-1)] \/
    exists tro fd,
      run (openOrCreate path) tro (Some fd) /\ fd <> -1 /\
      tr = tro ++ [Ev (Flock fd (Z.lor LOCK_EX LOCK_NB)) (-1)])).
Proof.
  intros H. apply run_lockFile_inv in H.
  destruct H as (tro & oo & Ho & [[-> [? | [-> E]]] | (fd & x & -> & Hfd & -> & [? | E])]);
    try discriminate.
  - right. split; [congruence |]. left.
    apply run_openOrCreate_inv in Ho.
    destruct Ho as [[_ ?] | [[_ ?] | [(fd & _ & Hfd & [? | E']) | (fd & -> & [? | E'])]]];
      try discriminate.
    + congruence.
    + assert (fd = -1) by congruence. subst fd. reflexivity.
  - destruct (x =? -1) eqn:Ex; Zbool.
    + right. split; [congruence |]. right. subst x. exists tro, fd. auto.
    + left. split; [congruence |]. exists tro, fd, x. auto.
Qed.

Lemma lockFile_result_witness :
  (0 = 1 /\
   exists tro fd x,
     run (openOrCreate "/data/a.lock") tro (Some fd) /\ fd <> -1 /\ x <> -1 /\
     refused_attempt = tro ++ [Ev (Flock fd (Z.lor LOCK_EX LOCK_NB)) x]) \/
  (0 = 0 /\
   (refused_attempt =
    [Ev (Open "/data/a.lock" (Z.lor O_RDONLY O_LARGEFILE) None) (-1);
     Ev (Open "/data/a.lock" O_CREAT (Some (Z.lor S_IRUSR S_IWUSR))) (-1)] \/
    exists tro fd,
      run (openOrCreate "/data/a.lock") tro (Some fd) /\ fd <> -1 /\
      refused_attempt = tro ++ [Ev (Flock fd (Z.lor LOCK_EX LOCK_NB)) (-1)])).
Proof.
  apply (@lockFile_result "/data/a.lock" refused_attempt 0).
  unfold refused_attempt. prove_run.
Defined.

(** The complete executions of the loop of [waitForFileLock]: rounds in
    which the lock was granted, and the attempt that was refused. *)
Lemma drain_runs fd s tr o :
  while_run (fun _ : unit =>
               r <- flock fd (Z.lor LOCK_EX LOCK_NB) ;; Ret (negb (r =? -1), tt))
            (fun _ => usleep 1000) s tr o ->
  o = Some tt ->
  exists answers,
    Forall (fun x => x <> -1) answers /\
    tr = drained fd answers ++ [Ev (Flock fd (Z.lor LOCK_EX LOCK_NB)) (-1)].
Proof.
  unfold flock, usleep.
  induction 1 as [s tr H | s tr s1 H | s tr1 s1 tr2 H1 H2
                  | s tr1 s1 tr2 s2 tr3 o H1 H2 H3 IH];
    intros Eo; try discriminate.
  - apply run_bind_inv in H.
    destruct H as [[? _] | (ta & tb & r & -> & Ha & Hb)]; [discriminate |].
    apply run_trigger_complete in Ha. subst ta.
    apply run_Ret_inv in Hb. destruct Hb as [-> [? | E]]; [discriminate |].
    assert (Er : negb (r =? -1) = false) by congruence.
    apply negb_false_iff in Er. Zbool. subst r.
    exists []. split; [constructor | reflexivity].
  - apply run_bind_inv in H1.
    destruct H1 as [[? _] | (ta & tb & r & -> & Ha & Hb)]; [discriminate |].
    apply run_trigger_complete in Ha. subst ta.
    apply run_Ret_inv in Hb. destruct Hb as [-> [? | E]]; [discriminate |].
    assert (Er : negb (r =? -1) = true) by congruence.
    apply negb_true_iff in Er. Zbool.
    apply run_trigger_complete in H2. subst tr2.
    destruct (IH Eo) as (answers & Hall & ->).
    exists (r :: answers). split; [constructor; auto |].
    destruct s2. reflexivity.
Qed.

(** X7.  The complete executions of [waitForFileLock].  It returns only after
    a non-blocking [flock] was refused and the blocking [flock] that
    follows was answered; before that come the rounds in which the lock was
    granted, each followed by [usleep(1000)].  The result tells whether the
    blocking [flock] succeeded.  All [flock]s are on the descriptor of the
    opening sequence, be it -1. *)
Theorem waitForFileLock_returns (path : string) (tr : trace) (b : bool) :
  run (waitForFileLock path) tr (Some b) ->
  exists tro fd answers x,
    run (openOrCreate path) tro (Some fd) /\
    Forall (fun a => a <> -1) answers /\
    tr = tro ++ drained fd answers ++
         [Ev (Flock fd (Z.lor LOCK_EX LOCK_NB)) (-1); Ev (Flock fd LOCK_EX) x] /\
    b = negb (x =? -1).
Proof.
  unfold waitForFileLock. intros H.
  apply run_bind_inv in H.
  destruct H as [[? _] | (tro & tr2 & fd & -> & Ho & H)]; [discriminate |].
  apply run_bind_inv in H.
  destruct H as [[? _] | (trd & tr3 & [] & -> & Hd & H)]; [discriminate |].
  apply run_while_inv in Hd.
  destruct (@drain_runs _ _ _ _ Hd eq_refl) as (answers & Hall & ->).
  unfold flock in H. apply run_bind_inv in H.
  destruct H as [[? _] | (tr4 & tr5 & x & -> & H4 & H5)]; [discriminate |].
  apply run_trigger_complete in H4. subst tr4.
  apply run_Ret_inv in H5. destruct H5 as [-> [? | E]]; [discriminate |].
  exists tro, fd, answers, x. repeat split; auto.
  - rewrite <- !app_assoc. reflexivity.
  - congruence.
Qed.

Lemma waitForFileLock_returns_witness :
  exists tro fd answers x,
    run (openOrCreate "/data/b.lock") tro (Some fd) /\
    Forall (fun a => a <> -1) answers /\
    [Ev (Open "/data/b.lock" (Z.lor O_RDONLY O_LARGEFILE) None) 5;
     Ev (Flock 5 (Z.lor LOCK_EX LOCK_NB)) (-1);
     Ev (Flock 5 LOCK_EX) 0] =
    tro ++ drained fd answers ++
    [Ev (Flock fd (Z.lor LOCK_EX LOCK_NB)) (-1); Ev (Flock fd LOCK_EX) x] /\
    true = negb (x =? -1).
Proof.
  apply (@waitForFileLock_returns "/data/b.lock"
           [Ev (Open "/data/b.lock" (Z.lor O_RDONLY O_LARGEFILE) None) 5;
            Ev (Flock 5 (Z.lor LOCK_EX LOCK_NB)) (-1);
            Ev (Flock 5 LOCK_EX) 0] true).
  prove_run.
Defined.

Lemma waitForFileLock_flocks_on fd :
  always (while (fun _ : unit =>
                   r <- flock fd (Z.lor LOCK_EX LOCK_NB) ;;
                   Ret (negb (r =? -1), tt))
                (fun _ => usleep 1000) tt ;;
          result <- flock fd LOCK_EX ;;
          Ret (negb (result =? -1)))
         (flock_on fd).
Proof. every_call. Qed.

(** X8.  Unlike [lockFile], [waitForFileLock] does not look at the descriptor
    it obtained.  When the file can neither be opened nor created, it goes
    on with descriptor -1: every [flock] it then makes is on -1, and with
    those answered by -1 it returns [false] after one non-blocking and one
    blocking attempt. *)
Theorem waitForFileLock_unchecked_open (path : string) :
  run (waitForFileLock path)
      [Ev (Open path (Z.lor O_RDONLY O_LARGEFILE) None) (-1);
       Ev (Open path O_CREAT (Some (Z.lor S_IRUSR S_IWUSR))) (-1);
       Ev (Flock (-1) (Z.lor LOCK_EX LOCK_NB)) (-1);
       Ev (Flock (-1) LOCK_EX) (-1)]
      (Some false) /\
  forall tr o rest,
    run (waitForFileLock path) tr o ->
    tr = Ev (Open path (Z.lor O_RDONLY O_LARGEFILE) None) (-1)
         :: Ev (Open path O_CREAT (Some (Z.lor S_IRUSR S_IWUSR))) (-1) :: rest ->
    Forall (flock_on (-1)) rest.
Proof.
  split; [prove_run |].
  intros tr o rest H E. unfold waitForFileLock in H.
  apply run_bind_inv in H.
  destruct H as [[-> H] | (tro & tr2 & fd & -> & Ho & H)].
  - apply run_openOrCreate_inv in H.
    destruct H as [[-> _] | [[-> _] | [(fd & -> & _) | (fd & -> & _)]]];
      try discriminate.
    apply cons_Ev_inj in E. destruct E as [_ E].
    apply cons_Ev_inj in E. destruct E as [_ <-]. constructor.
  - apply waitForFileLock_flocks_on in H.
    apply run_openOrCreate_inv in Ho.
    destruct Ho as [[_ ?] | [[_ ?] | [(fd' & -> & Hfd & [? | E']) | (fd' & -> & [? | E'])]]];
      try discriminate.
    + cbn [app] in E. apply cons_Ev_inj in E. destruct E as [E _]. congruence.
    + cbn [app] in E. apply cons_Ev_inj in E. destruct E as [_ E].
      apply cons_Ev_inj in E. destruct E as [E <-].
      assert (fd = -1) by congruence. subst fd. exact H.
Qed.

(* ===================================================================== *)
(** * The entry points *)
(* ===================================================================== *)

(** X9.  The complete executions of [testBinderCall]: the driver is opened and
    the process state set up, the registry is asked for "activity", one
    request to start the service is sent, oneway and without reply parcel
    (to handle 0 when the registry gave none), the process state is torn
    down on the same descriptor, and both strings are released. *)
Theorem testBinderCall_trace (pkgName svcName : string) (sdkVersion : Z) (tr : trace) :
  run (FwNative_testBinderCall (Some pkgName) (Some svcName) sdkVersion) tr (Some tt) ->
  exists driverFD status reply answer,
    tr =
    [Ev OpenDriver driverFD;
     Ev (InitProcessState driverFD) tt;
     Ev (WriteTransact 0 CHECK_SERVICE_TRANSACTION
           (pwrites emptyParcel
              [WInterfaceToken "android.os.IServiceManager";
               WString16 (Some "activity")])
           true 0 driverFD) (status, reply);
     Ev (WriteTransact
           (to_int32 (match readObject reply with
                      | Some flat => handle flat
                      | None => 0
                      end))
           (getStartServiceTransactionCode sdkVersion)
           (writeStartServiceParcel emptyParcel pkgName svcName sdkVersion)
           false 1 driverFD) answer;
     Ev (UnInitProcessState driverFD) tt;
     Ev (ReleaseStringUTFChars (Some pkgName) pkgName) tt;
     Ev (ReleaseStringUTFChars (Some svcName) svcName) tt].
Proof.
  unfold FwNative_testBinderCall. cbn [GetStringUTFChars]. intros H.
  apply run_bind_inv in H.
  destruct H as [[? _] | (t1 & r1 & d & -> & H1 & H)]; [discriminate |].
  apply run_trigger_complete in H1. subst t1.
  apply run_bind_inv in H.
  destruct H as [[? _] | (t2 & r2 & [] & -> & H2 & H)]; [discriminate |].
  apply run_trigger_complete in H2. subst t2.
  apply run_bind_inv in H.
  destruct H as [[? _] | (t3 & r3 & ams & -> & H3 & H)]; [discriminate |].
  apply run_getServiceHandle_inv in H3.
  destruct H3 as [[_ ?] | (status & reply & -> & [? | Hams])]; try discriminate.
  do 2 apply run_bind_Ret in H.
  unfold write_transact in H.
  apply run_bind_inv in H.
  destruct H as [[? _] | (t4 & r4 & answer & -> & H4 & H)]; [discriminate |].
  apply run_trigger_complete in H4. subst t4.
  apply run_bind_inv in H.
  destruct H as [[? _] | (t5 & r5 & [] & -> & H5 & H)]; [discriminate |].
  apply run_trigger_complete in H5. subst t5.
  apply run_bind_inv in H.
  destruct H as [[? _] | (t6 & r6 & [] & -> & H6 & H)]; [discriminate |].
  apply run_trigger_complete in H6. subst t6.
  apply run_trigger_complete in H. subst r6.
  exists d, status, reply, answer. cbn [app].
  assert (E : ams = match readObject reply with
                    | Some flat => handle flat
                    | None => 0
                    end).
  { unfold readObject. destruct (objects reply); congruence. }
  rewrite E. reflexivity.
Qed.

Lemma testBinderCall_trace_witness :
  exists driverFD status reply answer,
    [Ev OpenDriver 6;
     Ev (InitProcessState 6) tt;
     Ev (WriteTransact 0 CHECK_SERVICE_TRANSACTION
           (pwrites emptyParcel
              [WInterfaceToken "android.os.IServiceManager";
               WString16 (Some "activity")])
           true 0 6) (0, mkParcel [] [mkFlat 0 0 7 0]);
     Ev (WriteTransact 7 30
           (writeStartServiceParcel emptyParcel "pkg" "svc" 28) false 1 6)
        (0, emptyParcel);
     Ev (UnInitProcessState 6) tt;
     Ev (ReleaseStringUTFChars (Some "pkg") "pkg") tt;
     Ev (ReleaseStringUTFChars (Some "svc") "svc") tt] =
    [Ev OpenDriver driverFD;
     Ev (InitProcessState driverFD) tt;
     Ev (WriteTransact 0 CHECK_SERVICE_TRANSACTION
           (pwrites emptyParcel
              [WInterfaceToken "android.os.IServiceManager";
               WString16 (Some "activity")])
           true 0 driverFD) (status, reply);
     Ev (WriteTransact
           (to_int32 (match readObject reply with
                      | Some flat => handle flat
                      | None => 0
                      end))
           (getStartServiceTransactionCode 28)
           (writeStartServiceParcel emptyParcel "pkg" "svc" 28)
           false 1 driverFD) answer;
     Ev (UnInitProcessState driverFD) tt;
     Ev (ReleaseStringUTFChars (Some "pkg") "pkg") tt;
     Ev (ReleaseStringUTFChars (Some "svc") "svc") tt].
Proof.
  apply (@testBinderCall_trace "pkg" "svc" 28). prove_run.
Defined.

(** X10.  Whatever the role of the process, original, intermediate or detached,
    every oneway transaction without reply parcel that
    [startForceStopDaemon] submits is the request to start the given
    service, with the code the table gives for the revision; and
    [testBinderCall] submits that same request. *)
Theorem startForceStopDaemon_request
        (indicatorSelf indicatorDaemon observerSelf observerDaemon
         pkgName svcName : string) (sdkVersion : Z) :
  (forall tr o,
      run (startForceStopDaemon (Some indicatorSelf) (Some indicatorDaemon)
                                (Some observerSelf) (Some observerDaemon)
                                (Some pkgName) (Some svcName) sdkVersion) tr o ->
      Forall (starts_service pkgName svcName sdkVersion) tr) /\
  (forall tr o,
      run (FwNative_testBinderCall (Some pkgName) (Some svcName) sdkVersion) tr o ->
      Forall (starts_service pkgName svcName sdkVersion) tr).
Proof.
  split.
  - assert (H : always
                  (startForceStopDaemon (Some indicatorSelf) (Some indicatorDaemon)
                     (Some observerSelf) (Some observerDaemon)
                     (Some pkgName) (Some svcName) sdkVersion)
                  (starts_service pkgName svcName sdkVersion)).
    { unfold startForceStopDaemon. cbn [isNULL orb GetStringUTFChars].
      every_call. }
    exact H.
  - assert (H : always
                  (FwNative_testBinderCall (Some pkgName) (Some svcName) sdkVersion)
                  (starts_service pkgName svcName sdkVersion)).
    { unfold FwNative_testBinderCall. cbn [GetStringUTFChars]. every_call. }
    exact H.
Qed.

(* ===================================================================== *)
(** * The three processes of [startForceStopDaemon] *)
(* ===================================================================== *)

Lemma run_exit_inv {R : Type} (status : Z) tr (o : option R) :
  run (exit status) tr o -> tr = [] /\ o = None.
Proof.
  unfold exit. intros H. apply run_bind_inv in H.
  destruct H as [[-> H] | (tr1 & tr2 & [] & _)].
  apply run_trigger_inv in H. destruct H as [[-> _] | ([] & _)]. auto.
Qed.

Lemma run_exit_bind_inv {R U : Type} (status : Z) (k : R -> itree sysE U) tr o :
  run (ITree.bind (exit status) k) tr o -> tr = [] /\ o = None.
Proof.
  intros H. apply run_bind_inv in H.
  destruct H as [[-> H] | (tr1 & tr2 & x & _ & H1 & _)].
  - apply run_exit_inv in H. tauto.
  - apply run_exit_inv in H1. destruct H1 as [_ ?]. discriminate.
Qed.

Lemma calls_next_observe {R T : Type} (t t' : itree sysE R) tr (e : sysE T) :
  observe t = observe t' -> calls_next t' tr e -> calls_next t tr e.
Proof.
  intros E H. destruct H as [t' T e k H | t' t'' tr T e H H' | t' U e0 k x tr T e H H'].
  - eapply calls_next_here. rewrite E. exact H.
  - eapply calls_next_tau; [rewrite E; exact H | exact H'].
  - eapply calls_next_vis; [rewrite E; exact H | exact H'].
Qed.

(** No execution goes beyond a call that has no answer, such as [exit],
    and none that reaches it is complete. *)
Lemma calls_next_final {R T : Type} (t : itree sysE R) pre (e : sysE T) :
  calls_next t pre e -> (T -> False) ->
  forall rest o, run t (pre ++ rest) o -> rest = [] /\ o = None.
Proof.
  intros H Hempty.
  induction H as [t T e k Ho | t t' tr T e Ho Hn IH | t U e0 k x tr T e Ho Hn IH];
    intros rest o [n Hr]; apply runN_inv in Hr; rewrite Ho in Hr.
  - cbn [app] in Hr.
    destruct Hr as [(_ & -> & ->) | (m & x & _)]; [auto | contradiction].
  - destruct Hr as [(_ & E & ->) | (m & _ & Hr)].
    + apply app_eq_nil in E. tauto.
    + apply (IH Hempty). exists m. exact Hr.
  - destruct Hr as [(_ & E & _) | (m & x' & tr' & _ & E & Hr)]; [discriminate |].
    cbn [app] in E. apply cons_Ev_inj in E. destruct E as [<- <-].
    apply (IH Hempty). exists m. exact Hr.
Qed.

Section Roles.

Variables (indicatorSelf indicatorDaemon observerSelf observerDaemon
           pkgName svcName : string) (sdkVersion : Z).

Let transactCode : Z := getStartServiceTransactionCode sdkVersion.

Let entry : itree sysE unit :=
  startForceStopDaemon (Some indicatorSelf) (Some indicatorDaemon)
                       (Some observerSelf) (Some observerDaemon)
                       (Some pkgName) (Some svcName) sdkVersion.

(** The code written for the parent, which the detached daemon reaches
    as well. *)
Let guard (pid : Z) : itree sysE unit :=
  ITree.trigger (Waitpid pid 0) ;;
  ITree.trigger Getpid ;;
  doDaemon indicatorSelf indicatorDaemon observerSelf observerDaemon
           pkgName svcName sdkVersion transactCode ;;
  ITree.trigger (ReleaseStringUTFChars (Some indicatorSelf) indicatorSelf) ;;
  ITree.trigger (ReleaseStringUTFChars (Some indicatorDaemon) indicatorDaemon) ;;
  ITree.trigger (ReleaseStringUTFChars (Some observerSelf) observerSelf) ;;
  ITree.trigger (ReleaseStringUTFChars (Some observerDaemon) observerDaemon) ;;
  ITree.trigger (ReleaseStringUTFChars (Some pkgName) pkgName) ;;
  ITree.trigger (ReleaseStringUTFChars (Some svcName) svcName).

Let branch : itree sysE unit :=
  daemonBranch indicatorSelf indicatorDaemon observerSelf observerDaemon
               pkgName svcName sdkVersion transactCode.

(** The detached daemon, once both [fork]s are behind it. *)
Let detached : itree sysE unit :=
  ITree.trigger Getpid ;;
  createFileIfNotExist (snprintf_c MAX_PATH indicatorSelf) ;;
  createFileIfNotExist (snprintf_c MAX_PATH indicatorDaemon) ;;
  setProcessName "fw_daemon" ;;
  doDaemon (snprintf_c MAX_PATH indicatorSelf) (snprintf_c MAX_PATH indicatorDaemon)
           (snprintf_c MAX_PATH observerSelf) (snprintf_c MAX_PATH observerDaemon)
           pkgName svcName sdkVersion transactCode.

Let forked (pid : Z) : itree sysE unit :=
  if pid <? 0 then Ret tt
  else (if pid =? 0 then branch else Ret tt) ;; guard pid.

Lemma run_entry_iff tr o :
  run entry tr o <-> run (pid <- ITree.trigger Fork ;; forked pid) tr o.
Proof.
  split; apply run_observe; reflexivity.
Qed.

Lemma run_entry_inv tr o :
  run entry tr o ->
  (tr = [] /\ o = None) \/
  (exists pid rest, tr = Ev Fork pid :: rest /\ run (forked pid) rest o).
Proof.
  intros H. apply run_entry_iff in H. apply run_bind_inv in H.
  destruct H as [[-> H] | (tr1 & tr2 & pid & -> & H1 & H2)].
  - apply run_trigger_inv in H. destruct H as [[-> _] | (pid & -> & _)]; auto.
    right. exists pid, []. split; auto. apply run_nil.
  - apply run_trigger_complete in H1. subst tr1. right.
    exists pid, tr2. split; [reflexivity | exact H2].
Qed.

Lemma run_branch_inv tr o :
  run branch tr o ->
  (tr = [] /\ o = None) \/
  (exists pid2 rest,
      tr = Ev Fork pid2 :: rest /\
      ((pid2 <> 0 /\ rest = [] /\ o = None) \/ (pid2 = 0 /\ run detached rest o))).
Proof.
  unfold branch, daemonBranch. intros H. apply run_bind_inv in H.
  destruct H as [[-> H] | (tr1 & tr2 & pid2 & -> & H1 & H2)].
  - apply run_trigger_inv in H. destruct H as [[-> _] | (pid2 & -> & _)]; auto.
    right. exists pid2, []. split; auto.
    destruct (Z.eq_dec pid2 0) as [-> | Hne]; auto.
    right. split; auto. apply run_nil.
  - apply run_trigger_complete in H1. subst tr1. right.
    exists pid2, tr2. split; auto.
    destruct (pid2 <? 0) eqn:Eneg; Zbool.
    { apply run_exit_inv in H2. left. split; [lia | exact H2]. }
    destruct (0 <? pid2) eqn:Epos; Zbool.
    { apply run_exit_inv in H2. left. split; [lia | exact H2]. }
    right. split; [lia | exact H2].
Qed.

Lemma run_guard_inv pid tr :
  run (guard pid) tr (Some tt) ->
  exists w self d,
    run (doDaemon indicatorSelf indicatorDaemon observerSelf observerDaemon
                  pkgName svcName sdkVersion transactCode) d (Some tt) /\
    tr = Ev (Waitpid pid 0) w :: Ev Getpid self :: d ++
         releases indicatorSelf indicatorDaemon observerSelf observerDaemon
                  pkgName svcName.
Proof.
  unfold guard. intros H.
  apply run_bind_inv in H.
  destruct H as [[? _] | (t1 & r1 & w & -> & H1 & H)]; [discriminate |].
  apply run_trigger_complete in H1. subst t1.
  apply run_bind_inv in H.
  destruct H as [[? _] | (t2 & r2 & self & -> & H1 & H)]; [discriminate |].
  apply run_trigger_complete in H1. subst t2.
  apply run_bind_inv in H.
  destruct H as [[? _] | (d & r3 & [] & -> & Hd & H)]; [discriminate |].
  exists w, self, d. split; [exact Hd |].
  repeat (apply run_bind_inv in H;
          destruct H as [[? _] | (? & ? & [] & -> & ?Hr & H)]; [discriminate |];
          apply run_trigger_complete in Hr; subst).
  apply run_trigger_complete in H. subst. reflexivity.
Qed.

Lemma run_detached_inv tr :
  run detached tr (Some tt) ->
  exists self c1 c2 d,
    run (createFileIfNotExist (snprintf_c MAX_PATH indicatorSelf)) c1 (Some tt) /\
    run (createFileIfNotExist (snprintf_c MAX_PATH indicatorDaemon)) c2 (Some tt) /\
    run (doDaemon (snprintf_c MAX_PATH indicatorSelf)
                  (snprintf_c MAX_PATH indicatorDaemon)
                  (snprintf_c MAX_PATH observerSelf)
                  (snprintf_c MAX_PATH observerDaemon)
                  pkgName svcName sdkVersion transactCode) d (Some tt) /\
    tr = Ev Getpid self :: c1 ++ c2 ++ Ev (SetProcessName "fw_daemon") tt :: d.
Proof.
  unfold detached, setProcessName. intros H.
  apply run_bind_inv in H.
  destruct H as [[? _] | (t0 & r0 & self & -> & H0 & H)]; [discriminate |].
  apply run_trigger_complete in H0. subst t0.
  apply run_bind_inv in H.
  destruct H as [[? _] | (c1 & r1 & [] & -> & H1 & H)]; [discriminate |].
  apply run_bind_inv in H.
  destruct H as [[? _] | (c2 & r2 & [] & -> & H2 & H)]; [discriminate |].
  apply run_bind_inv in H.
  destruct H as [[? _] | (t3 & d & [] & -> & H3 & H)]; [discriminate |].
  apply run_trigger_complete in H3. subst t3.
  exists self, c1, c2, d. auto.
Qed.

(** X11.  When the first [fork] fails, [startForceStopDaemon] returns at once:
    it makes no other call.  No file is touched, no guard runs, and none
    of the six strings it obtained is released. *)
Theorem startForceStopDaemon_fork_failure (tr : trace) (o : option unit)
        (pid : Z) (rest : trace) :
  run (startForceStopDaemon (Some indicatorSelf) (Some indicatorDaemon)
                            (Some observerSelf) (Some observerDaemon)
                            (Some pkgName) (Some svcName) sdkVersion) tr o ->
  tr = Ev Fork pid :: rest -> pid < 0 ->
  rest = [] /\
  run (startForceStopDaemon (Some indicatorSelf) (Some indicatorDaemon)
                            (Some observerSelf) (Some observerDaemon)
                            (Some pkgName) (Some svcName) sdkVersion)
      [Ev Fork pid] (Some tt).
Proof.
  intros H E Hpid. apply Z.ltb_lt in Hpid. split.
  - apply run_entry_inv in H.
    destruct H as [[-> _] | (pid' & rest' & -> & H)]; [discriminate |].
    apply cons_Ev_inj in E. destruct E as [-> ->].
    unfold forked in H. rewrite Hpid in H.
    apply run_Ret_inv in H. tauto.
  - apply run_entry_iff.
    change [Ev Fork pid] with ([Ev Fork pid] ++ []).
    eapply run_bind; [apply run_trigger |].
    unfold forked. rewrite Hpid. apply run_Ret.
Qed.

(** X12.  The intermediate process, child of the first [fork] and parent of
    the second, leaves through [exit]: after the two [fork]s the call it
    makes is [exit(0)], or [exit(-1)] when the second [fork] failed.  No
    execution goes beyond that call: no file is created, no guard runs,
    and the entry point is never returned from. *)
Theorem startForceStopDaemon_intermediate (tr : trace) (o : option unit)
        (pid2 : Z) (rest : trace) :
  run (startForceStopDaemon (Some indicatorSelf) (Some indicatorDaemon)
                            (Some observerSelf) (Some observerDaemon)
                            (Some pkgName) (Some svcName) sdkVersion) tr o ->
  tr = Ev Fork 0 :: Ev Fork pid2 :: rest -> pid2 <> 0 ->
  rest = [] /\ o = None /\
  calls_next (startForceStopDaemon (Some indicatorSelf) (Some indicatorDaemon)
                                   (Some observerSelf) (Some observerDaemon)
                                   (Some pkgName) (Some svcName) sdkVersion)
             [Ev Fork 0; Ev Fork pid2]
             (Exit (if pid2 <? 0 then -1 else 0)).
Proof.
  intros H E Hpid2.
  assert (Hnext :
            calls_next entry [Ev Fork 0; Ev Fork pid2]
                       (Exit (if pid2 <? 0 then -1 else 0))).
  { apply calls_next_observe with (t' := pid <- ITree.trigger Fork ;; forked pid);
      [reflexivity |].
    eapply calls_next_vis; [cbn; reflexivity |].
    apply calls_next_observe with (t' := branch ;; guard 0); [reflexivity |].
    eapply calls_next_vis; [cbn; reflexivity |].
    apply calls_next_observe
      with (t' := (if pid2 <? 0 then exit (-1)
                   else if 0 <? pid2 then exit 0 else detached) ;; guard 0);
      [reflexivity |].
    destruct (pid2 <? 0) eqn:Eneg.
    - eapply calls_next_here. cbn. reflexivity.
    - assert (Epos : (0 <? pid2) = true) by (Zbool; apply Z.ltb_lt; lia).
      rewrite Epos. eapply calls_next_here. cbn. reflexivity. }
  destruct (@calls_next_final _ _ entry [Ev Fork 0; Ev Fork pid2] _ Hnext
              (fun x : Empty_set => match x with end) rest o) as [Hr Ho].
  { cbn [app]. rewrite <- E. exact H. }
  auto.
Qed.

(** X13.  The complete executions of the original process: it waits for the
    intermediate process, whatever [waitpid] answers, asks for its own id
    (which is logged), runs [doDaemon] on the paths it was given, with
    the code of the table, and releases the six strings in the order it
    obtained them. *)
Theorem startForceStopDaemon_original (tr : trace) (pid : Z) (rest : trace) :
  run (startForceStopDaemon (Some indicatorSelf) (Some indicatorDaemon)
                            (Some observerSelf) (Some observerDaemon)
                            (Some pkgName) (Some svcName) sdkVersion)
      tr (Some tt) ->
  tr = Ev Fork pid :: rest -> 0 < pid ->
  exists w self d,
    run (doDaemon indicatorSelf indicatorDaemon observerSelf observerDaemon
                  pkgName svcName sdkVersion
                  (getStartServiceTransactionCode sdkVersion)) d (Some tt) /\
    rest = Ev (Waitpid pid 0) w :: Ev Getpid self :: d ++
           releases indicatorSelf indicatorDaemon observerSelf observerDaemon
                    pkgName svcName.
Proof.
  intros H E Hpid. apply run_entry_inv in H.
  destruct H as [[_ ?] | (pid' & rest' & -> & H)]; [discriminate |].
  apply cons_Ev_inj in E. destruct E as [-> ->].
  unfold forked in H.
  assert (E1 : (pid <? 0) = false) by (apply Z.ltb_ge; lia).
  assert (E2 : (pid =? 0) = false) by (apply Z.eqb_neq; lia).
  rewrite E1, E2 in H. apply run_bind_Ret in H.
  apply run_guard_inv in H. exact H.
Qed.

(** X14.  The complete executions of the detached daemon.  After the two
    [fork]s it asks for its own id (which is logged), creates the two
    indicator files with the suffix, renames itself and runs [doDaemon] on
    the suffixed paths.  When that returns, control leaves the branch and
    goes through the code of the original process: [waitpid(0, NULL, 0)],
    [getpid] for the log, a second [doDaemon], now on the paths of the
    original process, and the release of the six strings. *)
Theorem startForceStopDaemon_detached (tr : trace) (rest : trace) :
  run (startForceStopDaemon (Some indicatorSelf) (Some indicatorDaemon)
                            (Some observerSelf) (Some observerDaemon)
                            (Some pkgName) (Some svcName) sdkVersion)
      tr (Some tt) ->
  tr = Ev Fork 0 :: Ev Fork 0 :: rest ->
  exists self1 c1 c2 d1 w self2 d2,
    run (createFileIfNotExist (snprintf_c MAX_PATH indicatorSelf)) c1 (Some tt) /\
    run (createFileIfNotExist (snprintf_c MAX_PATH indicatorDaemon)) c2 (Some tt) /\
    run (doDaemon (snprintf_c MAX_PATH indicatorSelf)
                  (snprintf_c MAX_PATH indicatorDaemon)
                  (snprintf_c MAX_PATH observerSelf)
                  (snprintf_c MAX_PATH observerDaemon)
                  pkgName svcName sdkVersion
                  (getStartServiceTransactionCode sdkVersion)) d1 (Some tt) /\
    run (doDaemon indicatorSelf indicatorDaemon observerSelf observerDaemon
                  pkgName svcName sdkVersion
                  (getStartServiceTransactionCode sdkVersion)) d2 (Some tt) /\
    rest = Ev Getpid self1 ::
           c1 ++ c2 ++ Ev (SetProcessName "fw_daemon") tt :: d1 ++
           Ev (Waitpid 0 0) w :: Ev Getpid self2 :: d2 ++
           releases indicatorSelf indicatorDaemon observerSelf observerDaemon
                    pkgName svcName.
Proof.
  intros H E. apply run_entry_inv in H.
  destruct H as [[_ ?] | (pid' & rest' & -> & H)]; [discriminate |].
  apply cons_Ev_inj in E. destruct E as [-> ->].
  unfold forked in H. cbn [Z.ltb Z.eqb Z.compare] in H.
  apply run_bind_inv in H.
  destruct H as [[? _] | (tr1 & tr2 & [] & E & H1 & H2)]; [discriminate |].
  apply run_branch_inv in H1.
  destruct H1 as [[_ ?] | (p & r & -> & [(_ & _ & ?) | (-> & H1)])];
    try discriminate.
  cbn [app] in E. apply cons_Ev_inj in E. destruct E as [_ ->].
  apply run_detached_inv in H1.
  destruct H1 as (self1 & c1 & c2 & d1 & Hc1 & Hc2 & Hd1 & ->).
  apply run_guard_inv in H2. destruct H2 as (w & self2 & d2 & Hd2 & ->).
  exists self1, c1, c2, d1, w, self2, d2. repeat split; auto.
  cbn [app]. rewrite <- !app_assoc. cbn [app]. rewrite <- ?app_assoc.
  reflexivity.
Qed.

End Roles.

Lemma startForceStopDaemon_fork_failure_witness :
  @nil event = [] /\
  run (startForceStopDaemon (Some "/data/a.lock") (Some "/data/b.lock")
                            (Some "/data/a.obs") (Some "/data/b.obs")
                            (Some "pkg") (Some "svc") 28)
      [Ev Fork (-1)] (Some tt).
Proof.
  apply (@startForceStopDaemon_fork_failure
           "/data/a.lock" "/data/b.lock" "/data/a.obs" "/data/b.obs" "pkg" "svc" 28
           [Ev Fork (-1)] (Some tt) (-1) []).
  - prove_run.
  - reflexivity.
  - lia.
Defined.

Lemma startForceStopDaemon_intermediate_witness :
  @nil event = [] /\ @None unit = None /\
  calls_next (startForceStopDaemon (Some "/data/a.lock") (Some "/data/b.lock")
                                   (Some "/data/a.obs") (Some "/data/b.obs")
                                   (Some "pkg") (Some "svc") 28)
             [Ev Fork 0; Ev Fork 101] (Exit 0).
Proof.
  apply (@startForceStopDaemon_intermediate
           "/data/a.lock" "/data/b.lock" "/data/a.obs" "/data/b.obs" "pkg" "svc" 28
           [Ev Fork 0; Ev Fork 101] None 101 []).
  - prove_run.
  - reflexivity.
  - lia.
Defined.

Lemma original_gives_up_run :
  run (startForceStopDaemon (Some "/data/a.lock") (Some "/data/b.lock")
                            (Some "/data/a.obs") (Some "/data/b.obs")
                            (Some "pkg") (Some "svc") 28)
      original_gives_up (Some tt).
Proof. cbv [original_gives_up refusals backoffs flat_map releases app]. prove_run. Qed.

Lemma startForceStopDaemon_original_witness :
  exists w self d,
    run (doDaemon "/data/a.lock" "/data/b.lock" "/data/a.obs" "/data/b.obs"
                  "pkg" "svc" 28 (getStartServiceTransactionCode 28)) d (Some tt) /\
    Ev (Waitpid 100 0) 100 :: Ev Getpid 50 ::
    refusals "/data/a.lock" 3 ++
    releases "/data/a.lock" "/data/b.lock" "/data/a.obs" "/data/b.obs" "pkg" "svc" =
    Ev (Waitpid 100 0) w :: Ev Getpid self :: d ++
    releases "/data/a.lock" "/data/b.lock" "/data/a.obs" "/data/b.obs" "pkg" "svc".
Proof.
  apply (@startForceStopDaemon_original
           "/data/a.lock" "/data/b.lock" "/data/a.obs" "/data/b.obs" "pkg" "svc" 28
           original_gives_up 100).
  - exact original_gives_up_run.
  - reflexivity.
  - lia.
Defined.

Lemma detached_gives_up_run :
  run (startForceStopDaemon (Some "/data/a.lock") (Some "/data/b.lock")
                            (Some "/data/a.obs") (Some "/data/b.obs")
                            (Some "pkg") (Some "svc") 28)
      detached_gives_up (Some tt).
Proof. cbv [detached_gives_up refusals backoffs flat_map releases app]. prove_run. Qed.

Lemma startForceStopDaemon_detached_witness :
  exists self1 c1 c2 d1 w self2 d2,
    run (createFileIfNotExist (snprintf_c MAX_PATH "/data/a.lock")) c1 (Some tt) /\
    run (createFileIfNotExist (snprintf_c MAX_PATH "/data/b.lock")) c2 (Some tt) /\
    run (doDaemon (snprintf_c MAX_PATH "/data/a.lock")
                  (snprintf_c MAX_PATH "/data/b.lock")
                  (snprintf_c MAX_PATH "/data/a.obs")
                  (snprintf_c MAX_PATH "/data/b.obs")
                  "pkg" "svc" 28 (getStartServiceTransactionCode 28)) d1 (Some tt) /\
    run (doDaemon "/data/a.lock" "/data/b.lock" "/data/a.obs" "/data/b.obs"
                  "pkg" "svc" 28 (getStartServiceTransactionCode 28)) d2 (Some tt) /\
    Ev Getpid 101 ::
    [Ev (Fopen "/data/a.lock-c" "ab+") 0] ++
    [Ev (Fopen "/data/b.lock-c" "ab+") 0] ++
    Ev (SetProcessName "fw_daemon") tt ::
    refusals "/data/a.lock-c" 3 ++
    Ev (Waitpid 0 0) (-1) :: Ev Getpid 101 ::
    refusals "/data/a.lock" 4 ++
    releases "/data/a.lock" "/data/b.lock" "/data/a.obs" "/data/b.obs" "pkg" "svc" =
    Ev Getpid self1 ::
    c1 ++ c2 ++ Ev (SetProcessName "fw_daemon") tt :: d1 ++
    Ev (Waitpid 0 0) w :: Ev Getpid self2 :: d2 ++
    releases "/data/a.lock" "/data/b.lock" "/data/a.obs" "/data/b.obs" "pkg" "svc".
Proof.
  apply (@startForceStopDaemon_detached
           "/data/a.lock" "/data/b.lock" "/data/a.obs" "/data/b.obs" "pkg" "svc" 28
           detached_gives_up).
  - exact detached_gives_up_run.
  - reflexivity.
Defined.

(* ===================================================================== *)
(** * The files [doDaemon] touches *)
(* ===================================================================== *)

Lemma doDaemon_removes_twice iS iD oS oD pkg svc sdk code :
  at_most (doDaemon iS iD oS oD pkg svc sdk code) is_Remove 2.
Proof.
  unfold doDaemon.
  apply at_most_bind_r; [no_such_call | intros st].
  destruct (snd st =? 0); [apply at_most_Ret |].
  apply (@at_most_bind is_Remove _ _ _ _ 1%nat 1%nat).
  - unfold notifyAndWaitFor.
    apply at_most_bind_r; [no_such_call | intros fd0].
    apply at_most_bind_r; [no_such_call | intros []].
    apply at_most_bind_l; [apply at_most_trigger_1 | intros; no_such_call].
  - intros [].
    apply at_most_bind_r; [no_such_call | intros driverFD].
    apply at_most_bind_r; [no_such_call | intros []].
    apply at_most_bind_r; [no_such_call | intros amsHandle].
    cbv zeta.
    apply at_most_bind_r; [no_such_call | intros lockStatus].
    destruct (lockStatus =? 0); [apply at_most_Ret |].
    apply at_most_bind_r; [no_such_call | intros answer].
    apply at_most_bind_l; [apply at_most_trigger_1 | intros; no_such_call].
Qed.

Lemma removes_among_others paths path tr :
  Forall (removes_among paths) tr -> ~ In path paths ->
  count (removing path) tr = 0%nat.
Proof.
  intros H Hn. apply count_zero_Forall.
  eapply Forall_impl; [| exact H].
  intros [T e x] Hev. destruct e; try reflexivity.
  cbn in *. destruct (String.eqb_spec path0 path); [subst; contradiction | reflexivity].
Qed.

(** X15.  [doDaemon] deletes nothing but the two observer files, and calls
    [remove] twice at most.  A path that is neither of the two observer
    paths is never passed to [remove]: so it is with the indicator files
    the guard locks, as long as their paths differ from the observer
    paths. *)
Theorem doDaemon_removes_observers_only
        (indicatorSelfPath indicatorDaemonPath observerSelfPath observerDaemonPath
         packageName serviceName : string) (sdkVersion transactCode : Z)
        (tr : trace) (o : option unit) :
  run (doDaemon indicatorSelfPath indicatorDaemonPath
                observerSelfPath observerDaemonPath
                packageName serviceName sdkVersion transactCode) tr o ->
  Forall (removes_among [observerDaemonPath; observerSelfPath]) tr /\
  (count is_Remove tr <= 2)%nat /\
  (forall path,
      path <> observerSelfPath -> path <> observerDaemonPath ->
      count (removing path) tr = 0%nat) /\
  (indicatorSelfPath <> observerSelfPath ->
   indicatorSelfPath <> observerDaemonPath ->
   indicatorDaemonPath <> observerSelfPath ->
   indicatorDaemonPath <> observerDaemonPath ->
   count (removing indicatorSelfPath) tr = 0%nat /\
   count (removing indicatorDaemonPath) tr = 0%nat).
Proof.
  intros H.
  assert (Hall : Forall (removes_among [observerDaemonPath; observerSelfPath]) tr).
  { revert tr o H.
    change (always (doDaemon indicatorSelfPath indicatorDaemonPath
                             observerSelfPath observerDaemonPath
                             packageName serviceName sdkVersion transactCode)
                   (removes_among [observerDaemonPath; observerSelfPath])).
    every_call. }
  assert (Hothers : forall path,
             path <> observerSelfPath -> path <> observerDaemonPath ->
             count (removing path) tr = 0%nat).
  { intros path H1 H2. eapply removes_among_others; [exact Hall |].
    cbn. intros [E | [E | []]]; congruence. }
  split; [exact Hall |]. split; [| split; [exact Hothers |]].
  - eapply doDaemon_removes_twice; eauto.
  - intros H1 H2 H3 H4. split; apply Hothers; assumption.
Qed.

Lemma doDaemon_removes_observers_only_witness :
  Forall (removes_among ["/data/b.obs"; "/data/a.obs"])
         (until_detection ++ Ev (Flock 8 (Z.lor LOCK_EX LOCK_NB)) 0 :: after_detection) /\
  (count is_Remove
         (until_detection ++ Ev (Flock 8 (Z.lor LOCK_EX LOCK_NB)) 0%Z :: after_detection)
   <= 2)%nat /\
  (forall path,
      path <> "/data/a.obs" -> path <> "/data/b.obs" ->
      count (removing path)
            (until_detection ++ Ev (Flock 8 (Z.lor LOCK_EX LOCK_NB)) 0%Z
                             :: after_detection) = 0%nat) /\
  ("/data/a.lock" <> "/data/a.obs" ->
   "/data/a.lock" <> "/data/b.obs" ->
   "/data/b.lock" <> "/data/a.obs" ->
   "/data/b.lock" <> "/data/b.obs" ->
   count (removing "/data/a.lock")
         (until_detection ++ Ev (Flock 8 (Z.lor LOCK_EX LOCK_NB)) 0%Z
                          :: after_detection) = 0%nat /\
   count (removing "/data/b.lock")
         (until_detection ++ Ev (Flock 8 (Z.lor LOCK_EX LOCK_NB)) 0%Z
                          :: after_detection) = 0%nat).
Proof.
  apply (@doDaemon_removes_observers_only "/data/a.lock" "/data/b.lock"
           "/data/a.obs" "/data/b.obs" "pkg" "svc" 28 30 _ (Some tt)).
  exact detection_run.
Defined.

(** X16.  [doDaemon] never creates the observer file of its sibling: no [open]
    with [O_CREAT] and no [fopen] is ever made on that path, provided it
    differs from the own observer path and from both indicator paths.  The
    file a guard waits for in Syncing can only come from elsewhere. *)
Theorem doDaemon_leaves_sibling_observer
        (indicatorSelfPath indicatorDaemonPath observerSelfPath observerDaemonPath
         packageName serviceName : string) (sdkVersion transactCode : Z)
        (tr : trace) (o : option unit) :
  indicatorSelfPath <> observerDaemonPath ->
  observerSelfPath <> observerDaemonPath ->
  indicatorDaemonPath <> observerDaemonPath ->
  run (doDaemon indicatorSelfPath indicatorDaemonPath
                observerSelfPath observerDaemonPath
                packageName serviceName sdkVersion transactCode) tr o ->
  count (creating observerDaemonPath) tr = 0%nat.
Proof.
  intros H1 H2 H3 H.
  pose proof (@doDaemon_never_creates_sibling
                indicatorSelfPath indicatorDaemonPath
                observerSelfPath observerDaemonPath
                packageName serviceName sdkVersion transactCode
                (neq_eqb H1) (neq_eqb H2) (neq_eqb H3) _ _ H).
  lia.
Qed.

Lemma doDaemon_leaves_sibling_observer_witness :
  count (creating "/data/b.obs")
        (until_detection ++ Ev (Flock 8 (Z.lor LOCK_EX LOCK_NB)) 0%Z :: after_detection)
  = 0%nat.
Proof.
  apply (@doDaemon_leaves_sibling_observer "/data/a.lock" "/data/b.lock"
           "/data/a.obs" "/data/b.obs" "pkg" "svc" 28 30 _ (Some tt)).
  - discriminate.
  - discriminate.
  - discriminate.
  - exact detection_run.
Defined.

(* ===================================================================== *)
(** * One process on the kernel: composing executions *)
(* ===================================================================== *)

Lemma exec_observe {R : Type} fuel p (t t' : itree sysE R) w :
  observe t = observe t' -> exec fuel p t w = exec fuel p t' w.
Proof.
  intros E. destruct fuel as [| fuel]; [reflexivity |].
  cbn [exec]. rewrite E. reflexivity.
Qed.

Lemma exec_ret {R : Type} fuel p (t : itree sysE R) w r :
  observe t = RetF r -> exec (S fuel) p t w = ([], Returned r, w).
Proof. intros E. cbn [exec]. rewrite E. reflexivity. Qed.

Lemma exec_vis {R T : Type} fuel p (t : itree sysE R) (e : sysE T) k w x w1 :
  observe t = VisF e k -> os_call p e w = Some (x, w1) ->
  exec (S fuel) p t w =
  (Ev e x :: fst (fst (exec fuel p (k x) w1)),
   snd (fst (exec fuel p (k x) w1)),
   snd (exec fuel p (k x) w1)).
Proof.
  intros E Ec. cbn [exec]. rewrite E, Ec.
  destruct (exec fuel p (k x) w1) as [[tr o] w2]. reflexivity.
Qed.

Lemma exec_blocked {R T : Type} fuel p (t : itree sysE R) (e : sysE T) k w :
  observe t = VisF e k -> os_call p e w = None ->
  exec (S fuel) p t w = ([], Suspended e, w).
Proof. intros E Ec. cbn [exec]. rewrite E, Ec. reflexivity. Qed.

(** An execution that has come to rest is not changed by more fuel. *)
Lemma exec_more {R : Type} fuel p (t : itree sysE R) w tr o w' :
  exec fuel p t w = (tr, o, w') -> o <> Running ->
  forall more, exec (fuel + more) p t w = (tr, o, w').
Proof.
  revert t w tr o w'. induction fuel as [| fuel IH]; intros t w tr o w' H Ho more.
  - cbn in H. injection H as _ <- _. congruence.
  - cbn [exec Nat.add] in *. destruct (observe t) as [r | t' | X e k].
    + exact H.
    + apply IH; auto.
    + destruct (os_call p e w) as [[x w1] |]; [| exact H].
      destruct (exec fuel p (k x) w1) as [[tr1 o1] w2] eqn:Ee.
      injection H as <- <- <-.
      rewrite (IH _ _ _ _ _ Ee Ho more). reflexivity.
Qed.

(** Sequencing: the first part returns, the second goes on from the
    kernel state the first part left. *)
Lemma exec_bind {R U : Type} f1 f2 p (t : itree sysE R) (k : R -> itree sysE U)
      w tr1 r w1 tr2 o w2 :
  exec f1 p t w = (tr1, Returned r, w1) ->
  exec f2 p (k r) w1 = (tr2, o, w2) -> o <> Running ->
  exec (f1 + f2) p (ITree.bind t k) w = (tr1 ++ tr2, o, w2).
Proof.
  revert t w tr1. induction f1 as [| f1 IH]; intros t w tr1 H1 H2 Ho.
  - cbn in H1. discriminate.
  - cbn [exec] in H1. destruct (observe t) as [r0 | t' | X e ke] eqn:Ot.
    + injection H1 as <- <- <-.
      rewrite (@exec_observe _ _ p (ITree.bind t k) (k r0) w)
        by (rewrite observe_bind, Ot; reflexivity).
      rewrite Nat.add_comm. cbn [app]. apply exec_more; auto.
    + cbn [Nat.add exec]. rewrite observe_bind, Ot. cbn.
      apply IH; auto.
    + destruct (os_call p e w) as [[x w'] |] eqn:Ec; [| discriminate].
      destruct (exec f1 p (ke x) w') as [[tr1' o1] w1'] eqn:Ee.
      injection H1 as <- -> ->.
      cbn [Nat.add exec]. rewrite observe_bind, Ot. cbn. rewrite Ec.
      rewrite (IH _ _ _ Ee H2 Ho). reflexivity.
Qed.

Lemma exec_Ret {R : Type} fuel p (r : R) w :
  exec (S fuel) p (Ret r) w = ([], Returned r, w).
Proof. reflexivity. Qed.

Lemma exec_Tau {R : Type} fuel p (t : itree sysE R) w :
  exec (S fuel) p (Tau t) w = exec fuel p t w.
Proof. reflexivity. Qed.

Lemma exec_trigger {T : Type} fuel p (e : sysE T) w x w1 :
  os_call p e w = Some (x, w1) ->
  exec (S (S fuel)) p (ITree.trigger e) w = ([Ev e x], Returned x, w1).
Proof.
  intros Ec. erewrite exec_vis; [| reflexivity | exact Ec]. reflexivity.
Qed.

(** A call the kernel does not answer, and what was to follow it. *)
Lemma exec_trigger_blocked {T U : Type} fuel p (e : sysE T)
      (k : T -> itree sysE U) w :
  os_call p e w = None ->
  exec (S fuel) p (ITree.bind (ITree.trigger e) k) w = ([], Suspended e, w).
Proof.
  intros Ec. eapply exec_blocked; [cbn; reflexivity | exact Ec].
Qed.

(** Sequencing, when the second part does not come to rest either. *)
Lemma exec_bind_outcome {R U : Type} f1 f2 p (t : itree sysE R)
      (k : R -> itree sysE U) w tr1 r w1 :
  exec f1 p t w = (tr1, Returned r, w1) ->
  exists f,
    (f <= f1)%nat /\
    exec (f + f2) p (ITree.bind t k) w =
    (tr1 ++ fst (fst (exec f2 p (k r) w1)),
     snd (fst (exec f2 p (k r) w1)),
     snd (exec f2 p (k r) w1)).
Proof.
  revert t w tr1. induction f1 as [| f1 IH]; intros t w tr1 H1.
  - cbn in H1. discriminate.
  - cbn [exec] in H1. destruct (observe t) as [r0 | t' | X e ke] eqn:Ot.
    + injection H1 as <- <- <-. exists 0%nat. split; [lia |].
      rewrite (@exec_observe _ _ p (ITree.bind t k) (k r0) w)
        by (rewrite observe_bind, Ot; reflexivity).
      cbn [Nat.add app]. destruct (exec f2 p (k r0) w) as [[a b] c]. reflexivity.
    + destruct (IH _ _ _ H1) as (f & Hf & E).
      exists (S f). split; [lia |].
      cbn [Nat.add exec]. rewrite observe_bind, Ot. cbn. exact E.
    + destruct (os_call p e w) as [[x w'] |] eqn:Ec; [| discriminate].
      destruct (exec f1 p (ke x) w') as [[tr1' o1] w1'] eqn:Ee.
      injection H1 as <- -> ->.
      destruct (IH _ _ _ Ee) as (f & Hf & E).
      exists (S f). split; [lia |].
      cbn [Nat.add exec]. rewrite observe_bind, Ot. cbn. rewrite Ec, E.
      reflexivity.
Qed.

Section ExecWhile.

Context {St : Type} (cond : St -> itree sysE (bool * St))
        (body : St -> itree sysE St).

(** The loop ends when its condition fails. *)
Lemma exec_while_exit f p s w tr s1 w1 more :
  exec f p (cond s) w = (tr, Returned (false, s1), w1) ->
  exec (f + 2 + more) p (while cond body s) w = (tr, Returned s1, w1).
Proof.
  intros Hc.
  rewrite (@exec_observe _ _ p _ _ w (observe_while cond body s)).
  replace (f + 2 + more)%nat with ((f + 1) + (1 + more))%nat by lia.
  rewrite <- (app_nil_r tr).
  eapply exec_bind; [| | discriminate].
  - rewrite <- (app_nil_r tr).
    eapply exec_bind; [exact Hc | | discriminate].
    cbn [fst snd]. apply exec_Ret.
  - cbn. reflexivity.
Qed.

(** One round of the loop, and the loop again. *)
Lemma exec_while_iter f1 f2 f3 p s w tr1 s1 w1 tr2 s2 w2 tr3 o w3 :
  exec f1 p (cond s) w = (tr1, Returned (true, s1), w1) ->
  exec f2 p (body s1) w1 = (tr2, Returned s2, w2) ->
  exec f3 p (while cond body s2) w2 = (tr3, o, w3) -> o <> Running ->
  exec (f1 + (f2 + 1) + (1 + f3)) p (while cond body s) w =
  (tr1 ++ tr2 ++ tr3, o, w3).
Proof.
  intros Hc Hb Hw Ho.
  rewrite (@exec_observe _ _ p _ _ w (observe_while cond body s)).
  rewrite app_assoc.
  eapply exec_bind; [| | exact Ho].
  - eapply exec_bind; [exact Hc | | discriminate].
    cbn [fst snd]. rewrite <- (app_nil_r tr2).
    eapply exec_bind; [exact Hb | | discriminate].
    apply exec_Ret.
  - cbn [Nat.add]. rewrite exec_Tau. exact Hw.
Qed.

End ExecWhile.

(** The process groups change by [setsid] only. *)
Lemma os_call_group p T (e : sysE T) x w w' :
  os_call p e w = Some (x, w') -> is_Setsid (Ev e x) = false ->
  group w' = group w.
Proof.
  intros H Hs. destruct e; cbn [os_call] in H; try discriminate;
    try (injection H as _ <-; reflexivity).
  - unfold os_open, os_alloc, os_creat in H.
    destruct (names w path); [injection H as _ <-; reflexivity |].
    destruct (has_flag flags O_CREAT); injection H as _ <-; reflexivity.
  - unfold os_flock, set_holder in H.
    repeat match type of H with
           | context [match ?c with _ => _ end] => destruct c
           end;
      try discriminate; injection H as _ <-; reflexivity.
  - unfold os_remove in H.
    destruct (names w path); injection H as _ <-; reflexivity.
  - unfold os_open, os_alloc, os_creat in H.
    destruct (names w path); [injection H as _ <-; reflexivity |].
    change (has_flag O_CREAT O_CREAT) with true in H.
    injection H as _ <-. reflexivity.
  - unfold os_close, set_holder in H.
    repeat match type of H with
           | context [match ?c with _ => _ end] => destruct c
           end;
      injection H as _ <-; reflexivity.
  - change (os_call p (Killpg pgrp sig) w = Some (x, w')) in H.
    apply os_call_killpg_same in H. subst w'. reflexivity.
Qed.

Lemma exec_group {R : Type} fuel p (t : itree sysE R) w tr o w' :
  exec fuel p t w = (tr, o, w') -> count is_Setsid tr = 0%nat ->
  group w' = group w.
Proof.
  revert t w tr o. induction fuel as [| fuel IH]; intros t w tr o H Hc.
  - cbn in H. injection H as _ _ <-. reflexivity.
  - cbn [exec] in H. destruct (observe t) as [r | t' | X e k].
    + injection H as _ _ <-. reflexivity.
    + eapply IH; eauto.
    + destruct (os_call p e w) as [[x w1] |] eqn:Ec.
      * destruct (exec fuel p (k x) w1) as [[tr1 o1] w2] eqn:Ex.
        injection H as <- _ <-. rewrite count_cons in Hc.
        destruct (is_Setsid (Ev e x)) eqn:Es; [discriminate |].
        rewrite (IH _ _ _ _ Ex) by (cbn in Hc; lia).
        eapply os_call_group; eauto.
      * injection H as _ _ <-. reflexivity.
Qed.

(* ===================================================================== *)
(** * [lockFile] on the kernel *)
(* ===================================================================== *)

(** The opening sequence on a file that exists. *)
Lemma exec_openOrCreate_present p path w i fuel :
  0 < nextfd w -> names w path = Some i ->
  exec (3 + fuel) p (openOrCreate path) w =
  ([Ev (Open path (Z.lor O_RDONLY O_LARGEFILE) None) (nextfd w)],
   Returned (nextfd w), snd (os_alloc p i w)).
Proof.
  intros Hwf Hn. unfold openOrCreate, open2.
  change (3 + fuel)%nat with (2 + S fuel)%nat.
  change [Ev (Open path (Z.lor O_RDONLY O_LARGEFILE) None) (nextfd w)]
    with ([Ev (Open path (Z.lor O_RDONLY O_LARGEFILE) None) (nextfd w)] ++ []).
  eapply exec_bind.
  - apply exec_trigger. cbn [os_call]. unfold os_open. rewrite Hn. reflexivity.
  - assert (E : (nextfd w =? -1) = false) by (apply Z.eqb_neq; lia).
    rewrite E. apply exec_Ret.
  - discriminate.
Qed.

Lemma os_flock_refused p fd w i h :
  fdtab w p fd = Some i -> holder w i = Some h -> same_ofd h p fd = false ->
  os_flock p fd (Z.lor LOCK_EX LOCK_NB) w = Some (-1, w).
Proof.
  intros Hf Hh Hs. unfold os_flock. rewrite Hf. cbn. rewrite Hh, Hs. reflexivity.
Qed.

Lemma os_flock_granted p fd w i :
  fdtab w p fd = Some i -> holder w i = None ->
  os_flock p fd (Z.lor LOCK_EX LOCK_NB) w =
  Some (0, set_holder w i (Some (p, fd))).
Proof.
  intros Hf Hh. unfold os_flock. rewrite Hf. cbn. rewrite Hh. reflexivity.
Qed.

Lemma fdtab_os_alloc p i w :
  fdtab (snd (os_alloc p i w)) p (nextfd w) = Some i.
Proof. cbn. unfold set_fd. rewrite !Z.eqb_refl. reflexivity. Qed.

Lemma exec_lockFile_refused p path w i h fuel :
  0 < nextfd w -> names w path = Some i -> holder w i = Some h ->
  same_ofd h p (nextfd w) = false ->
  exec (6 + fuel) p (lockFile path) w =
  ([Ev (Open path (Z.lor O_RDONLY O_LARGEFILE) None) (nextfd w);
    Ev (Flock (nextfd w) (Z.lor LOCK_EX LOCK_NB)) (-1)],
   Returned 0, snd (os_alloc p i w)).
Proof.
  intros Hwf Hn Hh Hs. unfold lockFile, flock.
  change (6 + fuel)%nat with (3 + (3 + fuel))%nat.
  change [Ev (Open path (Z.lor O_RDONLY O_LARGEFILE) None) (nextfd w);
          Ev (Flock (nextfd w) (Z.lor LOCK_EX LOCK_NB)) (-1)]
    with ([Ev (Open path (Z.lor O_RDONLY O_LARGEFILE) None) (nextfd w)] ++
          [Ev (Flock (nextfd w) (Z.lor LOCK_EX LOCK_NB)) (-1)] ++ []).
  eapply exec_bind; [apply (@exec_openOrCreate_present p path w i 0 Hwf Hn) | | discriminate].
  assert (E : (nextfd w =? -1) = false) by (apply Z.eqb_neq; lia).
  rewrite E.
  change (3 + fuel)%nat with (2 + S fuel)%nat.
  eapply exec_bind.
  - apply exec_trigger. cbn [os_call].
    eapply os_flock_refused; [apply fdtab_os_alloc | exact Hh | exact Hs].
  - reflexivity.
  - discriminate.
Qed.

Lemma exec_lockFile_granted p path w i fuel :
  0 < nextfd w -> names w path = Some i -> holder w i = None ->
  exec (6 + fuel) p (lockFile path) w =
  ([Ev (Open path (Z.lor O_RDONLY O_LARGEFILE) None) (nextfd w);
    Ev (Flock (nextfd w) (Z.lor LOCK_EX LOCK_NB)) 0],
   Returned 1,
   set_holder (snd (os_alloc p i w)) i (Some (p, nextfd w))).
Proof.
  intros Hwf Hn Hh. unfold lockFile, flock.
  change (6 + fuel)%nat with (3 + (3 + fuel))%nat.
  change [Ev (Open path (Z.lor O_RDONLY O_LARGEFILE) None) (nextfd w);
          Ev (Flock (nextfd w) (Z.lor LOCK_EX LOCK_NB)) 0]
    with ([Ev (Open path (Z.lor O_RDONLY O_LARGEFILE) None) (nextfd w)] ++
          [Ev (Flock (nextfd w) (Z.lor LOCK_EX LOCK_NB)) 0] ++ []).
  eapply exec_bind; [apply (@exec_openOrCreate_present p path w i 0 Hwf Hn) | | discriminate].
  assert (E : (nextfd w =? -1) = false) by (apply Z.eqb_neq; lia).
  rewrite E.
  change (3 + fuel)%nat with (2 + S fuel)%nat.
  eapply exec_bind.
  - apply exec_trigger. cbn [os_call].
    eapply os_flock_granted; [apply fdtab_os_alloc | exact Hh].
  - reflexivity.
  - discriminate.
Qed.

Lemma same_ofd_other h p fd w :
  fst h <> p \/ snd h < nextfd w -> nextfd w <= fd -> same_ofd h p fd = false.
Proof.
  intros [H | H] Hfd; unfold same_ofd.
  - apply Z.eqb_neq in H. rewrite H. reflexivity.
  - assert (E : (snd h =? fd) = false) by (apply Z.eqb_neq; lia).
    rewrite E. apply andb_false_r.
Qed.

(** X17.  On the kernel, [lockFile] on a file whose lock is held by another
    open file description is refused at once, be the holder another
    process or an earlier descriptor of the calling process itself:
    [lockFile] opens the file anew, is answered -1 by [flock], and returns
    0; the lock stays with its holder. *)
Theorem lockFile_refused_while_held
        (p : Z) (path : string) (w : world) (i : nat) (q d : Z) (fuel : nat) :
  0 < nextfd w -> names w path = Some i -> holder w i = Some (q, d) ->
  q <> p \/ d < nextfd w ->
  exists w',
    exec (6 + fuel) p (lockFile path) w =
    ([Ev (Open path (Z.lor O_RDONLY O_LARGEFILE) None) (nextfd w);
      Ev (Flock (nextfd w) (Z.lor LOCK_EX LOCK_NB)) (-1)],
     Returned 0, w') /\
    holder w' i = Some (q, d).
Proof.
  intros Hwf Hn Hh Hq. eexists. split.
  - eapply exec_lockFile_refused; eauto.
    apply (@same_ofd_other (q, d) p (nextfd w) w); [exact Hq | lia].
  - exact Hh.
Qed.

Lemma lockFile_refused_while_held_witness :
  exists w',
    exec (6 + 0) 1 (lockFile "/data/b.lock") sibling_alive =
    ([Ev (Open "/data/b.lock" (Z.lor O_RDONLY O_LARGEFILE) None) (nextfd sibling_alive);
      Ev (Flock (nextfd sibling_alive) (Z.lor LOCK_EX LOCK_NB)) (-1)],
     Returned 0, w') /\
    holder w' 0%nat = Some (2, 3).
Proof.
  apply (@lockFile_refused_while_held 1 "/data/b.lock" sibling_alive 0%nat 2 3 0%nat).
  - vm_compute. reflexivity.
  - vm_compute. reflexivity.
  - vm_compute. reflexivity.
  - left. lia.
Defined.

(** X18.  On the kernel, the death of the process that holds the lock is what
    [lockFile] detects: once the holder has died, [lockFile] by another
    process is granted the lock and returns 1. *)
Theorem lockFile_after_death
        (p : Z) (path : string) (w : world) (i : nat) (q d : Z) (fuel : nat) :
  0 < nextfd w -> names w path = Some i -> holder w i = Some (q, d) ->
  q <> p ->
  exists w',
    exec (6 + fuel) p (lockFile path) (die q w) =
    ([Ev (Open path (Z.lor O_RDONLY O_LARGEFILE) None) (nextfd w);
      Ev (Flock (nextfd w) (Z.lor LOCK_EX LOCK_NB)) 0],
     Returned 1, w') /\
    holder w' i = Some (p, nextfd w).
Proof.
  intros Hwf Hn Hh _. eexists. split.
  - apply (@exec_lockFile_granted p path (die q w) i fuel); cbn; auto.
    rewrite Hh. cbn. rewrite Z.eqb_refl. reflexivity.
  - cbn. rewrite Nat.eqb_refl. reflexivity.
Qed.

Lemma lockFile_after_death_witness :
  exists w',
    exec (6 + 0) 1 (lockFile "/data/b.lock") (die 2 sibling_alive) =
    ([Ev (Open "/data/b.lock" (Z.lor O_RDONLY O_LARGEFILE) None) (nextfd sibling_alive);
      Ev (Flock (nextfd sibling_alive) (Z.lor LOCK_EX LOCK_NB)) 0],
     Returned 1, w') /\
    holder w' 0%nat = Some (1, nextfd sibling_alive).
Proof.
  apply (@lockFile_after_death 1 "/data/b.lock" sibling_alive 0%nat 2 3 0%nat).
  - vm_compute. reflexivity.
  - vm_compute. reflexivity.
  - vm_compute. reflexivity.
  - lia.
Defined.

(** X19.  On the kernel, [waitForFileLock] on a file whose lock is held by
    another open file description makes one non-blocking attempt, which is
    refused, and is then suspended in the blocking [flock]: this is the
    wait the function is documented to perform. *)
Theorem waitForFileLock_waits_while_held
        (p : Z) (path : string) (w : world) (i : nat) (q d : Z) (fuel : nat) :
  0 < nextfd w -> names w path = Some i -> holder w i = Some (q, d) ->
  q <> p \/ d < nextfd w ->
  exists w',
    exec (9 + fuel) p (waitForFileLock path) w =
    ([Ev (Open path (Z.lor O_RDONLY O_LARGEFILE) None) (nextfd w);
      Ev (Flock (nextfd w) (Z.lor LOCK_EX LOCK_NB)) (-1)],
     Suspended (Flock (nextfd w) LOCK_EX), w') /\
    holder w' i = Some (q, d).
Proof.
  intros Hwf Hn Hh Hq.
  assert (Hs : same_ofd (q, d) p (nextfd w) = false).
  { apply (@same_ofd_other (q, d) p (nextfd w) w); [exact Hq | lia]. }
  exists (snd (os_alloc p i w)). split; [| exact Hh].
  unfold waitForFileLock.
  change (9 + fuel)%nat with (3 + (3 + 2 + 0 + (S fuel)))%nat.
  change [Ev (Open path (Z.lor O_RDONLY O_LARGEFILE) None) (nextfd w);
          Ev (Flock (nextfd w) (Z.lor LOCK_EX LOCK_NB)) (-1)]
    with ([Ev (Open path (Z.lor O_RDONLY O_LARGEFILE) None) (nextfd w)] ++
          [Ev (Flock (nextfd w) (Z.lor LOCK_EX LOCK_NB)) (-1)] ++ []).
  eapply exec_bind; [apply (@exec_openOrCreate_present p path w i 0 Hwf Hn) | | discriminate].
  eapply exec_bind; [| | discriminate].
  - apply exec_while_exit.
    rewrite <- (app_nil_r [Ev (Flock (nextfd w) (Z.lor LOCK_EX LOCK_NB)) (-1)]).
    change 3%nat with (2 + 1)%nat.
    eapply exec_bind.
    + apply exec_trigger. cbn [os_call].
      eapply os_flock_refused; [apply fdtab_os_alloc | exact Hh | exact Hs].
    + reflexivity.
    + discriminate.
  - unfold flock. apply exec_trigger_blocked.
    cbn [os_call]. unfold os_flock. rewrite fdtab_os_alloc. cbn.
    rewrite Hh, Hs. reflexivity.
Qed.

Lemma waitForFileLock_waits_while_held_witness :
  exists w',
    exec (9 + 0) 1 (waitForFileLock "/data/b.lock") sibling_alive =
    ([Ev (Open "/data/b.lock" (Z.lor O_RDONLY O_LARGEFILE) None) (nextfd sibling_alive);
      Ev (Flock (nextfd sibling_alive) (Z.lor LOCK_EX LOCK_NB)) (-1)],
     Suspended (Flock (nextfd sibling_alive) LOCK_EX), w') /\
    holder w' 0%nat = Some (2, 3).
Proof.
  apply (@waitForFileLock_waits_while_held 1 "/data/b.lock" sibling_alive 0%nat 2 3 0%nat).
  - vm_compute. reflexivity.
  - vm_compute. reflexivity.
  - vm_compute. reflexivity.
  - left. lia.
Defined.

(* ===================================================================== *)
(** * [createFileIfNotExist] on the kernel *)
(* ===================================================================== *)

Lemma os_open_creat p path w :
  exists ino,
    os_open p path O_CREAT w =
    (nextfd w,
     snd (os_alloc p ino (match names w path with
                          | Some _ => w
                          | None => snd (os_creat path w)
                          end))) /\
    (forall j, names w path = Some j -> ino = j).
Proof.
  unfold os_open. destruct (names w path) as [j |] eqn:En.
  - exists j. split; [reflexivity | congruence].
  - exists (inodes w). split; [reflexivity | discriminate].
Qed.

(** X20.  On the kernel, [createFileIfNotExist] makes the file exist and leaves
    everything else in the directory as it was: an absent file is created,
    a file that exists keeps its identity, and the descriptor used is
    closed again. *)
Theorem createFileIfNotExist_on_kernel
        (p : Z) (path : string) (w : world) (fuel : nat) :
  0 < nextfd w ->
  exists w',
    exec (5 + fuel) p (createFileIfNotExist path) w =
    ([Ev (Fopen path "ab+") (nextfd w); Ev (Fclose (nextfd w)) 0],
     Returned tt, w') /\
    names w' path <> None /\
    (names w path <> None -> names w' path = names w path) /\
    (forall other, other <> path -> names w' other = names w other) /\
    fdtab w' p (nextfd w) = None.
Proof.
  intros Hwf.
  destruct (@os_open_creat p path w) as (ino & Eo & Hino).
  set (w0 := match names w path with
             | Some _ => w
             | None => snd (os_creat path w)
             end) in *.
  set (w1 := snd (os_alloc p ino w0)) in *.
  assert (Hnf : nextfd w0 = nextfd w).
  { unfold w0. destruct (names w path); reflexivity. }
  assert (Hfd : fdtab w1 p (nextfd w) = Some ino).
  { unfold w1. rewrite <- Hnf. apply fdtab_os_alloc. }
  destruct (os_close p (nextfd w) w1) as [x w2] eqn:Ec.
  assert (Hx : x = 0 /\ names w2 = names w1 /\ fdtab w2 p (nextfd w) = None).
  { pose proof (os_close_names _ _ _ Ec) as [En _].
    unfold os_close in Ec. rewrite Hfd in Ec. injection Ec as <- <-.
    split; [reflexivity |]. split; [exact En |].
    cbn. unfold set_fd. rewrite !Z.eqb_refl. reflexivity. }
  destruct Hx as (-> & Hn2 & Hf2).
  exists w2. split; [| split; [| split; [| split]]].
  - unfold createFileIfNotExist.
    change (5 + fuel)%nat with (2 + (2 + S fuel))%nat.
    change [Ev (Fopen path "ab+") (nextfd w); Ev (Fclose (nextfd w)) 0]
      with ([Ev (Fopen path "ab+") (nextfd w)] ++ [Ev (Fclose (nextfd w)) 0] ++ []).
    eapply exec_bind; [apply exec_trigger; cbn [os_call]; rewrite Eo; reflexivity | | discriminate].
    assert (E : (nextfd w =? 0) = false) by (apply Z.eqb_neq; lia).
    rewrite E.
    eapply exec_bind; [apply exec_trigger; cbn [os_call]; rewrite Ec; reflexivity | | discriminate].
    apply exec_Ret.
  - rewrite Hn2. unfold w1, w0. destruct (names w path) eqn:En; cbn.
    + congruence.
    + rewrite String.eqb_refl. discriminate.
  - intros Hex. rewrite Hn2. unfold w1, w0.
    destruct (names w path) eqn:En; [cbn; exact En | congruence].
  - intros other Hne. rewrite Hn2. unfold w1, w0.
    destruct (names w path) eqn:En; cbn; [reflexivity |].
    apply String.eqb_neq in Hne. rewrite Hne. reflexivity.
  - exact Hf2.
Qed.

Lemma createFileIfNotExist_on_kernel_witness :
  exists w',
    exec (5 + 0) 1 (createFileIfNotExist "/data/a.lock-c") (boot emptyParcel) =
    ([Ev (Fopen "/data/a.lock-c" "ab+") (nextfd (boot emptyParcel));
      Ev (Fclose (nextfd (boot emptyParcel))) 0],
     Returned tt, w') /\
    names w' "/data/a.lock-c" <> None /\
    (names (boot emptyParcel) "/data/a.lock-c" <> None ->
     names w' "/data/a.lock-c" = names (boot emptyParcel) "/data/a.lock-c") /\
    (forall other, other <> "/data/a.lock-c" ->
                   names w' other = names (boot emptyParcel) other) /\
    fdtab w' 1 (nextfd (boot emptyParcel)) = None.
Proof.
  apply (@createFileIfNotExist_on_kernel 1 "/data/a.lock-c" (boot emptyParcel) 0%nat).
  cbn. lia.
Defined.

(* ===================================================================== *)
(** * LockingSelf on the kernel *)
(* ===================================================================== *)

Lemma exec_lockingSelf_refused p path i q d k :
  forall c w,
    c + Z.of_nat k = 5 ->
    0 < nextfd w -> names w path = Some i -> holder w i = Some (q, d) ->
    q <> p \/ d < nextfd w ->
    exists f w',
      (forall more,
          exec (f + more) p
               (while (fun st : Z * Z =>
                         let (tryCount, lockStatus) := st in
                         if tryCount <? 5 then
                           lockStatus <- lockFile path ;;
                           Ret (lockStatus =? 0, (tryCount, lockStatus))
                         else Ret (false, (tryCount, lockStatus)))
                      (fun st : Z * Z =>
                         let (tryCount, lockStatus) := st in
                         usleep 10000 ;;
                         Ret (tryCount + 1, lockStatus))
                      (c, 0)) w =
          (refused_from path (nextfd w) k, Returned (5, 0), w')) /\
      names w' = names w /\ holder w' = holder w.
Proof.
  induction k as [| k IH]; intros c w Hc Hwf Hn Hh Hq.
  - assert (c = 5) by lia. subst c.
    exists 3%nat, w. split; [| auto]. intros more.
    change (3 + more)%nat with (1 + 2 + more)%nat.
    apply exec_while_exit. reflexivity.
  - assert (Hlt : (c <? 5) = true) by (apply Z.ltb_lt; lia).
    set (w1 := snd (os_alloc p i w)).
    destruct (IH (c + 1) w1) as (f & w' & He & Hn' & Hh'); auto.
    + lia.
    + cbn. lia.
    + cbn. destruct Hq; [auto | right; lia].
    + exists (7 + (3 + 1) + (1 + f))%nat, w'. split; [| auto].
      intros more.
      replace (7 + (3 + 1) + (1 + f) + more)%nat
        with (7 + (3 + 1) + (1 + (f + more)))%nat by lia.
      change (refused_from path (nextfd w) (S k))
        with ([Ev (Open path (Z.lor O_RDONLY O_LARGEFILE) None) (nextfd w);
               Ev (Flock (nextfd w) (Z.lor LOCK_EX LOCK_NB)) (-1)] ++
              [Ev (Usleep 10000) tt] ++ refused_from path (nextfd w + 1) k).
      eapply exec_while_iter.
      * cbv beta iota. rewrite Hlt.
        rewrite <- (app_nil_r [_; _]).
        change 7%nat with (6 + 0 + 1)%nat.
        eapply exec_bind; [| | discriminate].
        -- eapply exec_lockFile_refused; eauto.
           apply (@same_ofd_other (q, d) p (nextfd w) w); [exact Hq | lia].
        -- reflexivity.
      * cbv beta iota. unfold usleep.
        rewrite <- (app_nil_r [_]).
        change 3%nat with (2 + 1)%nat.
        eapply exec_bind; [apply exec_trigger; reflexivity | | discriminate].
        reflexivity.
      * apply He.
      * discriminate.
Qed.

(** X21.  On the kernel, a guard whose own indicator file is locked by another
    open file description, of a guard that is still alive or of an earlier
    [lockFile] of the same process, gives up: [doDaemon] makes its five
    attempts, each on a fresh descriptor and each followed by the backoff,
    and returns.  It has created and removed nothing, and the lock is
    where it was. *)
Theorem doDaemon_gives_up_while_locked
        (p : Z) (indicatorSelfPath indicatorDaemonPath
                 observerSelfPath observerDaemonPath
                 packageName serviceName : string)
        (sdkVersion transactCode : Z) (w : world) (i : nat) (q d : Z) :
  0 < nextfd w -> names w indicatorSelfPath = Some i ->
  holder w i = Some (q, d) -> q <> p \/ d < nextfd w ->
  exists fuel w',
    (forall more,
        exec (fuel + more) p
             (doDaemon indicatorSelfPath indicatorDaemonPath
                       observerSelfPath observerDaemonPath
                       packageName serviceName sdkVersion transactCode) w =
        (refused_from indicatorSelfPath (nextfd w) 5, Returned tt, w')) /\
    names w' = names w /\ holder w' = holder w.
Proof.
  intros Hwf Hn Hh Hq.
  destruct (@exec_lockingSelf_refused p indicatorSelfPath i q d 5 0 w)
    as (f & w' & He & Hn' & Hh'); auto.
  exists (f + 1)%nat, w'. split; [| auto].
  intros more. unfold doDaemon.
  rewrite <- (app_nil_r (refused_from _ _ _)).
  replace (f + 1 + more)%nat with ((f + 0) + (S more))%nat by lia.
  eapply exec_bind; [apply He | | discriminate].
  reflexivity.
Qed.

Lemma doDaemon_gives_up_while_locked_witness :
  exists fuel w',
    (forall more,
        exec (fuel + more) 1
             (doDaemon "/data/b.lock" "/data/a.lock" "/data/b.obs" "/data/a.obs"
                       "pkg" "svc" 28 30) sibling_alive =
        (refused_from "/data/b.lock" (nextfd sibling_alive) 5, Returned tt, w')) /\
    names w' = names sibling_alive /\ holder w' = holder sibling_alive.
Proof.
  apply (@doDaemon_gives_up_while_locked 1 "/data/b.lock" "/data/a.lock"
           "/data/b.obs" "/data/a.obs" "pkg" "svc" 28 30 sibling_alive 0%nat 2 3).
  - vm_compute. reflexivity.
  - vm_compute. reflexivity.
  - vm_compute. reflexivity.
  - left. lia.
Defined.

(* ===================================================================== *)
(** * The kernel side: what stays *)
(* ===================================================================== *)

Lemma os_open_result q path flags w fd w' :
  os_open q path flags w = (fd, w') -> fd <> -1 ->
  exists i,
    names w' path = Some i /\ fdtab w' q fd = Some i /\
    fd = nextfd w /\ nextfd w' = nextfd w + 1 /\
    (forall j, names w path = Some j -> i = j).
Proof.
  unfold os_open, os_alloc, os_creat. intros H Hfd.
  destruct (names w path) as [j |] eqn:En.
  - injection H as <- <-. exists j. cbn. unfold set_fd. rewrite !Z.eqb_refl.
    repeat split; auto. congruence.
  - destruct (has_flag flags O_CREAT).
    + injection H as <- <-. exists (inodes w). cbn. unfold set_fd.
      rewrite !Z.eqb_refl, String.eqb_refl. repeat split; auto. discriminate.
    + injection H as <- _. congruence.
Qed.

Lemma os_open_keeps q path flags w fd w' :
  os_open q path flags w = (fd, w') ->
  holder w' = holder w /\ nextfd w <= nextfd w' /\
  (forall p d, d < nextfd w -> fdtab w' p d = fdtab w p d) /\
  (forall other i, names w other = Some i -> names w' other = Some i).
Proof.
  unfold os_open, os_alloc, os_creat. intros H.
  assert (A : forall p d, d < nextfd w ->
              set_fd w q (nextfd w) (fdtab w q (nextfd w)) p d = fdtab w p d).
  { intros p d Hd. unfold set_fd.
    destruct ((p =? q) && (d =? nextfd w)) eqn:E; [| reflexivity].
    apply andb_prop in E. destruct E as [E1 E2]. Zbool. subst. reflexivity. }
  destruct (names w path) as [j |] eqn:En.
  - injection H as <- <-. cbn. repeat split; auto; try lia.
    intros p d Hd. unfold set_fd.
    destruct ((p =? q) && (d =? nextfd w)) eqn:E; [| reflexivity].
    apply andb_prop in E. destruct E as [_ E2]. Zbool. lia.
  - destruct (has_flag flags O_CREAT).
    + injection H as <- <-. cbn. repeat split; auto; try lia.
      * intros p d Hd. unfold set_fd. cbn.
        destruct ((p =? q) && (d =? nextfd w)) eqn:E; [| reflexivity].
        apply andb_prop in E. destruct E as [_ E2]. Zbool. lia.
      * intros other i Ho. destruct (String.eqb_spec other path); [| exact Ho].
        subst. congruence.
    + injection H as <- <-. repeat split; auto; lia.
Qed.

Lemma same_ofd_eq h p fd : same_ofd h p fd = true -> h = (p, fd).
Proof.
  unfold same_ofd. intros H. apply andb_prop in H. destruct H as [H1 H2].
  Zbool. destruct h. cbn in *. congruence.
Qed.

(** A lock stays with its holder as long as the holder is [steady]. *)
Lemma os_call_steady_holder p fd i q T (e : sysE T) x w w1 :
  os_call q e w = Some (x, w1) -> steady p (Call q (Ev e x)) ->
  holder w i = Some (p, fd) -> holder w1 i = Some (p, fd).
Proof.
  intros H Hs Hh.
  destruct e; cbn [os_call] in H; try discriminate;
    try (injection H as _ <-; exact Hh).
  - (* open *)
    destruct (os_open q path flags w) as [fd' w'] eqn:Eo.
    injection H as _ <-. apply os_open_keeps in Eo. destruct Eo as [-> _]. exact Hh.
  - (* flock *)
    unfold os_flock in H.
    destruct (fdtab w q fd0) as [ino |]; [| injection H as _ <-; exact Hh].
    destruct (Z.land operation (Z.lor LOCK_EX LOCK_UN) =? LOCK_UN) eqn:Eun.
    + destruct (holder w ino) as [h |] eqn:Ehi; [| injection H as _ <-; exact Hh].
      destruct (same_ofd h q fd0) eqn:Eso; [| injection H as _ <-; exact Hh].
      injection H as _ <-. cbn.
      destruct (Nat.eqb_spec i ino) as [-> | Hne]; [| exact Hh].
      exfalso. apply same_ofd_eq in Eso. subst h.
      assert (E : (q, fd0) = (p, fd)) by congruence.
      injection E as -> ->.
      cbn in Hs. specialize (Hs eq_refl).
      apply negb_false_iff in Hs. Zbool. subst operation. discriminate.
    + destruct (Z.land operation (Z.lor LOCK_EX LOCK_UN) =? LOCK_EX).
      * destruct (holder w ino) as [h |] eqn:Ehi.
        -- destruct (same_ofd h q fd0); [injection H as _ <-; exact Hh |].
           destruct (has_flag operation LOCK_NB); [| discriminate].
           injection H as _ <-. exact Hh.
        -- injection H as _ <-. cbn.
           destruct (Nat.eqb_spec i ino) as [-> | Hne]; [congruence | exact Hh].
      * injection H as _ <-. exact Hh.
  - (* remove *)
    unfold os_remove in H. destruct (names w path); injection H as _ <-; exact Hh.
  - (* fopen *)
    destruct (os_open q path O_CREAT w) as [fd' w'] eqn:Eo.
    injection H as _ <-. apply os_open_keeps in Eo. destruct Eo as [-> _]. exact Hh.
  - (* fclose *)
    unfold os_close in H.
    destruct (fdtab w q fp) as [ino |]; [| injection H as _ <-; exact Hh].
    destruct (holder w ino) as [h |] eqn:Ehi; [| injection H as _ <-; exact Hh].
    destruct (same_ofd h q fp) eqn:Eso; [| injection H as _ <-; exact Hh].
    injection H as _ <-. cbn.
    destruct (Nat.eqb_spec i ino) as [-> | Hne]; [| exact Hh].
    exfalso. apply same_ofd_eq in Eso. subst h.
    assert (E : (q, fp) = (p, fd)) by congruence.
    injection E as -> ->.
    cbn in Hs. specialize (Hs eq_refl). discriminate.
  - (* killpg *)
    change (os_call q (Killpg pgrp sig) w = Some (x, w1)) in H.
    apply os_call_killpg_same in H. subst w1. exact Hh.
  - (* setsid *)
    destruct (os_setsid q w) as [r w'] eqn:Es.
    injection H as _ <-. apply os_setsid_keeps in Es.
    destruct Es as (_ & _ & _ & _ & Eh & _). rewrite Eh. exact Hh.
Qed.

Lemma replay_steady_holder p fd i w l w' :
  replay w l w' -> Forall (steady p) l ->
  holder w i = Some (p, fd) -> holder w' i = Some (p, fd).
Proof.
  induction 1 as [w | w q T e x w1 l w2 Ha Hc Hr IH | w q l w2 Hr IH];
    intros Hall Hh.
  - exact Hh.
  - inversion Hall as [| ? ? Hs Hall']; subst.
    apply IH; [exact Hall' |].
    eapply os_call_steady_holder; eauto.
  - inversion Hall as [| ? ? Hs Hall']; subst.
    apply IH; [exact Hall' |].
    cbn in Hs. cbn. rewrite Hh. cbn.
    assert (E : (p =? q) = false) by (apply Z.eqb_neq; congruence).
    rewrite E. reflexivity.
Qed.

(** So does a descriptor. *)
Lemma os_call_steady_fd p fd i q T (e : sysE T) x w w1 :
  os_call q e w = Some (x, w1) -> steady p (Call q (Ev e x)) ->
  fdtab w p fd = Some i -> fd < nextfd w ->
  fdtab w1 p fd = Some i /\ fd < nextfd w1.
Proof.
  intros H Hs Hf Hlt.
  destruct e; cbn [os_call] in H; try discriminate;
    try solve [injection H as _ <-; auto].
  - destruct (os_open q path flags w) as [fd' w'] eqn:Eo.
    injection H as _ <-. apply os_open_keeps in Eo.
    destruct Eo as (_ & Hn & Hfd & _). rewrite (Hfd _ _ Hlt). split; [exact Hf | lia].
  - assert (E : fdtab w1 = fdtab w /\ nextfd w1 = nextfd w).
    { unfold os_flock, set_holder in H.
      repeat match type of H with
             | context [match ?c with _ => _ end] => destruct c
             end;
        try discriminate; injection H as _ <-; auto. }
    destruct E as [-> ->]. auto.
  - unfold os_remove in H. destruct (names w path); injection H as _ <-; auto.
  - destruct (os_open q path O_CREAT w) as [fd' w'] eqn:Eo.
    injection H as _ <-. apply os_open_keeps in Eo.
    destruct Eo as (_ & Hn & Hfd & _). rewrite (Hfd _ _ Hlt). split; [exact Hf | lia].
  - cbn in Hs.
    assert (Hq : q <> p) by (intros ->; specialize (Hs eq_refl); discriminate).
    assert (E : fdtab w1 p fd = fdtab w p fd /\ nextfd w1 = nextfd w).
    { unfold os_close, set_holder in H.
      assert (Ep : (p =? q) = false) by (apply Z.eqb_neq; congruence).
      repeat match type of H with
             | context [match ?c with _ => _ end] => destruct c
             end;
        injection H as _ <-; cbn; unfold set_fd; rewrite ?Ep; auto. }
    destruct E as [-> ->]. auto.
  - change (os_call q (Killpg pgrp sig) w = Some (x, w1)) in H.
    apply os_call_killpg_same in H. subst w1. auto.
  - destruct (os_setsid q w) as [r w'] eqn:Es.
    injection H as _ <-. apply os_setsid_keeps in Es.
    destruct Es as (_ & _ & Ef & Ex & _). rewrite Ef, Ex. auto.
  - unfold os_driver in H. injection H as _ <-. cbn. split; [exact Hf | lia].
Qed.

Lemma replay_steady_fd p fd i w l w' :
  replay w l w' -> Forall (steady p) l ->
  fdtab w p fd = Some i -> fd < nextfd w ->
  fdtab w' p fd = Some i /\ fd < nextfd w'.
Proof.
  induction 1 as [w | w q T e x w1 l w2 Ha Hc Hr IH | w q l w2 Hr IH];
    intros Hall Hf Hlt.
  - auto.
  - inversion Hall as [| ? ? Hs Hall']; subst.
    destruct (@os_call_steady_fd p fd i q T e x w w1 Hc Hs Hf Hlt) as [Hf1 Hlt1].
    apply IH; auto.
  - inversion Hall as [| ? ? Hs Hall']; subst.
    apply IH; auto. cbn in Hs. cbn.
    assert (E : (p =? q) = false) by (apply Z.eqb_neq; congruence).
    rewrite E. exact Hf.
Qed.

(** And so does a name that nobody removes. *)
Lemma os_call_name_stays path i q T (e : sysE T) x w w1 :
  os_call q e w = Some (x, w1) -> removing path (Ev e x) = false ->
  names w path = Some i -> names w1 path = Some i.
Proof.
  intros H Hr Hn.
  destruct e; cbn [os_call] in H; try discriminate;
    try (injection H as _ <-; exact Hn).
  - destruct (os_open q path0 flags w) as [fd' w'] eqn:Eo.
    injection H as _ <-. apply os_open_keeps in Eo.
    destruct Eo as (_ & _ & _ & Hk). auto.
  - apply os_flock_names in H. destruct H as [-> _]. exact Hn.
  - unfold os_remove in H. cbn in Hr.
    destruct (names w path0); injection H as _ <-; [cbn | exact Hn].
    rewrite String.eqb_sym, Hr. exact Hn.
  - destruct (os_open q path0 O_CREAT w) as [fd' w'] eqn:Eo.
    injection H as _ <-. apply os_open_keeps in Eo.
    destruct Eo as (_ & _ & _ & Hk). auto.
  - destruct (os_close q fp w) as [r w'] eqn:Ec.
    injection H as _ <-. apply os_close_names in Ec. destruct Ec as [-> _]. exact Hn.
  - change (os_call q (Killpg pgrp sig) w = Some (x, w1)) in H.
    apply os_call_killpg_same in H. subst w1. exact Hn.
  - destruct (os_setsid q w) as [r w'] eqn:Es.
    injection H as _ <-. apply os_setsid_keeps in Es.
    destruct Es as (En & _). rewrite En. exact Hn.
Qed.

Lemma replay_name_stays path i w l w' :
  replay w l w' -> count (removing path) (events l) = 0%nat ->
  names w path = Some i -> names w' path = Some i.
Proof.
  induction 1 as [w | w q T e x w1 l w2 Ha Hc Hr IH | w q l w2 Hr IH];
    intros Hz Hn.
  - exact Hn.
  - cbn [events] in Hz. rewrite count_cons in Hz.
    destruct (removing path (Ev e x)) eqn:E; [discriminate |].
    apply IH; [exact Hz |]. eapply os_call_name_stays; eauto.
  - apply IH; [exact Hz | exact Hn].
Qed.

(* ===================================================================== *)
(** * A monitored pair: no revival while both guards live *)
(* ===================================================================== *)

Lemma doDaemon_keeps iS iD oS oD pkg svc sdk code :
  at_most (doDaemon iS iD oS oD pkg svc sdk code) lets_go 0.
Proof. unfold doDaemon. no_such_call. Qed.

Lemma doDaemon_keeps_indicator iS iD oS oD pkg svc sdk code path :
  String.eqb oS path = false -> String.eqb oD path = false ->
  at_most (doDaemon iS iD oS oD pkg svc sdk code) (removing path) 0.
Proof. intros H1 H2. unfold doDaemon. no_such_call. Qed.

(** A process that runs a program without such calls, and does not die,
    is [steady] all through the log. *)
Lemma steady_of_run {R : Type} p (t : itree sysE R) log o :
  run t (calls_of p log) o -> at_most t lets_go 0 -> ~ In (Death p) log ->
  Forall (steady p) log.
Proof.
  intros H Ht Hd. apply Ht in H.
  assert (Hz : count lets_go (calls_of p log) = 0%nat) by lia.
  apply Forall_forall. intros [q ev | q] Hin; cbn.
  - intros ->. apply In_calls_of in Hin. eapply count_zero_In; eauto.
  - intros ->. contradiction.
Qed.

Lemma os_flock_grant_holder q fd w x w' i :
  os_flock q fd (Z.lor LOCK_EX LOCK_NB) w = Some (x, w') -> x <> -1 ->
  fdtab w q fd = Some i -> holder w' i = Some (q, fd).
Proof.
  unfold os_flock. intros H Hx Hf. rewrite Hf in H. cbn in H.
  destruct (holder w i) as [h |] eqn:Eh.
  - destruct (same_ofd h q fd) eqn:Es.
    + injection H as _ <-. apply same_ofd_eq in Es. congruence.
    + injection H as <- _. congruence.
  - injection H as _ <-. cbn. rewrite Nat.eqb_refl. reflexivity.
Qed.

Section NoSpuriousRevival.

Variables (a b : Z)
          (indicatorA indicatorB observerA observerB : string)
          (pkgA svcA : string) (sdkA codeA : Z)
          (pkgB svcB : string) (sdkB codeB : Z).

Let A : itree sysE unit :=
  doDaemon indicatorA indicatorB observerA observerB pkgA svcA sdkA codeA.
Let B : itree sysE unit :=
  doDaemon indicatorB indicatorA observerB observerA pkgB svcB sdkB codeB.

Hypothesis a_b : a <> b.
Hypothesis oA_oB : observerA <> observerB.
Hypothesis iA_oA : indicatorA <> observerA.
Hypothesis iA_oB : indicatorA <> observerB.
Hypothesis iB_oA : indicatorB <> observerA.
Hypothesis iB_oB : indicatorB <> observerB.

Variables (w0 : world) (log : list sys_ev).
Hypothesis Hpair : pair_run a b A B w0 log.
Hypothesis Hwf : 0 < nextfd w0.
Hypothesis fresh_oA : names w0 observerA = None.
Hypothesis fresh_oB : names w0 observerB = None.
Hypothesis a_lives : ~ In (Death a) log.
Hypothesis b_lives : ~ In (Death b) log.

Lemma a_steady : Forall (steady a) log.
Proof.
  destruct Hpair as (_ & HA & _ & _).
  eapply steady_of_run; eauto. apply doDaemon_keeps.
Qed.

Lemma b_steady : Forall (steady b) log.
Proof.
  destruct Hpair as (_ & _ & HB & _).
  eapply steady_of_run; eauto. apply doDaemon_keeps.
Qed.

Lemma indicatorB_stays : count (removing indicatorB) (events log) = 0%nat.
Proof.
  destruct Hpair as (_ & HA & HB & Hall).
  rewrite (count_events_pair (removing indicatorB) a_b Hall).
  apply (@doDaemon_keeps_indicator indicatorA indicatorB observerA observerB
           pkgA svcA sdkA codeA indicatorB) in HA;
    [| apply neq_eqb; congruence | apply neq_eqb; congruence].
  apply (@doDaemon_keeps_indicator indicatorB indicatorA observerB observerA
           pkgB svcB sdkB codeB indicatorB) in HB;
    [| apply neq_eqb; congruence | apply neq_eqb; congruence].
  lia.
Qed.

(** Guard [a] never submits a revival request: when it tries the lock of
    [b], [b] holds it. *)
Lemma a_never_revives : count is_revival (calls_of a log) = 0%nat.
Proof.
  destruct (count is_revival (calls_of a log)) as [| n] eqn:Ecount;
    [reflexivity | exfalso].
  assert (HA : run A (calls_of a log) None) by apply Hpair.
  assert (HB : run B (calls_of b log) None) by apply Hpair.
  pose proof a_steady as Sa. pose proof b_steady as Sb.
  pose proof indicatorB_stays as Nrm.
  (* the revival of [a], and the grant before it *)
  destruct (@revival_needs_grant indicatorA indicatorB observerA observerB
              pkgA svcA sdkA codeA _ _ HA ltac:(lia))
    as (p1 & d & p2 & flags & mode & fd & x & post & Ea & Hfd & Hx).
  apply calls_of_split in Ea. destruct Ea as (L1 & L2 & Elog & _ & EL2).
  (* the barrier: [b] has created its observer file *)
  destruct (@barrier_side a b indicatorA indicatorB observerA observerB
              pkgA svcA sdkA codeA pkgB svcB sdkB codeB
              oA_oB iA_oA iA_oB iB_oA iB_oB w0 log Hpair Hwf fresh_oA fresh_oB
              L1 d L2 Elog) as (_ & (evb & Hinb & Hcrb) & _).
  apply calls_of_split in EL2. destruct EL2 as (O1 & O2 & -> & _ & EO2).
  change (Ev (Flock fd (Z.lor LOCK_EX LOCK_NB)) x :: post)
    with ([] ++ Ev (Flock fd (Z.lor LOCK_EX LOCK_NB)) x :: post) in EO2.
  apply calls_of_split in EO2. destruct EO2 as (O3 & F2 & -> & _ & _).
  (* [b] holds its own lock by then *)
  apply in_split in Hinb. destruct Hinb as (B1 & B2 & ->).
  assert (Eb : calls_of b log =
               calls_of b B1 ++ evb
               :: calls_of b (B2 ++ Call a (Ev OpenDriver d)
                                 :: O1 ++ Call a (Ev (Open indicatorB flags mode) fd)
                                 :: O3 ++ Call a (Ev (Flock fd (Z.lor LOCK_EX LOCK_NB)) x)
                                 :: F2)).
  { rewrite Elog, <- app_assoc. cbn [app].
    rewrite calls_of_app, calls_of_cons_same. reflexivity. }
  destruct (@creates_own_after_lock indicatorB indicatorA observerB observerA
              pkgB svcB sdkB codeB _ _ _ _ _ (neq_eqb iB_oB) HB Eb
              (created_creating _ _ Hcrb))
    as (u & flb & mdb & fdL & xL & u' & EB1 & HfdL & HxL).
  apply calls_of_split in EB1. destruct EB1 as (P1 & P2 & -> & _ & EP2).
  change (Ev (Flock fdL (Z.lor LOCK_EX LOCK_NB)) xL :: u')
    with ([] ++ Ev (Flock fdL (Z.lor LOCK_EX LOCK_NB)) xL :: u') in EP2.
  apply calls_of_split in EP2. destruct EP2 as (P3 & G2 & -> & _ & _).
  (* the log, in the order of these calls *)
  set (MID := G2 ++ Call b evb :: B2 ++ Call a (Ev OpenDriver d) :: O1) in *.
  assert (Elog' : log =
            P1 ++ Call b (Ev (Open indicatorB flb mdb) fdL)
            :: P3 ++ Call b (Ev (Flock fdL (Z.lor LOCK_EX LOCK_NB)) xL)
            :: MID ++ Call a (Ev (Open indicatorB flags mode) fd)
            :: O3 ++ Call a (Ev (Flock fd (Z.lor LOCK_EX LOCK_NB)) x) :: F2).
  { rewrite Elog. unfold MID.
    repeat (rewrite <- ?app_assoc; cbn [app]). reflexivity. }
  clear Elog Eb. rewrite Elog' in Sa, Sb, Nrm.
  destruct Hpair as ([wend Hrep] & _).
  rewrite Elog' in Hrep.
  (* the kernel, call by call *)
  apply replay_app in Hrep. destruct Hrep as (wP & RP1 & Hrep).
  apply replay_call_inv in Hrep. destruct Hrep as (wP' & _ & CbO & Hrep).
  apply replay_app in Hrep. destruct Hrep as (wG & RP3 & Hrep).
  apply replay_call_inv in Hrep. destruct Hrep as (wG' & _ & CbF & Hrep).
  apply replay_app in Hrep. destruct Hrep as (wO & RMID & Hrep).
  apply replay_call_inv in Hrep. destruct Hrep as (wO' & _ & CaO & Hrep).
  apply replay_app in Hrep. destruct Hrep as (wF & RO3 & Hrep).
  apply replay_call_inv in Hrep. destruct Hrep as (wF' & _ & CaF & _).
  (* what is steady, piece by piece *)
  apply Forall_app in Sb. destruct Sb as [_ Sb].
  apply Forall_cons_iff in Sb. destruct Sb as [_ Sb].
  apply Forall_app in Sb. destruct Sb as [SbP3 Sb].
  apply Forall_cons_iff in Sb. destruct Sb as [_ Sb].
  apply Forall_app in Sb. destruct Sb as [SbMID Sb].
  apply Forall_cons_iff in Sb. destruct Sb as [SbaO Sb].
  apply Forall_app in Sb. destruct Sb as [SbO3 _].
  apply Forall_app in Sa. destruct Sa as [_ Sa].
  apply Forall_cons_iff in Sa. destruct Sa as [_ Sa].
  apply Forall_app in Sa. destruct Sa as [_ Sa].
  apply Forall_cons_iff in Sa. destruct Sa as [_ Sa].
  apply Forall_app in Sa. destruct Sa as [_ Sa].
  apply Forall_cons_iff in Sa. destruct Sa as [_ Sa].
  apply Forall_app in Sa. destruct Sa as [SaO3 _].
  rewrite !events_app in Nrm. cbn [events] in Nrm.
  rewrite !events_app in Nrm. cbn [events] in Nrm.
  rewrite !events_app in Nrm. cbn [events] in Nrm.
  rewrite !events_app in Nrm. cbn [events] in Nrm.
  rewrite !count_app, !count_cons, !count_app, !count_cons,
    !count_app, !count_cons, !count_app, !count_cons in Nrm.
  (* [b] opens its indicator file and is granted the lock *)
  cbn [os_call] in CbO.
  destruct (os_open b indicatorB flb wP) as [fdL' wP''] eqn:EbO.
  assert (fdL' = fdL /\ wP'' = wP') by (split; congruence).
  destruct H as [-> ->].
  destruct (@os_open_result b indicatorB flb wP fdL wP' EbO HfdL) as (ib & NbP & FbP & EfdL & EnP & _).
  destruct (@replay_steady_fd b fdL ib _ _ _ RP3 SbP3 FbP ltac:(lia))
    as [FbG _].
  cbn [os_call] in CbF.
  pose proof (@os_flock_grant_holder b fdL wG xL wG' ib CbF HxL FbG) as HbG.
  (* the name and the lock stay until [a] comes *)
  assert (NbG : names wG indicatorB = Some ib).
  { eapply replay_name_stays; [exact RP3 | lia | exact NbP]. }
  assert (NbG' : names wG' indicatorB = Some ib).
  { apply os_flock_names in CbF. destruct CbF as [-> _]. exact NbG. }
  assert (NbO : names wO indicatorB = Some ib).
  { eapply replay_name_stays; [exact RMID | lia | exact NbG']. }
  pose proof (@replay_steady_holder b fdL ib wG' MID wO RMID SbMID HbG) as HbO.
  pose proof (@os_call_steady_holder b fdL ib a _ _ fd wO wO' CaO SbaO HbO) as HbO'.
  pose proof (@replay_steady_holder b fdL ib wO' O3 wF RO3 SbO3 HbO') as HbF.
  (* [a] opens the same file and is refused *)
  cbn [os_call] in CaO.
  destruct (os_open a indicatorB flags wO) as [fd' wO''] eqn:EaO.
  assert (fd' = fd /\ wO'' = wO') by (split; congruence).
  destruct H as [-> ->].
  destruct (@os_open_result a indicatorB flags wO fd wO' EaO Hfd) as (ia & _ & FaO & Efd & EnO & Hsame).
  specialize (Hsame _ NbO). subst ia.
  destruct (@replay_steady_fd a fd ib _ _ _ RO3 SaO3 FaO ltac:(lia))
    as [FaF _].
  cbn [os_call] in CaF.
  rewrite (@os_flock_refused a fd wF ib (b, fdL) FaF HbF) in CaF.
  - congruence.
  - unfold same_ofd. cbn.
    assert (E : (b =? a) = false) by (apply Z.eqb_neq; congruence).
    rewrite E. reflexivity.
Qed.

End NoSpuriousRevival.

(** X22.  While both guards of a pair are alive, neither submits a revival
    request.  Take two guards on exchanged paths, the observer paths
    distinct from each other and from the indicator paths, on a kernel
    where the observer files do not exist yet; let the kernel serve their
    calls in any order, and let neither of them die.  Then the log holds
    no oneway transaction: a guard that reaches Monitoring finds the lock
    of its sibling held, and is refused. *)
Theorem no_revival_while_both_alive
        (a b : Z)
        (indicatorA indicatorB observerA observerB : string)
        (pkgA svcA : string) (sdkA codeA : Z)
        (pkgB svcB : string) (sdkB codeB : Z)
        (w0 : world) (log : list sys_ev) :
  a <> b ->
  observerA <> observerB ->
  indicatorA <> observerA -> indicatorA <> observerB ->
  indicatorB <> observerA -> indicatorB <> observerB ->
  pair_run a b
           (doDaemon indicatorA indicatorB observerA observerB pkgA svcA sdkA codeA)
           (doDaemon indicatorB indicatorA observerB observerA pkgB svcB sdkB codeB)
           w0 log ->
  0 < nextfd w0 -> names w0 observerA = None -> names w0 observerB = None ->
  ~ In (Death a) log -> ~ In (Death b) log ->
  count is_revival (events log) = 0%nat.
Proof.
  intros Hab HoAB HiAoA HiAoB HiBoA HiBoB Hpair Hwf FA FB La Lb.
  pose proof (pair_run_sym Hpair) as Hpair'.
  pose proof (@a_never_revives a b indicatorA indicatorB observerA observerB
                pkgA svcA sdkA codeA pkgB svcB sdkB codeB
                Hab HoAB HiAoA HiAoB HiBoA HiBoB w0 log Hpair Hwf FA FB La Lb)
    as Ha.
  pose proof (@a_never_revives b a indicatorB indicatorA observerB observerA
                pkgB svcB sdkB codeB pkgA svcA sdkA codeA
                (not_eq_sym Hab) (not_eq_sym HoAB) HiBoB HiBoA HiAoB HiAoA
                w0 log Hpair' Hwf FB FA Lb La)
    as Hb.
  destruct Hpair as (_ & _ & _ & Hall).
  rewrite (count_events_pair is_revival Hab Hall). lia.
Qed.

Lemma until_refusal_pair_run :
  pair_run 1 2
    (doDaemon "/data/a.lock" "/data/b.lock" "/data/a.obs" "/data/b.obs"
              "pkg" "svc" 28 30)
    (doDaemon "/data/b.lock" "/data/a.lock" "/data/b.obs" "/data/a.obs"
              "pkg" "svc" 28 30)
    (boot emptyParcel) until_refusal.
Proof.
  split; [| split; [| split]].
  - eexists. unfold until_refusal, both_synced. cbn [app].
    repeat (eapply replay_call; [reflexivity | cbn; reflexivity |]).
    apply replay_nil.
  - let t := eval vm_compute in (calls_of 1 until_refusal) in
    change (calls_of 1 until_refusal) with t.
    prove_run.
  - let t := eval vm_compute in (calls_of 2 until_refusal) in
    change (calls_of 2 until_refusal) with t.
    prove_run.
  - unfold until_refusal, both_synced. cbn [app].
    repeat (apply Forall_cons;
            [first [left; reflexivity | right; reflexivity] |]).
    apply Forall_nil.
Qed.

Lemma no_revival_while_both_alive_witness :
  count is_revival (events until_refusal) = 0%nat.
Proof.
  apply (@no_revival_while_both_alive 1 2 "/data/a.lock" "/data/b.lock"
           "/data/a.obs" "/data/b.obs" "pkg" "svc" 28 30 "pkg" "svc" 28 30
           (boot emptyParcel) until_refusal).
  - lia.
  - discriminate.
  - discriminate.
  - discriminate.
  - discriminate.
  - discriminate.
  - exact until_refusal_pair_run.
  - cbn. lia.
  - reflexivity.
  - reflexivity.
  - unfold until_refusal, both_synced. cbn [app In].
    intros H. repeat (destruct H as [H | H]; [discriminate H |]). exact H.
  - unfold until_refusal, both_synced. cbn [app In].
    intros H. repeat (destruct H as [H | H]; [discriminate H |]). exact H.
Defined.

(* ===================================================================== *)
(** * A guard without its sibling *)
(* ===================================================================== *)

Lemma calls_of_own p tr : calls_of p (List.map (Call p) tr) = tr.
Proof.
  induction tr as [| ev tr IH]; cbn; [reflexivity |].
  rewrite Z.eqb_refl, IH. reflexivity.
Qed.

Lemma calls_of_none p q tr : q <> p -> calls_of q (List.map (Call p) tr) = [].
Proof.
  intros H. induction tr as [| ev tr IH]; cbn; [reflexivity |].
  destruct (Z.eqb_spec p q); [congruence | exact IH].
Qed.

Lemma count_pos_split (P : event -> bool) tr :
  (1 <= count P tr)%nat -> exists l1 ev l2, tr = l1 ++ ev :: l2 /\ P ev = true.
Proof.
  induction tr as [| ev tr IH]; [cbn; lia |].
  rewrite count_cons. destruct (P ev) eqn:E.
  - intros _. exists [], ev, tr. auto.
  - intros H. destruct IH as (l1 & ev' & l2 & -> & HP); [lia |].
    exists (ev :: l1), ev', l2. auto.
Qed.

(** X23.  A guard whose sibling never shows up.  On a kernel where neither
    observer file exists, let one guard run alone, for as long as one
    likes: it never opens the Binder driver, and once it has been granted
    its own lock it does not return either; it is polling for the
    observer file of the sibling, which only the sibling creates. *)
Theorem doDaemon_waits_for_sibling
        (p : Z) (indicatorSelfPath indicatorDaemonPath
                 observerSelfPath observerDaemonPath
                 packageName serviceName : string)
        (sdkVersion transactCode : Z) (w : world) (fuel : nat) :
  observerSelfPath <> observerDaemonPath ->
  indicatorSelfPath <> observerSelfPath ->
  indicatorSelfPath <> observerDaemonPath ->
  indicatorDaemonPath <> observerSelfPath ->
  indicatorDaemonPath <> observerDaemonPath ->
  0 < nextfd w -> alive w p = true ->
  names w observerSelfPath = None -> names w observerDaemonPath = None ->
  count is_OpenDriver
        (fst (fst (exec fuel p
                        (doDaemon indicatorSelfPath indicatorDaemonPath
                                  observerSelfPath observerDaemonPath
                                  packageName serviceName sdkVersion transactCode)
                        w))) = 0%nat /\
  (count flock_granted
         (fst (fst (exec fuel p
                         (doDaemon indicatorSelfPath indicatorDaemonPath
                                   observerSelfPath observerDaemonPath
                                   packageName serviceName sdkVersion transactCode)
                         w))) <> 0%nat ->
   returned
     (snd (fst (exec fuel p
                     (doDaemon indicatorSelfPath indicatorDaemonPath
                               observerSelfPath observerDaemonPath
                               packageName serviceName sdkVersion transactCode)
                     w))) = None).
Proof.
  intros HoSD HiSoS HiSoD HiDoS HiDoD Hwf Hal FS FD.
  destruct (exec fuel p
                 (doDaemon indicatorSelfPath indicatorDaemonPath
                           observerSelfPath observerDaemonPath
                           packageName serviceName sdkVersion transactCode) w)
    as [[tr o] w'] eqn:E.
  cbn [fst snd].
  pose proof E as Hrun. apply exec_run in Hrun.
  pose proof E as Hrep. apply exec_replay in Hrep; [| exact Hal].
  assert (Hd : count is_OpenDriver tr = 0%nat).
  { destruct (count is_OpenDriver tr) as [| n] eqn:Ec; [reflexivity | exfalso].
    destruct (@count_pos_split is_OpenDriver tr) as (l1 & ev & l2 & -> & Hev);
      [lia |].
    destruct ev as [T e x]. destruct e; try discriminate Hev.
    assert (Hpair : pair_run p (p + 1)
                      (doDaemon indicatorSelfPath indicatorDaemonPath
                                observerSelfPath observerDaemonPath
                                packageName serviceName sdkVersion transactCode)
                      (doDaemon indicatorDaemonPath indicatorSelfPath
                                observerDaemonPath observerSelfPath
                                packageName serviceName sdkVersion transactCode)
                      w (List.map (Call p) (l1 ++ Ev OpenDriver x :: l2))).
    { split; [eauto |]. split; [| split].
      - rewrite calls_of_own. eapply run_forget; eauto.
      - rewrite calls_of_none by lia. apply run_nil.
      - apply Forall_forall. intros sev Hin.
        apply in_map_iff in Hin. destruct Hin as (ev & <- & _). auto. }
    destruct (@barrier_side p (p + 1) indicatorSelfPath indicatorDaemonPath
                observerSelfPath observerDaemonPath
                packageName serviceName sdkVersion transactCode
                packageName serviceName sdkVersion transactCode
                HoSD HiSoS HiSoD HiDoS HiDoD w _ Hpair Hwf FS FD
                (List.map (Call p) l1) x (List.map (Call p) l2))
      as (_ & (ev & Hin & _) & _).
    - rewrite map_app. reflexivity.
    - apply in_map_iff in Hin. destruct Hin as (ev' & Eq & _).
      injection Eq as Eq _. lia. }
  split; [exact Hd |].
  intros Hg. destruct o as [[] | |]; try reflexivity.
  exfalso. apply Hg.
  eapply doDaemon_returns_without_driver; eauto.
Qed.

Lemma doDaemon_waits_for_sibling_witness :
  count is_OpenDriver
        (fst (fst (exec 60 1
                        (doDaemon "/data/a.lock" "/data/b.lock"
                                  "/data/a.obs" "/data/b.obs" "pkg" "svc" 28 30)
                        (boot emptyParcel)))) = 0%nat /\
  (count flock_granted
         (fst (fst (exec 60 1
                         (doDaemon "/data/a.lock" "/data/b.lock"
                                   "/data/a.obs" "/data/b.obs" "pkg" "svc" 28 30)
                         (boot emptyParcel)))) <> 0%nat ->
   returned
     (snd (fst (exec 60 1
                     (doDaemon "/data/a.lock" "/data/b.lock"
                               "/data/a.obs" "/data/b.obs" "pkg" "svc" 28 30)
                     (boot emptyParcel)))) = None).
Proof.
  apply (@doDaemon_waits_for_sibling 1 "/data/a.lock" "/data/b.lock"
           "/data/a.obs" "/data/b.obs" "pkg" "svc" 28 30 (boot emptyParcel) 60).
  - discriminate.
  - discriminate.
  - discriminate.
  - discriminate.
  - discriminate.
  - cbn. lia.
  - reflexivity.
  - reflexivity.
  - reflexivity.
Defined.

(* ===================================================================== *)
(** * Syncing on the kernel *)
(* ===================================================================== *)

(** The opening sequence on a file that does not exist: it is created. *)
Lemma exec_openOrCreate_absent p path w fuel :
  0 < nextfd w -> names w path = None ->
  exec (4 + fuel) p (openOrCreate path) w =
  ([Ev (Open path (Z.lor O_RDONLY O_LARGEFILE) None) (-1);
    Ev (Open path O_CREAT (Some (Z.lor S_IRUSR S_IWUSR))) (nextfd w)],
   Returned (nextfd w),
   snd (os_alloc p (inodes w) (snd (os_creat path w)))).
Proof.
  intros Hwf Hn. unfold openOrCreate, open2, open3.
  change (4 + fuel)%nat with (2 + (2 + fuel))%nat.
  change [Ev (Open path (Z.lor O_RDONLY O_LARGEFILE) None) (-1);
          Ev (Open path O_CREAT (Some (Z.lor S_IRUSR S_IWUSR))) (nextfd w)]
    with ([Ev (Open path (Z.lor O_RDONLY O_LARGEFILE) None) (-1)] ++
          [Ev (Open path O_CREAT (Some (Z.lor S_IRUSR S_IWUSR))) (nextfd w)]).
  eapply exec_bind.
  - apply exec_trigger. cbn [os_call]. unfold os_open. rewrite Hn. reflexivity.
  - cbn [Z.eqb Pos.eqb]. apply exec_trigger.
    cbn [os_call]. unfold os_open. rewrite Hn. reflexivity.
  - discriminate.
Qed.

Lemma exec_notifyAndWaitFor_present
      (p : Z) (observerSelfPath observerDaemonPath : string)
      (w : world) (j : nat) (fuel : nat) :
  0 < nextfd w -> observerSelfPath <> observerDaemonPath ->
  names w observerSelfPath = None -> names w observerDaemonPath = Some j ->
  exists w',
    exec (12 + fuel) p (notifyAndWaitFor observerSelfPath observerDaemonPath) w =
    ([Ev (Open observerSelfPath (Z.lor O_RDONLY O_LARGEFILE) None) (-1);
      Ev (Open observerSelfPath O_CREAT (Some (Z.lor S_IRUSR S_IWUSR))) (nextfd w);
      Ev (Open observerDaemonPath (Z.lor O_RDONLY O_LARGEFILE) None) (nextfd w + 1);
      Ev (Remove observerDaemonPath) 0],
     Returned tt, w') /\
    names w' observerDaemonPath = None /\
    names w' observerSelfPath = Some (inodes w) /\
    (forall other, other <> observerSelfPath -> other <> observerDaemonPath ->
                   names w' other = names w other) /\
    holder w' = holder w /\ nextfd w' = nextfd w + 2 /\ binder w' = binder w.
Proof.
  intros Hwf Hne HS HD.
  assert (E1 : String.eqb observerDaemonPath observerSelfPath = false)
    by (apply String.eqb_neq; congruence).
  assert (E2 : String.eqb observerSelfPath observerDaemonPath = false)
    by (apply String.eqb_neq; congruence).
  set (w1 := snd (os_alloc p (inodes w) (snd (os_creat observerSelfPath w)))).
  assert (N1 : names w1 observerDaemonPath = Some j).
  { cbn. rewrite E1. exact HD. }
  set (w2 := snd (os_alloc p j w1)).
  assert (N2 : names w2 observerDaemonPath = Some j) by exact N1.
  set (w3 := snd (os_remove observerDaemonPath w2)).
  assert (R3 : os_remove observerDaemonPath w2 = (0, w3)).
  { unfold w3, os_remove. rewrite N2. reflexivity. }
  exists w3. split; [| split; [| split; [| split; [| split; [| split]]]]].
  - unfold notifyAndWaitFor, remove.
    change (12 + fuel)%nat with (4 + 0 + ((3 + 2 + 0) + (2 + (1 + fuel))))%nat.
    change [Ev (Open observerSelfPath (Z.lor O_RDONLY O_LARGEFILE) None) (-1);
            Ev (Open observerSelfPath O_CREAT (Some (Z.lor S_IRUSR S_IWUSR))) (nextfd w);
            Ev (Open observerDaemonPath (Z.lor O_RDONLY O_LARGEFILE) None) (nextfd w + 1);
            Ev (Remove observerDaemonPath) 0]
      with ([Ev (Open observerSelfPath (Z.lor O_RDONLY O_LARGEFILE) None) (-1);
             Ev (Open observerSelfPath O_CREAT (Some (Z.lor S_IRUSR S_IWUSR))) (nextfd w)]
            ++ [Ev (Open observerDaemonPath (Z.lor O_RDONLY O_LARGEFILE) None) (nextfd w + 1)]
            ++ [Ev (Remove observerDaemonPath) 0] ++ []).
    eapply exec_bind; [apply exec_openOrCreate_absent; auto | | discriminate].
    eapply exec_bind; [| | discriminate].
    + apply exec_while_exit. unfold open2.
      rewrite <- (app_nil_r [_]).
      change 3%nat with (2 + 1)%nat.
      eapply exec_bind.
      * apply exec_trigger. cbn [os_call]. unfold os_open. fold w1. rewrite N1.
        reflexivity.
      * cbn [os_alloc fst nextfd w1].
        assert (E : (nextfd w + 1 =? -1) = false) by (apply Z.eqb_neq; lia).
        rewrite E. apply exec_Ret.
      * discriminate.
    + eapply exec_bind; [| apply exec_Ret | discriminate].
      apply exec_trigger. cbn [os_call].
      change (Some (os_remove observerDaemonPath w2) = Some (0, w3)).
      rewrite R3. reflexivity.
  - unfold w3, os_remove. rewrite N2. cbn. rewrite String.eqb_refl. reflexivity.
  - unfold w3, os_remove. rewrite N2. cbn. rewrite E2, String.eqb_refl. reflexivity.
  - intros other H1 H2. unfold w3, os_remove. rewrite N2. cbn.
    apply String.eqb_neq in H1. apply String.eqb_neq in H2. rewrite H1, H2.
    reflexivity.
  - unfold w3, os_remove. rewrite N2. reflexivity.
  - unfold w3, os_remove. rewrite N2. cbn. lia.
  - unfold w3, os_remove. rewrite N2. reflexivity.
Qed.

(** X24.  On the kernel, [notifyAndWaitFor] with the observer file of the
    sibling in place and the own one not yet there: the own observer file
    is created, the first poll finds the file of the sibling, and that
    file is removed.  The announcement of the sibling is used up; the own
    one stays for the sibling to find. *)
Theorem notifyAndWaitFor_consumes
        (p : Z) (observerSelfPath observerDaemonPath : string)
        (w : world) (j : nat) (fuel : nat) :
  0 < nextfd w -> observerSelfPath <> observerDaemonPath ->
  names w observerSelfPath = None -> names w observerDaemonPath = Some j ->
  exists w',
    exec (12 + fuel) p (notifyAndWaitFor observerSelfPath observerDaemonPath) w =
    ([Ev (Open observerSelfPath (Z.lor O_RDONLY O_LARGEFILE) None) (-1);
      Ev (Open observerSelfPath O_CREAT (Some (Z.lor S_IRUSR S_IWUSR))) (nextfd w);
      Ev (Open observerDaemonPath (Z.lor O_RDONLY O_LARGEFILE) None) (nextfd w + 1);
      Ev (Remove observerDaemonPath) 0],
     Returned tt, w') /\
    names w' observerDaemonPath = None /\
    names w' observerSelfPath <> None /\
    (forall other, other <> observerSelfPath -> other <> observerDaemonPath ->
                   names w' other = names w other) /\
    holder w' = holder w.
Proof.
  intros Hwf Hne HS HD.
  destruct (@exec_notifyAndWaitFor_present p observerSelfPath observerDaemonPath
              w j fuel Hwf Hne HS HD)
    as (w' & E & N1 & N2 & N3 & N4 & _).
  exists w'. repeat split; auto. congruence.
Qed.

Lemma notifyAndWaitFor_consumes_witness :
  exists w',
    exec (12 + 0) 1 (notifyAndWaitFor "/data/a.obs" "/data/b.obs") sibling_alive =
    ([Ev (Open "/data/a.obs" (Z.lor O_RDONLY O_LARGEFILE) None) (-1);
      Ev (Open "/data/a.obs" O_CREAT (Some (Z.lor S_IRUSR S_IWUSR)))
         (nextfd sibling_alive);
      Ev (Open "/data/b.obs" (Z.lor O_RDONLY O_LARGEFILE) None)
         (nextfd sibling_alive + 1);
      Ev (Remove "/data/b.obs") 0],
     Returned tt, w') /\
    names w' "/data/b.obs" = None /\
    names w' "/data/a.obs" <> None /\
    (forall other, other <> "/data/a.obs" -> other <> "/data/b.obs" ->
                   names w' other = names sibling_alive other) /\
    holder w' = holder sibling_alive.
Proof.
  apply (@notifyAndWaitFor_consumes 1 "/data/a.obs" "/data/b.obs"
           sibling_alive 1%nat 0%nat).
  - vm_compute. reflexivity.
  - discriminate.
  - vm_compute. reflexivity.
  - vm_compute. reflexivity.
Defined.


(* ===================================================================== *)
(** * The whole guard on the kernel, the sibling being gone *)
(* ===================================================================== *)

Lemma exec_getServiceHandle p serviceName driverFD w fuel :
  exec (3 + fuel) p (getServiceHandle serviceName driverFD) w =
  ([Ev (WriteTransact 0 CHECK_SERVICE_TRANSACTION
          (pwrites emptyParcel
             [WInterfaceToken "android.os.IServiceManager";
              WString16 (Some serviceName)])
          true 0 driverFD)
       (binder w 0 CHECK_SERVICE_TRANSACTION
          (pwrites emptyParcel
             [WInterfaceToken "android.os.IServiceManager";
              WString16 (Some serviceName)])
          true)],
   Returned (match readObject
                     (snd (binder w 0 CHECK_SERVICE_TRANSACTION
                             (pwrites emptyParcel
                                [WInterfaceToken "android.os.IServiceManager";
                                 WString16 (Some serviceName)])
                             true)) with
             | Some flat => handle flat
             | None => 0
             end),
   w).
Proof.
  unfold getServiceHandle, write_transact.
  change (3 + fuel)%nat with (2 + S fuel)%nat.
  match goal with
  | |- exec _ _ _ _ = ([?a], _, _) => change [a] with ([a] ++ [])
  end.
  eapply exec_bind; [apply exec_trigger; reflexivity | | discriminate].
  cbv zeta.
  destruct (readObject _); apply exec_Ret.
Qed.

(** LockingSelf on a free lock: the first attempt is granted. *)
Lemma exec_lockingSelf_granted p path w i fuel :
  0 < nextfd w -> names w path = Some i -> holder w i = None ->
  exec (6 + 0 + 1 + 2 + fuel) p
       (while (fun st : Z * Z =>
                 let (tryCount, lockStatus) := st in
                 if tryCount <? 5 then
                   lockStatus <- lockFile path ;;
                   Ret (lockStatus =? 0, (tryCount, lockStatus))
                 else Ret (false, (tryCount, lockStatus)))
              (fun st : Z * Z =>
                 let (tryCount, lockStatus) := st in
                 usleep 10000 ;;
                 Ret (tryCount + 1, lockStatus))
              (0, 0)) w =
  ([Ev (Open path (Z.lor O_RDONLY O_LARGEFILE) None) (nextfd w);
    Ev (Flock (nextfd w) (Z.lor LOCK_EX LOCK_NB)) 0],
   Returned (0, 1),
   set_holder (snd (os_alloc p i w)) i (Some (p, nextfd w))).
Proof.
  intros Hwf Hn Hh.
  apply exec_while_exit. cbv beta iota. cbn [Z.ltb Z.compare].
  match goal with
  | |- exec _ _ _ _ = ([?a; ?b], _, _) => change [a; b] with ([a; b] ++ [])
  end.
  eapply exec_bind; [| | discriminate].
  - apply exec_lockFile_granted; eauto.
  - reflexivity.
Qed.

(** The guard from its start to the [getpid] that follows the revival, the
    sibling being gone; what comes of [killpg] is left open. *)
Lemma exec_doDaemon_detects
      (p : Z) (indicatorSelfPath indicatorDaemonPath
               observerSelfPath observerDaemonPath
               packageName serviceName : string)
      (sdkVersion transactCode : Z) (w : world) (i1 i2 j : nat) :
  0 < p -> 0 < nextfd w ->
  observerSelfPath <> observerDaemonPath ->
  indicatorDaemonPath <> observerSelfPath ->
  indicatorDaemonPath <> observerDaemonPath ->
  names w indicatorSelfPath = Some i1 -> holder w i1 = None ->
  names w observerSelfPath = None -> names w observerDaemonPath = Some j ->
  names w indicatorDaemonPath = Some i2 -> holder w i2 = None -> i1 <> i2 ->
  let n := nextfd w in
  let query :=
    pwrites emptyParcel
      [WInterfaceToken "android.os.IServiceManager"; WString16 (Some "activity")] in
  let found := binder w 0 CHECK_SERVICE_TRANSACTION query true in
  let amsHandle :=
    match readObject (snd found) with Some flat => handle flat | None => 0 end in
  let request :=
    writeStartServiceParcel emptyParcel packageName serviceName sdkVersion in
  exists w5,
    group w5 = group w /\
    forall fk trk (o : outcome unit) wk,
      exec fk p (ITree.trigger (Killpg p SIGTERM) ;; Ret tt) w5 = (trk, o, wk) ->
      o <> Running ->
      exists fuel,
        exec fuel p
             (doDaemon indicatorSelfPath indicatorDaemonPath
                       observerSelfPath observerDaemonPath
                       packageName serviceName sdkVersion transactCode) w =
        ([Ev (Open indicatorSelfPath (Z.lor O_RDONLY O_LARGEFILE) None) n;
          Ev (Flock n (Z.lor LOCK_EX LOCK_NB)) 0;
          Ev (Open observerSelfPath (Z.lor O_RDONLY O_LARGEFILE) None) (-1);
          Ev (Open observerSelfPath O_CREAT (Some (Z.lor S_IRUSR S_IWUSR))) (n + 1);
          Ev (Open observerDaemonPath (Z.lor O_RDONLY O_LARGEFILE) None) (n + 1 + 1);
          Ev (Remove observerDaemonPath) 0;
          Ev OpenDriver (n + 1 + 2);
          Ev (InitProcessState (n + 1 + 2)) tt;
          Ev (WriteTransact 0 CHECK_SERVICE_TRANSACTION query true 0 (n + 1 + 2)) found;
          Ev (Open indicatorDaemonPath (Z.lor O_RDONLY O_LARGEFILE) None) (n + 1 + 2 + 1);
          Ev (Flock (n + 1 + 2 + 1) (Z.lor LOCK_EX LOCK_NB)) 0;
          Ev (WriteTransact (to_int32 amsHandle) transactCode request false 1 (n + 1 + 2))
             (binder w (to_int32 amsHandle) transactCode request false);
          Ev (Remove observerSelfPath) 0;
          Ev Getpid p] ++ trk,
         o, wk).
Proof.
  intros Hp Hwf HoSD HiDoS HiDoD NiS HiS NoS NoD NiD HiD Hi n query found amsHandle request.
  (* the kernel after LockingSelf *)
  set (w1 := set_holder (snd (os_alloc p i1 w)) i1 (Some (p, n))).
  destruct (@exec_notifyAndWaitFor_present p observerSelfPath observerDaemonPath
              w1 j 0)
    as (w2 & E2 & N2D & N2S & N2o & H2 & F2 & B2); auto.
  { cbn. lia. }
  assert (G2 : group w2 = group w).
  { pose proof E2 as G. apply exec_group in G; [exact G | reflexivity]. }
  (* the kernel after [open_driver()] *)
  set (w3 := snd (os_driver w2)).
  assert (N3 : names w3 indicatorDaemonPath = Some i2).
  { cbn. rewrite N2o; auto. }
  assert (H3 : holder w3 i2 = None).
  { cbn. rewrite H2. cbn.
    destruct (Nat.eqb_spec i2 i1); [congruence | exact HiD]. }
  assert (F2' : n + 1 + 2 = nextfd w2).
  { rewrite F2. reflexivity. }
  assert (F3 : 0 < nextfd w3).
  { cbn. rewrite F2. cbn. lia. }
  assert (B3 : binder w3 = binder w).
  { cbn. rewrite B2. reflexivity. }
  (* the kernel after the grant of the sibling's lock *)
  set (w4 := set_holder (snd (os_alloc p i2 w3)) i2 (Some (p, nextfd w3))).
  assert (N4 : names w4 observerSelfPath = Some (inodes w1)) by exact N2S.
  assert (R4 : os_remove observerSelfPath w4 =
               (0, snd (os_remove observerSelfPath w4))).
  { unfold os_remove. rewrite N4. reflexivity. }
  assert (Hpos : (0 <? p) = true) by (apply Z.ltb_lt; exact Hp).
  exists (snd (os_remove observerSelfPath w4)). split.
  { unfold os_remove. rewrite N4. cbn. exact G2. }
  intros fk trk o wk Hk Ho. eexists.
  rewrite F2'. unfold doDaemon. cbn [app].
  match goal with
  | |- exec _ _ _ _ = (?a :: ?b :: ?rest, _, _) =>
      change (a :: b :: rest) with ([a; b] ++ rest)
  end.
  eapply exec_bind; [apply (@exec_lockingSelf_granted p indicatorSelfPath w i1 0); auto
                    | | exact Ho].
  cbv zeta. cbn [snd Z.eqb].
  match goal with
  | |- exec _ _ _ _ = (?a :: ?b :: ?c :: ?d :: ?rest, _, _) =>
      change (a :: b :: c :: d :: rest) with ([a; b; c; d] ++ rest)
  end.
  eapply exec_bind; [exact E2 | | exact Ho].
  match goal with
  | |- exec _ _ _ _ = (?a :: ?rest, _, _) =>
      change (a :: rest) with ([a] ++ rest)
  end.
  eapply exec_bind; [apply (@exec_trigger _ 0); reflexivity | | exact Ho].
  match goal with
  | |- exec _ _ _ _ = (?a :: ?rest, _, _) =>
      change (a :: rest) with ([a] ++ rest)
  end.
  eapply exec_bind; [apply (@exec_trigger _ 0); reflexivity | | exact Ho].
  match goal with
  | |- exec _ _ _ _ = (?a :: ?rest, _, _) =>
      change (a :: rest) with ([a] ++ rest)
  end.
  eapply exec_bind; [| | exact Ho].
  { unfold found, query. rewrite <- B3.
    apply (@exec_getServiceHandle p "activity" (nextfd w2) w3 0). }
  cbv zeta.
  match goal with
  | |- exec _ _ _ _ = (?a :: ?b :: ?rest, _, _) =>
      change (a :: b :: rest) with ([a; b] ++ rest)
  end.
  eapply exec_bind; [| | exact Ho].
  { apply (@exec_lockFile_granted p indicatorDaemonPath w3 i2 0); auto. }
  cbn [Z.eqb]. rewrite B3.
  unfold write_transact, remove.
  match goal with
  | |- exec _ _ _ _ = (?a :: ?rest, _, _) =>
      change (a :: rest) with ([a] ++ rest)
  end.
  eapply exec_bind; [| | exact Ho].
  { apply (@exec_trigger _ 0). cbn [os_call].
    replace (binder (set_holder (snd (os_alloc p i2 w3)) i2 (Some (p, nextfd w3))))
      with (binder w) by (symmetry; exact B3).
    reflexivity. }
  match goal with
  | |- exec _ _ _ _ = (?a :: ?rest, _, _) =>
      change (a :: rest) with ([a] ++ rest)
  end.
  eapply exec_bind; [| | exact Ho].
  { apply (@exec_trigger _ 0). cbn [os_call].
    replace (os_remove observerSelfPath
               (set_holder (snd (os_alloc p i2 w3)) i2 (Some (p, nextfd w3))))
      with (0, snd (os_remove observerSelfPath w4)) by (symmetry; exact R4).
    reflexivity. }
  match goal with
  | |- exec _ _ _ _ = (?a :: ?rest, _, _) =>
      change (a :: rest) with ([a] ++ rest)
  end.
  eapply exec_bind; [apply (@exec_trigger _ 0); reflexivity | | exact Ho].
  rewrite Hpos. exact Hk.
Qed.

(** X25.  The guard at work.  On the kernel, let the guard find its own lock
    free, the observer file of the sibling in place, and the lock of the
    sibling free as well: the sibling has announced itself and is gone.
    Then [doDaemon] takes its own lock at the first attempt, goes through
    Syncing with a single poll, asks the registry for "activity", is
    granted the lock of the sibling, submits the revival request to the
    handle the registry gave, removes its own observer file, asks for its
    own id and calls [killpg] on it.  When the guard is a member of the
    group of that id (it leads its group) it does not come back from the
    call.  When it is not (as a detached daemon, left by [fork] in the
    group of its parent) the call answers, with -1 when no group has that
    id, and [doDaemon] returns. *)
Theorem doDaemon_revives_when_sibling_gone
        (p : Z) (indicatorSelfPath indicatorDaemonPath
                 observerSelfPath observerDaemonPath
                 packageName serviceName : string)
        (sdkVersion transactCode : Z) (w : world) (i1 i2 j : nat) :
  0 < p -> 0 < nextfd w ->
  observerSelfPath <> observerDaemonPath ->
  indicatorDaemonPath <> observerSelfPath ->
  indicatorDaemonPath <> observerDaemonPath ->
  names w indicatorSelfPath = Some i1 -> holder w i1 = None ->
  names w observerSelfPath = None -> names w observerDaemonPath = Some j ->
  names w indicatorDaemonPath = Some i2 -> holder w i2 = None -> i1 <> i2 ->
  let n := nextfd w in
  let query :=
    pwrites emptyParcel
      [WInterfaceToken "android.os.IServiceManager"; WString16 (Some "activity")] in
  let found := binder w 0 CHECK_SERVICE_TRANSACTION query true in
  let amsHandle :=
    match readObject (snd found) with Some flat => handle flat | None => 0 end in
  let request :=
    writeStartServiceParcel emptyParcel packageName serviceName sdkVersion in
  let leads := member p (group w p) in
  exists fuel w',
    forall more,
      exec (fuel + more) p
           (doDaemon indicatorSelfPath indicatorDaemonPath
                     observerSelfPath observerDaemonPath
                     packageName serviceName sdkVersion transactCode) w =
      ([Ev (Open indicatorSelfPath (Z.lor O_RDONLY O_LARGEFILE) None) n;
        Ev (Flock n (Z.lor LOCK_EX LOCK_NB)) 0;
        Ev (Open observerSelfPath (Z.lor O_RDONLY O_LARGEFILE) None) (-1);
        Ev (Open observerSelfPath O_CREAT (Some (Z.lor S_IRUSR S_IWUSR))) (n + 1);
        Ev (Open observerDaemonPath (Z.lor O_RDONLY O_LARGEFILE) None) (n + 1 + 1);
        Ev (Remove observerDaemonPath) 0;
        Ev OpenDriver (n + 1 + 2);
        Ev (InitProcessState (n + 1 + 2)) tt;
        Ev (WriteTransact 0 CHECK_SERVICE_TRANSACTION query true 0 (n + 1 + 2)) found;
        Ev (Open indicatorDaemonPath (Z.lor O_RDONLY O_LARGEFILE) None) (n + 1 + 2 + 1);
        Ev (Flock (n + 1 + 2 + 1) (Z.lor LOCK_EX LOCK_NB)) 0;
        Ev (WriteTransact (to_int32 amsHandle) transactCode request false 1 (n + 1 + 2))
           (binder w (to_int32 amsHandle) transactCode request false);
        Ev (Remove observerSelfPath) 0;
        Ev Getpid p] ++
       (if leads then [] else [Ev (Killpg p SIGTERM) (killpg_answer p w)]),
       (if leads then Suspended (Killpg p SIGTERM) else Returned tt),
       w').
Proof.
  intros Hp Hwf HoSD HiDoS HiDoD NiS HiS NoS NoD NiD HiD Hi
         n query found amsHandle request leads.
  destruct (@exec_doDaemon_detects p indicatorSelfPath indicatorDaemonPath
              observerSelfPath observerDaemonPath packageName serviceName
              sdkVersion transactCode w i1 i2 j
              Hp Hwf HoSD HiDoS HiDoD NiS HiS NoS NoD NiD HiD Hi)
    as (w5 & G5 & Hrun).
  assert (Eneg : (p <? 0) = false) by (apply Z.ltb_ge; lia).
  assert (Ezero : (p =? 0) = false) by (apply Z.eqb_neq; lia).
  assert (Ek : os_call p (Killpg p SIGTERM) w5 =
               if leads then None else Some (killpg_answer p w, w5)).
  { cbn [os_call]. change (SIGTERM =? SIGTERM) with true. cbv iota.
    unfold os_killpg, killpg_answer, leads. rewrite Eneg, Ezero, G5.
    destruct (group w p) as [| q l]; [reflexivity |].
    destruct (member p (q :: l)); reflexivity. }
  destruct leads.
  - destruct (Hrun 1%nat [] (Suspended (Killpg p SIGTERM)) w5) as [fuel Hf].
    + apply (@exec_trigger_blocked _ _ 0). exact Ek.
    + discriminate.
    + exists fuel, w5. intros more. apply exec_more; [exact Hf | discriminate].
  - destruct (Hrun 3%nat [Ev (Killpg p SIGTERM) (killpg_answer p w)]
                   (Returned tt) w5) as [fuel Hf].
    + change 3%nat with (2 + 1)%nat.
      change [Ev (Killpg p SIGTERM) (killpg_answer p w)]
        with ([Ev (Killpg p SIGTERM) (killpg_answer p w)] ++ []).
      eapply exec_bind; [apply (@exec_trigger _ 0); exact Ek | | discriminate].
      apply (@exec_Ret _ 0).
    + discriminate.
    + exists fuel, w5. intros more. apply exec_more; [exact Hf | discriminate].
Qed.

(** The detached daemon, process 1, is in the group of process 3, which
    forked it: no group has the id 1, [killpg] fails and [doDaemon]
    returns. *)
Lemma doDaemon_revives_when_sibling_gone_witness :
  let w := in_group_of 3 1 sibling_gone in
  let n := nextfd w in
  let query :=
    pwrites emptyParcel
      [WInterfaceToken "android.os.IServiceManager"; WString16 (Some "activity")] in
  let found := binder w 0 CHECK_SERVICE_TRANSACTION query true in
  let amsHandle :=
    match readObject (snd found) with Some flat => handle flat | None => 0 end in
  let request := writeStartServiceParcel emptyParcel "pkg" "svc" 28 in
  let leads := member 1 (group w 1) in
  exists fuel w',
    forall more,
      exec (fuel + more) 1
           (doDaemon "/data/a.lock" "/data/b.lock" "/data/a.obs" "/data/b.obs"
                     "pkg" "svc" 28 30) w =
      ([Ev (Open "/data/a.lock" (Z.lor O_RDONLY O_LARGEFILE) None) n;
        Ev (Flock n (Z.lor LOCK_EX LOCK_NB)) 0;
        Ev (Open "/data/a.obs" (Z.lor O_RDONLY O_LARGEFILE) None) (-1);
        Ev (Open "/data/a.obs" O_CREAT (Some (Z.lor S_IRUSR S_IWUSR))) (n + 1);
        Ev (Open "/data/b.obs" (Z.lor O_RDONLY O_LARGEFILE) None) (n + 1 + 1);
        Ev (Remove "/data/b.obs") 0;
        Ev OpenDriver (n + 1 + 2);
        Ev (InitProcessState (n + 1 + 2)) tt;
        Ev (WriteTransact 0 CHECK_SERVICE_TRANSACTION query true 0 (n + 1 + 2)) found;
        Ev (Open "/data/b.lock" (Z.lor O_RDONLY O_LARGEFILE) None) (n + 1 + 2 + 1);
        Ev (Flock (n + 1 + 2 + 1) (Z.lor LOCK_EX LOCK_NB)) 0;
        Ev (WriteTransact (to_int32 amsHandle) 30 request false 1 (n + 1 + 2))
           (binder w (to_int32 amsHandle) 30 request false);
        Ev (Remove "/data/a.obs") 0;
        Ev Getpid 1] ++
       (if leads then [] else [Ev (Killpg 1 SIGTERM) (killpg_answer 1 w)]),
       (if leads then Suspended (Killpg 1 SIGTERM) else Returned tt),
       w').
Proof.
  apply (@doDaemon_revives_when_sibling_gone 1 "/data/a.lock" "/data/b.lock"
           "/data/a.obs" "/data/b.obs" "pkg" "svc" 28 30
           (in_group_of 3 1 sibling_gone) 0%nat 1%nat 2%nat).
  - lia.
  - vm_compute. reflexivity.
  - discriminate.
  - discriminate.
  - discriminate.
  - vm_compute. reflexivity.
  - vm_compute. reflexivity.
  - vm_compute. reflexivity.
  - vm_compute. reflexivity.
  - vm_compute. reflexivity.
  - vm_compute. reflexivity.
  - lia.
Defined.

(* ===================================================================== *)
(** * The entry point [FwNative.lockFile] on the kernel *)
(* ===================================================================== *)

(** X26.  The entry point [FwNative.lockFile] on a file that exists.  When the
    lock is free it is taken, and it stays taken after the return: the
    descriptor is left open, so that the lock lasts as long as the
    process.  When the lock is held by another open file description the
    call is refused.  Either way the entry point returns normally, after
    releasing the string: the caller is not told whether the lock was
    taken. *)
Theorem FwNative_lockFile_on_kernel
        (p : Z) (path : string) (w : world) (i : nat) (fuel : nat) :
  0 < nextfd w -> names w path = Some i ->
  (holder w i = None ->
   exists w',
     exec (8 + fuel) p (FwNative_lockFile (Some path)) w =
     ([Ev (Open path (Z.lor O_RDONLY O_LARGEFILE) None) (nextfd w);
       Ev (Flock (nextfd w) (Z.lor LOCK_EX LOCK_NB)) 0;
       Ev (ReleaseStringUTFChars (Some path) path) tt],
      Returned tt, w') /\
     holder w' i = Some (p, nextfd w) /\ fdtab w' p (nextfd w) = Some i) /\
  (forall q d,
      holder w i = Some (q, d) -> q <> p \/ d < nextfd w ->
      exists w',
        exec (8 + fuel) p (FwNative_lockFile (Some path)) w =
        ([Ev (Open path (Z.lor O_RDONLY O_LARGEFILE) None) (nextfd w);
          Ev (Flock (nextfd w) (Z.lor LOCK_EX LOCK_NB)) (-1);
          Ev (ReleaseStringUTFChars (Some path) path) tt],
         Returned tt, w') /\
        holder w' i = Some (q, d)).
Proof.
  intros Hwf Hn.
  assert (Eobs : forall f ww,
             exec f p (FwNative_lockFile (Some path)) ww =
             exec f p (lockFile path ;;
                       ITree.trigger (ReleaseStringUTFChars (Some path) path)) ww).
  { intros f ww. apply exec_observe. reflexivity. }
  split.
  - intros Hh. eexists. split; [| split].
    + rewrite Eobs.
      change (8 + fuel)%nat with (6 + 0 + (S (S fuel)))%nat.
      match goal with
      | |- exec _ _ _ _ = ([?a; ?b; ?c], _, _) =>
          change [a; b; c] with ([a; b] ++ [c])
      end.
      eapply exec_bind; [apply exec_lockFile_granted; eauto | | discriminate].
      apply exec_trigger. reflexivity.
    + cbn. rewrite Nat.eqb_refl. reflexivity.
    + cbn. unfold set_fd. rewrite !Z.eqb_refl. reflexivity.
  - intros q d Hh Hq. eexists. split.
    + rewrite Eobs.
      change (8 + fuel)%nat with (6 + 0 + (S (S fuel)))%nat.
      match goal with
      | |- exec _ _ _ _ = ([?a; ?b; ?c], _, _) =>
          change [a; b; c] with ([a; b] ++ [c])
      end.
      eapply exec_bind; [| | discriminate].
      * eapply exec_lockFile_refused; eauto.
        apply (@same_ofd_other (q, d) p (nextfd w) w); [exact Hq | lia].
      * apply exec_trigger. reflexivity.
    + exact Hh.
Qed.

Lemma FwNative_lockFile_on_kernel_witness :
  (holder sibling_gone 1%nat = None ->
   exists w',
     exec (8 + 0) 1 (FwNative_lockFile (Some "/data/b.lock")) sibling_gone =
     ([Ev (Open "/data/b.lock" (Z.lor O_RDONLY O_LARGEFILE) None) (nextfd sibling_gone);
       Ev (Flock (nextfd sibling_gone) (Z.lor LOCK_EX LOCK_NB)) 0;
       Ev (ReleaseStringUTFChars (Some "/data/b.lock") "/data/b.lock") tt],
      Returned tt, w') /\
     holder w' 1%nat = Some (1, nextfd sibling_gone) /\
     fdtab w' 1 (nextfd sibling_gone) = Some 1%nat) /\
  (forall q d,
      holder sibling_gone 1%nat = Some (q, d) -> q <> 1 \/ d < nextfd sibling_gone ->
      exists w',
        exec (8 + 0) 1 (FwNative_lockFile (Some "/data/b.lock")) sibling_gone =
        ([Ev (Open "/data/b.lock" (Z.lor O_RDONLY O_LARGEFILE) None) (nextfd sibling_gone);
          Ev (Flock (nextfd sibling_gone) (Z.lor LOCK_EX LOCK_NB)) (-1);
          Ev (ReleaseStringUTFChars (Some "/data/b.lock") "/data/b.lock") tt],
         Returned tt, w') /\
        holder w' 1%nat = Some (q, d)).
Proof.
  apply (@FwNative_lockFile_on_kernel 1 "/data/b.lock" sibling_gone 1%nat 0%nat).
  - vm_compute. reflexivity.
  - vm_compute. reflexivity.
Defined.

(* ===================================================================== *)
(** * The whole guard on the kernel, the sibling being alive *)
(* ===================================================================== *)

(** X27.  Monitoring with the sibling alive.  On the kernel, let the guard
    find its own lock free and the observer file of the sibling in place,
    while another process holds the lock on the indicator file of the
    sibling.  Then [doDaemon] takes its own lock, goes through Syncing,
    opens the driver, asks the registry, tries the lock of the sibling
    once, is refused, and returns: it does not wait for the sibling to
    die, and it submits nothing. *)
Theorem doDaemon_returns_while_sibling_holds
        (p : Z) (indicatorSelfPath indicatorDaemonPath
                 observerSelfPath observerDaemonPath
                 packageName serviceName : string)
        (sdkVersion transactCode : Z) (w : world) (i1 i2 j : nat) (q d : Z) :
  0 < nextfd w ->
  observerSelfPath <> observerDaemonPath ->
  indicatorDaemonPath <> observerSelfPath ->
  indicatorDaemonPath <> observerDaemonPath ->
  names w indicatorSelfPath = Some i1 -> holder w i1 = None ->
  names w observerSelfPath = None -> names w observerDaemonPath = Some j ->
  names w indicatorDaemonPath = Some i2 -> holder w i2 = Some (q, d) ->
  q <> p -> i1 <> i2 ->
  let n := nextfd w in
  let query :=
    pwrites emptyParcel
      [WInterfaceToken "android.os.IServiceManager"; WString16 (Some "activity")] in
  exists fuel w',
    (forall more,
        exec (fuel + more) p
             (doDaemon indicatorSelfPath indicatorDaemonPath
                       observerSelfPath observerDaemonPath
                       packageName serviceName sdkVersion transactCode) w =
        ([Ev (Open indicatorSelfPath (Z.lor O_RDONLY O_LARGEFILE) None) n;
          Ev (Flock n (Z.lor LOCK_EX LOCK_NB)) 0;
          Ev (Open observerSelfPath (Z.lor O_RDONLY O_LARGEFILE) None) (-1);
          Ev (Open observerSelfPath O_CREAT (Some (Z.lor S_IRUSR S_IWUSR))) (n + 1);
          Ev (Open observerDaemonPath (Z.lor O_RDONLY O_LARGEFILE) None) (n + 1 + 1);
          Ev (Remove observerDaemonPath) 0;
          Ev OpenDriver (n + 1 + 2);
          Ev (InitProcessState (n + 1 + 2)) tt;
          Ev (WriteTransact 0 CHECK_SERVICE_TRANSACTION query true 0 (n + 1 + 2))
             (binder w 0 CHECK_SERVICE_TRANSACTION query true);
          Ev (Open indicatorDaemonPath (Z.lor O_RDONLY O_LARGEFILE) None) (n + 1 + 2 + 1);
          Ev (Flock (n + 1 + 2 + 1) (Z.lor LOCK_EX LOCK_NB)) (-1)],
         Returned tt, w')) /\
    holder w' i2 = Some (q, d).
Proof.
  intros Hwf HoSD HiDoS HiDoD NiS HiS NoS NoD NiD HiD Hq Hi n query.
  set (w1 := set_holder (snd (os_alloc p i1 w)) i1 (Some (p, n))).
  destruct (@exec_notifyAndWaitFor_present p observerSelfPath observerDaemonPath
              w1 j 0)
    as (w2 & E2 & N2D & N2S & N2o & H2 & F2 & B2); auto.
  { cbn. lia. }
  set (w3 := snd (os_driver w2)).
  assert (N3 : names w3 indicatorDaemonPath = Some i2).
  { cbn. rewrite N2o; auto. }
  assert (H3 : holder w3 i2 = Some (q, d)).
  { cbn. rewrite H2. cbn.
    destruct (Nat.eqb_spec i2 i1); [congruence | exact HiD]. }
  assert (F2' : n + 1 + 2 = nextfd w2).
  { rewrite F2. reflexivity. }
  assert (F3 : 0 < nextfd w3).
  { cbn. rewrite F2. cbn. lia. }
  assert (B3 : binder w3 = binder w).
  { cbn. rewrite B2. reflexivity. }
  eexists. exists (snd (os_alloc p i2 w3)). split; [| exact H3].
  intros more.
  apply exec_more; [| discriminate].
  rewrite F2'. unfold doDaemon.
  match goal with
  | |- exec _ _ _ _ = (?a :: ?b :: ?rest, _, _) =>
      change (a :: b :: rest) with ([a; b] ++ rest)
  end.
  eapply exec_bind; [apply (@exec_lockingSelf_granted p indicatorSelfPath w i1 0); auto
                    | | discriminate].
  cbv zeta. cbn [snd Z.eqb].
  match goal with
  | |- exec _ _ _ _ = (?a :: ?b :: ?c :: ?d :: ?rest, _, _) =>
      change (a :: b :: c :: d :: rest) with ([a; b; c; d] ++ rest)
  end.
  eapply exec_bind; [exact E2 | | discriminate].
  match goal with
  | |- exec _ _ _ _ = (?a :: ?rest, _, _) =>
      change (a :: rest) with ([a] ++ rest)
  end.
  eapply exec_bind; [apply (@exec_trigger _ 0); reflexivity | | discriminate].
  match goal with
  | |- exec _ _ _ _ = (?a :: ?rest, _, _) =>
      change (a :: rest) with ([a] ++ rest)
  end.
  eapply exec_bind; [apply (@exec_trigger _ 0); reflexivity | | discriminate].
  match goal with
  | |- exec _ _ _ _ = (?a :: ?rest, _, _) =>
      change (a :: rest) with ([a] ++ rest)
  end.
  eapply exec_bind; [| | discriminate].
  { unfold query. rewrite <- B3.
    apply (@exec_getServiceHandle p "activity" (nextfd w2) w3 0). }
  cbv zeta.
  match goal with
  | |- exec _ _ _ _ = ([?a; ?b], _, _) => change [a; b] with ([a; b] ++ [])
  end.
  eapply exec_bind; [| | discriminate].
  { apply (@exec_lockFile_refused p indicatorDaemonPath w3 i2 (q, d) 0); auto.
    unfold same_ofd. cbn.
    assert (E : (q =? p) = false) by (apply Z.eqb_neq; exact Hq).
    rewrite E. reflexivity. }
  cbn [Z.eqb]. apply (@exec_Ret _ 0).
Qed.

Lemma doDaemon_returns_while_sibling_holds_witness :
  let n := nextfd sibling_holds in
  let query :=
    pwrites emptyParcel
      [WInterfaceToken "android.os.IServiceManager"; WString16 (Some "activity")] in
  exists fuel w',
    (forall more,
        exec (fuel + more) 1
             (doDaemon "/data/a.lock" "/data/b.lock" "/data/a.obs" "/data/b.obs"
                       "pkg" "svc" 28 30) sibling_holds =
        ([Ev (Open "/data/a.lock" (Z.lor O_RDONLY O_LARGEFILE) None) n;
          Ev (Flock n (Z.lor LOCK_EX LOCK_NB)) 0;
          Ev (Open "/data/a.obs" (Z.lor O_RDONLY O_LARGEFILE) None) (-1);
          Ev (Open "/data/a.obs" O_CREAT (Some (Z.lor S_IRUSR S_IWUSR))) (n + 1);
          Ev (Open "/data/b.obs" (Z.lor O_RDONLY O_LARGEFILE) None) (n + 1 + 1);
          Ev (Remove "/data/b.obs") 0;
          Ev OpenDriver (n + 1 + 2);
          Ev (InitProcessState (n + 1 + 2)) tt;
          Ev (WriteTransact 0 CHECK_SERVICE_TRANSACTION query true 0 (n + 1 + 2))
             (binder sibling_holds 0 CHECK_SERVICE_TRANSACTION query true);
          Ev (Open "/data/b.lock" (Z.lor O_RDONLY O_LARGEFILE) None) (n + 1 + 2 + 1);
          Ev (Flock (n + 1 + 2 + 1) (Z.lor LOCK_EX LOCK_NB)) (-1)],
         Returned tt, w')) /\
    holder w' 1%nat = Some (2, 4).
Proof.
  apply (@doDaemon_returns_while_sibling_holds 1 "/data/a.lock" "/data/b.lock"
           "/data/a.obs" "/data/b.obs" "pkg" "svc" 28 30 sibling_holds
           0%nat 1%nat 2%nat 2 4).
  - vm_compute. reflexivity.
  - discriminate.
  - discriminate.
  - discriminate.
  - vm_compute. reflexivity.
  - vm_compute. reflexivity.
  - vm_compute. reflexivity.
  - vm_compute. reflexivity.
  - vm_compute. reflexivity.
  - vm_compute. reflexivity.
  - lia.
  - lia.
Defined.

(* ===================================================================== *)
(** * [waitForFileLock] on a lock nobody holds *)
(* ===================================================================== *)

Lemma os_flock_again p fd w i :
  fdtab w p fd = Some i -> holder w i = Some (p, fd) ->
  os_flock p fd (Z.lor LOCK_EX LOCK_NB) w = Some (0, w).
Proof.
  intros Hf Hh. unfold os_flock. rewrite Hf. cbn. rewrite Hh.
  unfold same_ofd. cbn. rewrite !Z.eqb_refl. reflexivity.
Qed.

(** One round of the drain loop, the lock being with the caller. *)
Lemma drain_from_round p fd w i fuel :
  fdtab w p fd = Some i -> holder w i = Some (p, fd) ->
  exec (S (S (S fuel))) p (drain_from fd) w =
  (Ev (Flock fd (Z.lor LOCK_EX LOCK_NB)) 0 :: Ev (Usleep 1000) tt
      :: fst (fst (exec fuel p (drain_from fd) w)),
   snd (fst (exec fuel p (drain_from fd) w)),
   snd (exec fuel p (drain_from fd) w)).
Proof.
  intros Hf Hh.
  erewrite exec_vis;
    [| unfold drain_from, flock; cbn; reflexivity
     | cbn [os_call]; apply (@os_flock_again p fd w i Hf Hh)].
  erewrite exec_vis; [| cbn; reflexivity | reflexivity].
  reflexivity.
Qed.

Lemma drain_from_spins p fd w i :
  fdtab w p fd = Some i -> holder w i = Some (p, fd) ->
  forall fuel,
    (snd (fst (exec fuel p (drain_from fd) w)) = Running /\
     count flock_other (fst (fst (exec fuel p (drain_from fd) w))) = 0%nat) /\
    (snd (fst (exec (S fuel) p (drain_from fd) w)) = Running /\
     count flock_other (fst (fst (exec (S fuel) p (drain_from fd) w))) = 0%nat) /\
    (snd (fst (exec (S (S fuel)) p (drain_from fd) w)) = Running /\
     count flock_other (fst (fst (exec (S (S fuel)) p (drain_from fd) w))) = 0%nat).
Proof.
  intros Hf Hh fuel.
  induction fuel as [| fuel (IH0 & IH1 & IH2)].
  - split; [split; reflexivity |].
    assert (E1 : exec 1 p (drain_from fd) w =
                 ([Ev (Flock fd (Z.lor LOCK_EX LOCK_NB)) 0], Running, w)).
    { erewrite exec_vis;
        [| unfold drain_from, flock; cbn; reflexivity
         | cbn [os_call]; apply (@os_flock_again p fd w i Hf Hh)].
      reflexivity. }
    assert (E2 : exec 2 p (drain_from fd) w =
                 ([Ev (Flock fd (Z.lor LOCK_EX LOCK_NB)) 0; Ev (Usleep 1000) tt],
                  Running, w)).
    { erewrite exec_vis;
        [| unfold drain_from, flock; cbn; reflexivity
         | cbn [os_call]; apply (@os_flock_again p fd w i Hf Hh)].
      erewrite exec_vis; [| cbn; reflexivity | reflexivity].
      reflexivity. }
    rewrite E1, E2. cbn [fst snd]. split; split; reflexivity.
  - split; [exact IH1 | split; [exact IH2 |]].
    rewrite (@drain_from_round p fd w i fuel Hf Hh). cbn [fst snd].
    destruct IH0 as [O0 C0]. split; [exact O0 |].
    cbn [count]. exact C0.
Qed.

(** X28.  A free lock is never waited for.  On the kernel, let the file
    exist and nobody hold its lock.  Then [waitForFileLock] takes the lock
    with its first non-blocking [flock] and, asking again on the same
    descriptor, is granted it again in every round of the drain loop:
    whatever time it is given, it does not return and does not reach the
    blocking [flock]. *)
Theorem waitForFileLock_spins_on_free_lock
        (p : Z) (path : string) (w : world) (i : nat) :
  0 < nextfd w -> names w path = Some i -> holder w i = None ->
  forall fuel,
    snd (fst (exec fuel p (waitForFileLock path) w)) = Running /\
    count flock_other (fst (fst (exec fuel p (waitForFileLock path) w))) = 0%nat.
Proof.
  intros Hwf Hn Hh fuel.
  set (w0 := snd (os_alloc p i w)).
  set (w1 := set_holder w0 i (Some (p, nextfd w))).
  assert (Hf0 : fdtab w0 p (nextfd w) = Some i) by apply fdtab_os_alloc.
  assert (Hh0 : holder w0 i = None) by exact Hh.
  assert (Hf1 : fdtab w1 p (nextfd w) = Some i) by exact Hf0.
  assert (Hh1 : holder w1 i = Some (p, nextfd w)).
  { cbn. rewrite Nat.eqb_refl. reflexivity. }
  assert (E : (nextfd w =? -1) = false) by (apply Z.eqb_neq; lia).
  destruct fuel as [| fuel]; [split; reflexivity |].
  erewrite exec_vis;
    [| unfold waitForFileLock, openOrCreate, open2; cbn; reflexivity
     | cbn [os_call]; unfold os_open; rewrite Hn; reflexivity].
  fold w0. cbn [fst snd count].
  rewrite (@exec_observe _ fuel p _ (drain_from (nextfd w)) w0)
    by (transitivity
          (observe (ITree.bind (if nextfd w =? -1
                                then open3 path O_CREAT (Z.lor S_IRUSR S_IWUSR)
                                else Ret (nextfd w)) drain_from));
        [reflexivity | rewrite E; reflexivity]).
  destruct fuel as [| fuel]; [split; reflexivity |].
  erewrite exec_vis;
    [| unfold drain_from, flock; cbn; reflexivity
     | cbn [os_call]; apply (@os_flock_granted p (nextfd w) w0 i Hf0 Hh0)].
  fold w1. cbn [fst snd count].
  destruct fuel as [| fuel]; [split; reflexivity |].
  erewrite exec_vis; [| cbn; reflexivity | reflexivity].
  cbn [fst snd count].
  destruct fuel as [| fuel]; [split; reflexivity |].
  rewrite (@exec_observe _ (S fuel) p _ (Tau (drain_from (nextfd w))) w1)
    by (cbn; reflexivity).
  rewrite exec_Tau.
  destruct (@drain_from_spins p (nextfd w) w1 i Hf1 Hh1 fuel) as ((O & C) & _).
  split; [exact O | exact C].
Qed.

Lemma waitForFileLock_spins_on_free_lock_witness :
  snd (fst (exec 100 1 (waitForFileLock "/data/b.lock") sibling_gone))
  = Running /\
  count flock_other
        (fst (fst (exec 100 1 (waitForFileLock "/data/b.lock") sibling_gone)))
  = 0%nat.
Proof.
  apply (@waitForFileLock_spins_on_free_lock 1 "/data/b.lock" sibling_gone 1%nat).
  - vm_compute. reflexivity.
  - vm_compute. reflexivity.
  - vm_compute. reflexivity.
Defined.

(* ===================================================================== *)
(** * [lockFile] on a file that does not exist *)
(* ===================================================================== *)

(** X29.  [lockFile] on a missing file.  On the kernel, when no file has the
    name, the read-only [open] fails, the second [open], with [O_CREAT],
    makes the file, and the non-blocking [flock] on the new descriptor is
    granted: [lockFile] returns 1, the name now exists, the caller holds
    the lock, and no other name has changed. *)
Theorem lockFile_creates_and_locks
        (p : Z) (path : string) (w : world) (fuel : nat) :
  0 < nextfd w -> names w path = None -> holder w (inodes w) = None ->
  exists w',
    exec (7 + fuel) p (lockFile path) w =
    ([Ev (Open path (Z.lor O_RDONLY O_LARGEFILE) None) (-1);
      Ev (Open path O_CREAT (Some (Z.lor S_IRUSR S_IWUSR))) (nextfd w);
      Ev (Flock (nextfd w) (Z.lor LOCK_EX LOCK_NB)) 0],
     Returned 1, w') /\
    names w' path = Some (inodes w) /\
    holder w' (inodes w) = Some (p, nextfd w) /\
    (forall other, other <> path -> names w' other = names w other).
Proof.
  intros Hwf Hn Hh.
  set (w0 := snd (os_alloc p (inodes w) (snd (os_creat path w)))).
  exists (set_holder w0 (inodes w) (Some (p, nextfd w))).
  split; [| split; [| split]].
  - unfold lockFile, flock.
    change (7 + fuel)%nat with (4 + (3 + fuel))%nat.
    match goal with
    | |- exec _ _ _ _ = ([?a; ?b; ?c], _, _) =>
        change [a; b; c] with ([a; b] ++ [c] ++ [])
    end.
    eapply exec_bind;
      [apply (@exec_openOrCreate_absent p path w 0 Hwf Hn) | | discriminate].
    assert (E : (nextfd w =? -1) = false) by (apply Z.eqb_neq; lia).
    rewrite E.
    change (3 + fuel)%nat with (2 + S fuel)%nat.
    eapply exec_bind.
    + apply exec_trigger. cbn [os_call].
      apply (@os_flock_granted p (nextfd w) w0 (inodes w)).
      * cbn. unfold set_fd. rewrite !Z.eqb_refl. reflexivity.
      * exact Hh.
    + reflexivity.
    + discriminate.
  - cbn. rewrite String.eqb_refl. reflexivity.
  - cbn. rewrite Nat.eqb_refl. reflexivity.
  - intros other Ho. cbn.
    destruct (String.eqb_spec other path); [contradiction | reflexivity].
Qed.

Lemma lockFile_creates_and_locks_witness :
  exists w',
    exec (7 + 0) 1 (lockFile "/data/a.lock") (boot emptyParcel) =
    ([Ev (Open "/data/a.lock" (Z.lor O_RDONLY O_LARGEFILE) None) (-1);
      Ev (Open "/data/a.lock" O_CREAT (Some (Z.lor S_IRUSR S_IWUSR)))
         (nextfd (boot emptyParcel));
      Ev (Flock (nextfd (boot emptyParcel)) (Z.lor LOCK_EX LOCK_NB)) 0],
     Returned 1, w') /\
    names w' "/data/a.lock" = Some (inodes (boot emptyParcel)) /\
    holder w' (inodes (boot emptyParcel)) = Some (1, nextfd (boot emptyParcel)) /\
    (forall other, other <> "/data/a.lock" ->
                   names w' other = names (boot emptyParcel) other).
Proof.
  apply (@lockFile_creates_and_locks 1 "/data/a.lock" (boot emptyParcel) 0%nat).
  - vm_compute. reflexivity.
  - vm_compute. reflexivity.
  - vm_compute. reflexivity.
Defined.
